(** * Workforce management system: the leave-request lifecycle

    A shallow embedding of the leave-request core of the repository:
    - [src/repositories/LeaveRequestRepository.js] (the record store),
    - [src/services/LeaveRequestService.js] (the orchestrator),
    - [src/queues/leaveRequestProcessor.js] (the asynchronous auto-processor),
    - the parts of [src/models/LeaveRequest.js], [src/config/rabbitmq.js]
      and [src/repositories/EmployeeRepository.js] those three rely on,
    - [src/controllers/LeaveRequestController.js] with
      [src/middleware/errorHandler.js], and [src/middleware/rateLimiter.js].

    Conventions of the embedding.
    - Instants are ECMAScript time values: integer milliseconds since the
      epoch, as [Z], of magnitude at most 8.64e15.  A JS [Date] is an
      [option Z]; [None] is the Invalid Date (time value NaN).  The engine
      holds a time value in a binary64 double; the arithmetic on time values
      is written on the integers where it is exact in binary64, and on
      binary64 values ([Binary64]) where it is not.
    - A DATEONLY column holds a calendar day; it is the number of days since
      1970-01-01 and reads back as the string YYYY-MM-DD.
    - The body of a creation request holds the four fields its route
      validates, with date-only strings for the two dates.
    - [await] is sequencing: every operation is a function from the world
      before the call to a result and the world after it.  A thrown [Error]
      is the [Err] branch of [Result]. *)

From Stdlib Require Import ZArith List String Bool Lia.
From Stdlib Require PrimFloat FloatOps Uint63.
Import ListNotations.

Open Scope string_scope.
Open Scope Z_scope.

(** ** Errors

    The services throw plain [Error]s told apart by their message; the
    store throws Sequelize's errors. *)

Inductive Error : Type :=
| EmployeeNotFound
| StartAfterEnd
| PastDate
| Overlap
| LeaveRequestNotFound
| InvalidStatus
| UnauthorizedCancel
| CannotCancelRejected
| SequelizeValidationError
| SequelizeUniqueConstraintError
| SequelizeForeignKeyConstraintError.

(** The message of the errors whose text is in the sources; the two
    constraint errors carry the database driver's text. *)
Definition message (e : Error) : option string :=
  match e with
  | EmployeeNotFound => Some "Employee not found"
  | StartAfterEnd => Some "Start date must be before or equal to end date"
  | PastDate => Some "Cannot create leave request for past dates"
  | Overlap =>
      Some "Leave request overlaps with existing approved or pending request"
  | LeaveRequestNotFound => Some "Leave request not found"
  | InvalidStatus => Some "Invalid status"
  | UnauthorizedCancel => Some "Unauthorized to cancel this leave request"
  | CannotCancelRejected => Some "Cannot cancel rejected leave request"
  | SequelizeValidationError =>
      Some "End date must be after or equal to start date"
  | SequelizeUniqueConstraintError => None
  | SequelizeForeignKeyConstraintError => None
  end.

Inductive ErrorKind : Type :=
| NotFound | InvalidInput | Conflict | Unauthorized | InvalidState
| ConstraintViolation.

(** Modelled from the spec: the taxonomy of section 7 names the failures the
    code raises as messages. *)
Definition kind (e : Error) : ErrorKind :=
  match e with
  | EmployeeNotFound | LeaveRequestNotFound => NotFound
  | StartAfterEnd | PastDate | InvalidStatus | SequelizeValidationError => InvalidInput
  | Overlap => Conflict
  | UnauthorizedCancel => Unauthorized
  | CannotCancelRejected => InvalidState
  | SequelizeUniqueConstraintError | SequelizeForeignKeyConstraintError =>
      ConstraintViolation
  end.

(** ** Results of fallible operations *)

Inductive Result (A : Type) : Type :=
| Ok (a : A)
| Err (e : Error).

Arguments Ok {A} a.
Arguments Err {A} e.

Definition bind {A B : Type} (m : Result A) (k : A -> Result B) : Result B :=
  match m with
  | Ok a => k a
  | Err e => Err e
  end.

(** [if (b) throw e] *)
Definition throwIf (b : bool) (e : Error) : Result unit :=
  if b then Err e else Ok tt.

Notation "m ;; k" := (bind m (fun _ => k))
  (at level 61, right associativity).

(** ** utils/constants *)

Module Constants.

(** Modelled from the spec: [src/utils/constants.js] is not among the
    sources.  The four status values are the ones the model's ENUM column
    and the status validator enumerate. *)
Inductive Status : Type := PENDING | APPROVED | REJECTED | PENDING_APPROVAL.

Definition Status_eqb (a b : Status) : bool :=
  match a, b with
  | PENDING, PENDING | APPROVED, APPROVED
  | REJECTED, REJECTED | PENDING_APPROVAL, PENDING_APPROVAL => true
  | _, _ => false
  end.

Definition statusName (s : Status) : string :=
  match s with
  | PENDING => "PENDING"
  | APPROVED => "APPROVED"
  | REJECTED => "REJECTED"
  | PENDING_APPROVAL => "PENDING_APPROVAL"
  end.

(** [Object.values(LEAVE_REQUEST_STATUS)] *)
Definition LEAVE_REQUEST_STATUS_values : list Status :=
  [PENDING; APPROVED; REJECTED; PENDING_APPROVAL].

(** The status a string denotes, when [validStatuses.includes] accepts it. *)
Definition statusOfString (s : string) : option Status :=
  find (fun st => String.eqb (statusName st) s) LEAVE_REQUEST_STATUS_values.

(** Modelled from the spec: the two topics of section 6. *)
Definition LEAVE_REQUESTED : string := "leave.requested".
Definition LEAVE_APPROVED : string := "leave.approved".

(** Modelled from the spec: "THRESHOLD defaults to 2 days, externally
    configurable".  The processor below takes the threshold as a parameter;
    this is its default. *)
Definition DEFAULT_AUTO_APPROVE_DAYS_THRESHOLD : Z := 2.

End Constants.
Import Constants.

(** ** Dates, as the JS runtime gives them to the code *)

Module JsDate.

Definition MILLISECONDS_IN_DAY : Z := 1000 * 60 * 60 * 24.

(** The largest magnitude of a time value: 100,000,000 days either side of
    the epoch. *)
Definition MAX_TIME_VALUE : Z := 8640000000000000.

(** What the code hands to [new Date(...)]. *)
Inductive DateInput : Type :=
| DateOnly (day : Z)      (* a YYYY-MM-DD string: midnight UTC of that day *)
| Instant (ms : Z)        (* a Date, a number, or a full timestamp string *)
| Unparseable.            (* anything [new Date] turns into Invalid Date *)

(** [new Date(x).getTime()]; [None] stands for NaN.  A number beyond
    [MAX_TIME_VALUE] gives the Invalid Date (TimeClip).  The days of a
    YYYY-MM-DD string, years 0000 to 9999, lie well within the range. *)
Definition newDate (x : DateInput) : option Z :=
  match x with
  | DateOnly d => Some (d * MILLISECONDS_IN_DAY)
  | Instant ms => if Z.abs ms <=? MAX_TIME_VALUE then Some ms else None
  | Unparseable => None
  end.

(** Relational operators on time values: any comparison with NaN is false. *)
Definition lt (a b : option Z) : bool :=
  match a, b with
  | Some x, Some y => x <? y
  | _, _ => false
  end.

Definition gt (a b : option Z) : bool := lt b a.

(** [Math.ceil(a / b)] for a positive divisor. *)
Definition ceilDiv (a b : Z) : Z := - ((- a) / b).

(** Days from 1970-01-01 to the civil date [y]-[m]-[d] in the proleptic
    Gregorian calendar; [m] counts from 1. *)
Definition daysFromCivil (y m d : Z) : Z :=
  let y' := if m <=? 2 then y - 1 else y in
  let era := y' / 400 in
  let yoe := y' - era * 400 in
  let mp := if m <=? 2 then m + 9 else m - 3 in
  let doy := (153 * mp + 2) / 5 + d - 1 in
  let doe := yoe * 365 + yoe / 4 - yoe / 100 + doy in
  era * 146097 + doe - 719468.

(** The DATEONLY string YYYY-MM-DD. *)
Definition isoDate (y m d : Z) : DateInput := DateOnly (daysFromCivil y m d).

(** [new Date(year, monthIndex, day).getTime()]: midnight of that day in
    the server's local time, which is UTC plus [utcOffset] milliseconds.
    A year from 0 to 99 means 1900 + year. *)
Definition newDateLocal (utcOffset year monthIndex day : Z) : Z :=
  let yr := if (0 <=? year) && (year <=? 99) then 1900 + year else year in
  daysFromCivil yr (monthIndex + 1) day * MILLISECONDS_IN_DAY - utcOffset.

(** [new Date(t).setHours(0, 0, 0, 0)]: the time value of the local
    midnight that starts the local day of [t]. *)
Definition setHours0 (utcOffset t : Z) : Z :=
  (t + utcOffset) / MILLISECONDS_IN_DAY * MILLISECONDS_IN_DAY - utcOffset.

(** The server's local calendar day at instant [t]. *)
Definition localDay (utcOffset t : Z) : Z :=
  (t + utcOffset) / MILLISECONDS_IN_DAY.

End JsDate.
Import JsDate.

(** ** models/LeaveRequest.js *)

Module LeaveRequest.

Record t : Type := mk {
  id : Z;
  employeeId : Z;
  startDate : Z;                   (* DATEONLY *)
  endDate : Z;                     (* DATEONLY *)
  status : Status;
  processedAt : option Z;
  idempotencyKey : option string;
  createdAt : Z;
  updatedAt : Z
}.

(** The row after [update({ status, processedAt: new Date() })]. *)
Definition withStatus (s : Status) (now : Z) (r : t) : t :=
  {| id := id r; employeeId := employeeId r;
     startDate := startDate r; endDate := endDate r;
     status := s; processedAt := Some now;
     idempotencyKey := idempotencyKey r;
     createdAt := createdAt r; updatedAt := now |}.

End LeaveRequest.

(** ** The world the operations run in *)

(** The events handed to [publishMessage]. *)
Inductive Message : Type :=
| LeaveRequestedMessage (id employeeId startDate endDate : Z) (status : Status)
    (idempotencyKey : option string) (timestamp : Z)
| LeaveApprovedMessage (id employeeId startDate endDate : Z) (processedAt : Z).

(** One call of [publishMessage]: the routing key, the payload, and whether
    the channel took the message. *)
Record Publication : Type := mkPublication {
  routingKey : string;
  payload : Message;
  delivered : bool
}.

(** The tables and the trace of publish calls.  [employees] holds the ids of
    the rows of the employees table. *)
Record World : Type := mkWorld {
  employees : list Z;
  leaveRequests : list LeaveRequest.t;
  nextId : Z;                      (* the AUTO_INCREMENT counter *)
  published : list Publication
}.

(** What one operation reads from its surroundings: the clock, the server's
    UTC offset in milliseconds, the outcome of [crypto.randomBytes(16)] in
    hex, and whether the broker channel can be opened. *)
Record Env : Type := mkEnv {
  now : Z;
  utcOffset : Z;
  randomHex : string;
  brokerUp : bool
}.

Definition initialWorld (emps : list Z) : World :=
  {| employees := emps; leaveRequests := []; nextId := 1; published := [] |}.

Definition setLeaveRequests (w : World) (rows : list LeaveRequest.t) : World :=
  {| employees := employees w; leaveRequests := rows;
     nextId := nextId w; published := published w |}.

(** ** config/rabbitmq.js *)

(** [publishMessage]: [createChannel] throws when the broker cannot be
    reached, otherwise the message goes to the exchange.  The call is added
    to the trace either way; the result is [false] when it threw. *)
Definition publishMessage (env : Env) (w : World) (key : string) (m : Message)
  : World * bool :=
  ({| employees := employees w; leaveRequests := leaveRequests w;
      nextId := nextId w;
      published := published w ++ [mkPublication key m (brokerUp env)] |},
   brokerUp env).

(** ** repositories/EmployeeRepository.js *)

Module EmployeeRepository.

(** [exists(id)]: [Employee.count({ where: { id } }) > 0].  The employees
    table is the list of the ids it holds. *)
Definition exists_ (w : World) (id : Z) : bool :=
  let count := Z.of_nat (List.length (filter (Z.eqb id) (employees w))) in
  0 <? count.

End EmployeeRepository.

(** ** repositories/LeaveRequestRepository.js *)

Module LeaveRequestRepository.

(** The fields of [LeaveRequest.create(leaveRequestData)]. *)
Record CreateData : Type := mkCreateData {
  employeeId : Z;
  startDate : Z;
  endDate : Z;
  status : Status;
  idempotencyKey : string
}.

Definition hasKey (key : string) (r : LeaveRequest.t) : bool :=
  match LeaveRequest.idempotencyKey r with
  | Some k => String.eqb k key
  | None => false
  end.

(** [findOne({ where: { id } })] *)
Definition findById (w : World) (id : Z) : option LeaveRequest.t :=
  find (fun r => LeaveRequest.id r =? id) (leaveRequests w).

(** [findOne({ where: { idempotencyKey } })] *)
Definition findByIdempotencyKey (w : World) (idempotencyKey : string)
  : option LeaveRequest.t :=
  find (hasKey idempotencyKey) (leaveRequests w).

(** [LeaveRequest.create]: the model's [isAfterStartDate] validator runs
    first, then the INSERT, which the unique index on the idempotency key and
    the foreign key to employees can refuse.  The row is given the five
    fields of [CreateData] only, so it takes the next auto-increment id, a
    null [processedAt] and both timestamps from the clock.  Keys are
    compared as exact strings and are not bounded in length (the column is a
    STRING(255)). *)
Definition create (env : Env) (w : World) (leaveRequestData : CreateData)
  : Result (World * LeaveRequest.t) :=
  throwIf (JsDate.lt (newDate (DateOnly (endDate leaveRequestData)))
                     (newDate (DateOnly (startDate leaveRequestData))))
          SequelizeValidationError ;;
  throwIf (existsb (hasKey (idempotencyKey leaveRequestData)) (leaveRequests w))
          SequelizeUniqueConstraintError ;;
  throwIf (negb (EmployeeRepository.exists_ w (employeeId leaveRequestData)))
          SequelizeForeignKeyConstraintError ;;
  let row :=
    {| LeaveRequest.id := nextId w;
       LeaveRequest.employeeId := employeeId leaveRequestData;
       LeaveRequest.startDate := startDate leaveRequestData;
       LeaveRequest.endDate := endDate leaveRequestData;
       LeaveRequest.status := status leaveRequestData;
       LeaveRequest.processedAt := None;
       LeaveRequest.idempotencyKey := Some (idempotencyKey leaveRequestData);
       LeaveRequest.createdAt := now env;
       LeaveRequest.updatedAt := now env |} in
  Ok ({| employees := employees w;
         leaveRequests := leaveRequests w ++ [row];
         nextId := nextId w + 1;
         published := published w |}, row).

(** [x BETWEEN a AND b] *)
Definition between (x a b : Z) : bool := (a <=? x) && (x <=? b).

(** The [Op.or] of the overlap query: the row starts in the candidate range,
    or ends in it, or spans it. *)
Definition overlapMatch (startDate endDate : Z) (r : LeaveRequest.t) : bool :=
  between (LeaveRequest.startDate r) startDate endDate
  || between (LeaveRequest.endDate r) startDate endDate
  || ((LeaveRequest.startDate r <=? startDate)
      && (LeaveRequest.endDate r >=? endDate)).

(** [status IN (APPROVED, PENDING_APPROVAL)] *)
Definition isActive (r : LeaveRequest.t) : bool :=
  existsb (Status_eqb (LeaveRequest.status r)) [APPROVED; PENDING_APPROVAL].

(** [if (excludeId) where.id = { [Op.ne]: excludeId }]: 0 and null are
    both falsy. *)
Definition notExcluded (excludeId : option Z) (r : LeaveRequest.t) : bool :=
  match excludeId with
  | None => true
  | Some x => if x =? 0 then true else negb (LeaveRequest.id r =? x)
  end.

Definition findOverlapping (w : World) (employeeId startDate endDate : Z)
  (excludeId : option Z) : list LeaveRequest.t :=
  filter (fun r =>
            (LeaveRequest.employeeId r =? employeeId)
            && isActive r
            && overlapMatch startDate endDate r
            && notExcluded excludeId r)
         (leaveRequests w).

(** [LeaveRequest.update({ status, processedAt: new Date() }, { where: { id } })] *)
Definition updateStatus (env : Env) (w : World) (id : Z) (status : Status)
  : World :=
  setLeaveRequests w
    (map (fun r => if LeaveRequest.id r =? id
                   then LeaveRequest.withStatus status (now env) r
                   else r)
         (leaveRequests w)).

(** [LeaveRequest.destroy({ where: { id } })] *)
Definition delete (w : World) (id : Z) : World :=
  setLeaveRequests w
    (filter (fun r => negb (LeaveRequest.id r =? id)) (leaveRequests w)).

(** [count({ where: { id } }) > 0] *)
Definition exists_ (w : World) (id : Z) : bool :=
  0 <? Z.of_nat (List.length (filter (fun r => LeaveRequest.id r =? id)
                                (leaveRequests w))).

Record Stats : Type := mkStats {
  total : Z;
  approved : Z;
  pending : Z;
  rejected : Z;
  totalDays : Z
}.

(** The body of the [forEach] of [getEmployeeStats]. *)
Definition addRequest (stats : Stats) (request : LeaveRequest.t) : Stats :=
  let days :=
    ceilDiv (LeaveRequest.endDate request * MILLISECONDS_IN_DAY
             - LeaveRequest.startDate request * MILLISECONDS_IN_DAY)
            (1000 * 60 * 60 * 24) + 1 in
  match LeaveRequest.status request with
  | APPROVED =>
      {| total := total stats; approved := approved stats + 1;
         pending := pending stats; rejected := rejected stats;
         totalDays := totalDays stats + days |}
  | PENDING | PENDING_APPROVAL =>
      {| total := total stats; approved := approved stats;
         pending := pending stats + 1; rejected := rejected stats;
         totalDays := totalDays stats |}
  | REJECTED =>
      {| total := total stats; approved := approved stats;
         pending := pending stats; rejected := rejected stats + 1;
         totalDays := totalDays stats |}
  end.

(** The rows [findAll] selects: the employee's, with [createdAt] between
    [new Date(year, 0, 1)] and [new Date(year, 11, 31)]. *)
Definition statsRequests (env : Env) (w : World) (employeeId year : Z)
  : list LeaveRequest.t :=
  let startOfYear := newDateLocal (utcOffset env) year 0 1 in
  let endOfYear := newDateLocal (utcOffset env) year 11 31 in
  filter (fun r =>
            (LeaveRequest.employeeId r =? employeeId)
            && between (LeaveRequest.createdAt r) startOfYear endOfYear)
         (leaveRequests w).

Definition getEmployeeStats (env : Env) (w : World) (employeeId year : Z)
  : Stats :=
  let requests := statsRequests env w employeeId year in
  fold_left addRequest requests
    {| total := Z.of_nat (List.length requests);
       approved := 0; pending := 0; rejected := 0; totalDays := 0 |}.

End LeaveRequestRepository.

(** ** services/LeaveRequestService.js *)

Module LeaveRequestService.

(** The request body of a creation: the four fields the route validates.
    The dates are DATEONLY strings.  The service spreads the whole body into
    the row it inserts, so a body with further fields ([id], [processedAt],
    [createdAt], ...) would set those columns too; such bodies are outside
    this record. *)
Record LeaveRequestData : Type := mkLeaveRequestData {
  employeeId : Z;
  startDate : Z;
  endDate : Z;
  idempotencyKey : option string
}.

(** [{ success: true, data, duplicate }]; a response without the
    [duplicate] key has it false. *)
Record CreateResponse : Type := mkCreateResponse {
  data : option LeaveRequest.t;
  duplicate : bool
}.

(** [leaveRequestData.idempotencyKey || crypto.randomBytes(16).toString('hex')]:
    an absent key and the empty string are both falsy. *)
Definition keyOrRandom (env : Env) (key : option string) : string :=
  match key with
  | Some k => if String.eqb k EmptyString then randomHex env else k
  | None => randomHex env
  end.

Definition createLeaveRequest (env : Env) (w : World)
  (leaveRequestData : LeaveRequestData) : Result (World * CreateResponse) :=
  let employeeExists :=
    EmployeeRepository.exists_ w (employeeId leaveRequestData) in
  throwIf (negb employeeExists) EmployeeNotFound ;;
  let startDate' := newDate (DateOnly (startDate leaveRequestData)) in
  let endDate' := newDate (DateOnly (endDate leaveRequestData)) in
  throwIf (JsDate.gt startDate' endDate') StartAfterEnd ;;
  throwIf (JsDate.lt startDate' (Some (setHours0 (utcOffset env) (now env))))
          PastDate ;;
  let overlapping :=
    LeaveRequestRepository.findOverlapping w
      (employeeId leaveRequestData)
      (startDate leaveRequestData)
      (endDate leaveRequestData) None in
  throwIf (0 <? Z.of_nat (List.length overlapping)) Overlap ;;
  let idempotencyKey' := keyOrRandom env (idempotencyKey leaveRequestData) in
  match LeaveRequestRepository.findByIdempotencyKey w idempotencyKey' with
  | Some existingRequest =>
      Ok (w, {| data := Some existingRequest; duplicate := true |})
  | None =>
      bind (LeaveRequestRepository.create env w
              {| LeaveRequestRepository.employeeId := employeeId leaveRequestData;
                 LeaveRequestRepository.startDate := startDate leaveRequestData;
                 LeaveRequestRepository.endDate := endDate leaveRequestData;
                 LeaveRequestRepository.status := PENDING;
                 LeaveRequestRepository.idempotencyKey := idempotencyKey' |})
        (fun created =>
           let leaveRequest := snd created in
           (* a failed publish is logged, the request stays created *)
           let w2 :=
             fst (publishMessage env (fst created) LEAVE_REQUESTED
                    (LeaveRequestedMessage
                       (LeaveRequest.id leaveRequest)
                       (LeaveRequest.employeeId leaveRequest)
                       (LeaveRequest.startDate leaveRequest)
                       (LeaveRequest.endDate leaveRequest)
                       (LeaveRequest.status leaveRequest)
                       (LeaveRequest.idempotencyKey leaveRequest)
                       (now env))) in
           Ok (w2,
               {| data := LeaveRequestRepository.findById w2
                            (LeaveRequest.id leaveRequest);
                  duplicate := false |}))
  end.

Definition updateLeaveRequestStatus (env : Env) (w : World) (id : Z)
  (status : string) : Result (World * option LeaveRequest.t) :=
  let exists' := LeaveRequestRepository.exists_ w id in
  throwIf (negb exists') LeaveRequestNotFound ;;
  match statusOfString status with
  | None => Err InvalidStatus
  | Some status' =>
      let w1 := LeaveRequestRepository.updateStatus env w id status' in
      Ok (w1, LeaveRequestRepository.findById w1 id)
  end.

Definition cancelLeaveRequest (w : World) (id employeeId : Z) : Result World :=
  match LeaveRequestRepository.findById w id with
  | None => Err LeaveRequestNotFound
  | Some leaveRequest =>
      throwIf (negb (LeaveRequest.employeeId leaveRequest =? employeeId))
              UnauthorizedCancel ;;
      throwIf (Status_eqb (LeaveRequest.status leaveRequest) REJECTED)
              CannotCancelRejected ;;
      Ok (LeaveRequestRepository.delete w id)
  end.

Definition getEmployeeLeaveStats (env : Env) (w : World) (employeeId year : Z)
  : Result LeaveRequestRepository.Stats :=
  throwIf (negb (EmployeeRepository.exists_ w employeeId)) EmployeeNotFound ;;
  Ok (LeaveRequestRepository.getEmployeeStats env w employeeId year).

End LeaveRequestService.

(** ** queues/leaveRequestProcessor.js *)

Module LeaveRequestProcessor.

(** [calculateLeaveDuration], on the integer time values.  This is the
    value the engine computes whenever the two time values are at most 2^53
    milliseconds apart: the difference is then exact in binary64, the
    quotient by 86,400,000 is below 2^27, so it is rounded by at most
    2^-27, which is less than the distance 1 / 86,400,000 that separates a
    quotient that is not whole from the nearest whole number; hence the
    ceiling of the rounded quotient is the ceiling of the exact one.  Two
    DATEONLY values are a whole number of days apart and are always in this
    case.  Beyond 2^53 the subtraction rounds: see
    [Binary64.calculateLeaveDuration]. *)
Definition calculateLeaveDuration (startDate endDate : DateInput) : option Z :=
  match newDate startDate, newDate endDate with
  | Some start, Some end_ =>
      Some (Z.max 1 (ceilDiv (end_ - start) MILLISECONDS_IN_DAY + 1))
  | _, _ => None
  end.

(** The same function on binary64 values, operation by operation, with the
    kernel's IEEE 754 doubles. *)
Module Binary64.

(** The double of an integer time value or day count (exact up to 2^53). *)
Definition ofZ (z : Z) : PrimFloat.float :=
  if z <? 0 then PrimFloat.opp (PrimFloat.of_uint63 (Uint63.of_Z (- z)))
  else PrimFloat.of_uint63 (Uint63.of_Z z).

(** [Math.ceil(x)] of a finite double: a double with a non-negative exponent
    is whole; otherwise its magnitude is below 2^53 and so is its ceiling. *)
Definition mathCeil (x : PrimFloat.float) : PrimFloat.float :=
  match FloatOps.Prim2SF x with
  | SpecFloat.S754_finite negative m e =>
      if 0 <=? e then x
      else if negative then ofZ (- (Z.pos m / 2 ^ (- e)))
      else ofZ (ceilDiv (Z.pos m) (2 ^ (- e)))
  | _ => x
  end.

(** [Math.max(a, b)] of two numbers. *)
Definition mathMax (a b : PrimFloat.float) : PrimFloat.float :=
  if PrimFloat.ltb a b then b else a.

(** The integer a whole double holds. *)
Definition toZ (x : PrimFloat.float) : option Z :=
  match FloatOps.Prim2SF x with
  | SpecFloat.S754_zero _ => Some 0
  | SpecFloat.S754_finite negative m e =>
      if 0 <=? e
      then Some ((if negative then -1 else 1) * Z.pos m * 2 ^ e)
      else if Z.pos m mod 2 ^ (- e) =? 0
      then Some ((if negative then -1 else 1) * (Z.pos m / 2 ^ (- e)))
      else None
  | _ => None
  end.

Definition calculateLeaveDuration (startDate endDate : DateInput) : option Z :=
  match newDate startDate, newDate endDate with
  | Some start, Some end_ =>
      let durationMs := PrimFloat.sub (ofZ end_) (ofZ start) in
      toZ (mathMax (ofZ 1)
             (PrimFloat.add
                (mathCeil (PrimFloat.div durationMs (ofZ MILLISECONDS_IN_DAY)))
                (ofZ 1)))
  | _, _ => None
  end.

End Binary64.

(** The consumed message: the parsed JSON content, of which only [id] is
    read, and the routing key of the delivery. *)
Record QueueMessage : Type := mkQueueMessage {
  payloadId : option Z;
  fieldsRoutingKey : option string
}.

Section Processor.

(** [AUTO_APPROVE_DAYS_THRESHOLD] of the constants module. *)
Variable AUTO_APPROVE_DAYS_THRESHOLD : Z.

Definition autoProcessLeaveRequest (env : Env) (w : World)
  (leaveRequest : option LeaveRequest.t) : World :=
  match leaveRequest with
  | None => w
  | Some lr =>
      if negb (Status_eqb (LeaveRequest.status lr) PENDING) then w
      else
        match calculateLeaveDuration (DateOnly (LeaveRequest.startDate lr))
                                     (DateOnly (LeaveRequest.endDate lr)) with
        | None => w
        | Some duration =>
            if duration =? 0 then w (* [!duration] *)
            else
              let nextStatus :=
                if duration <=? AUTO_APPROVE_DAYS_THRESHOLD
                then APPROVED else PENDING_APPROVAL in
              if Status_eqb nextStatus (LeaveRequest.status lr) then w
              else
                let w1 := LeaveRequestRepository.updateStatus env w
                            (LeaveRequest.id lr) nextStatus in
                if Status_eqb nextStatus APPROVED
                then fst (publishMessage env w1 LEAVE_APPROVED
                            (LeaveApprovedMessage
                               (LeaveRequest.id lr)
                               (LeaveRequest.employeeId lr)
                               (LeaveRequest.startDate lr)
                               (LeaveRequest.endDate lr)
                               (now env)))
                else w1
        end
  end.

Definition handleQueueMessage (env : Env) (w : World) (msg : QueueMessage)
  : World :=
  match fieldsRoutingKey msg with
  | None => w
  | Some routingKey' =>
      if negb (String.eqb routingKey' LEAVE_REQUESTED) then w
      else
        match payloadId msg with
        | None => w
        | Some leaveRequestId =>
            if leaveRequestId =? 0 then w (* [!leaveRequestId] *)
            else
              match LeaveRequestRepository.findById w leaveRequestId with
              | None => w
              | Some leaveRequest =>
                  autoProcessLeaveRequest env w (Some leaveRequest)
              end
        end
  end.

End Processor.

End LeaveRequestProcessor.

(** ** The public operations as a transition system *)

Inductive Operation : Type :=
| CreateLeaveRequest (env : Env) (data : LeaveRequestService.LeaveRequestData)
| UpdateLeaveRequestStatus (env : Env) (id : Z) (status : string)
| CancelLeaveRequest (id employeeId : Z)
| ConsumeMessage (env : Env) (msg : LeaveRequestProcessor.QueueMessage).

(** The world after an operation; an operation that throws leaves it as it
    was. *)
Definition step (threshold : Z) (w : World) (op : Operation) : World :=
  match op with
  | CreateLeaveRequest env data =>
      match LeaveRequestService.createLeaveRequest env w data with
      | Ok r => fst r
      | Err _ => w
      end
  | UpdateLeaveRequestStatus env id status =>
      match LeaveRequestService.updateLeaveRequestStatus env w id status with
      | Ok r => fst r
      | Err _ => w
      end
  | CancelLeaveRequest id employeeId =>
      match LeaveRequestService.cancelLeaveRequest w id employeeId with
      | Ok w' => w'
      | Err _ => w
      end
  | ConsumeMessage env msg =>
      LeaveRequestProcessor.handleQueueMessage threshold env w msg
  end.

Definition run (threshold : Z) (w : World) (ops : list Operation) : World :=
  fold_left (step threshold) ops w.

Inductive reachable (threshold : Z) : World -> Prop :=
| reachable_init : forall emps, reachable threshold (initialWorld emps)
| reachable_step : forall w op,
    reachable threshold w -> reachable threshold (step threshold w op).

(** Two inclusive day ranges share a day. *)
Definition rangesOverlap (s1 e1 s2 e2 : Z) : Prop := s1 <= e2 /\ s2 <= e1.

(** No two distinct active requests of one employee overlap. *)
Definition noActiveOverlap (w : World) : Prop :=
  forall r1 r2,
    In r1 (leaveRequests w) -> In r2 (leaveRequests w) ->
    LeaveRequest.id r1 <> LeaveRequest.id r2 ->
    LeaveRequest.employeeId r1 = LeaveRequest.employeeId r2 ->
    LeaveRequestRepository.isActive r1 = true ->
    LeaveRequestRepository.isActive r2 = true ->
    ~ rangesOverlap (LeaveRequest.startDate r1) (LeaveRequest.endDate r1)
                    (LeaveRequest.startDate r2) (LeaveRequest.endDate r2).

(** ** What a creation does, for the statements below *)

(** The row a fresh creation inserts. *)
Definition createdRow (env : Env) (w : World)
  (d : LeaveRequestService.LeaveRequestData) : LeaveRequest.t :=
  {| LeaveRequest.id := nextId w;
     LeaveRequest.employeeId := LeaveRequestService.employeeId d;
     LeaveRequest.startDate := LeaveRequestService.startDate d;
     LeaveRequest.endDate := LeaveRequestService.endDate d;
     LeaveRequest.status := PENDING;
     LeaveRequest.processedAt := None;
     LeaveRequest.idempotencyKey :=
       Some (LeaveRequestService.keyOrRandom env
               (LeaveRequestService.idempotencyKey d));
     LeaveRequest.createdAt := now env;
     LeaveRequest.updatedAt := now env |}.

(** The world a fresh creation leaves. *)
Definition createdWorld (env : Env) (w : World)
  (d : LeaveRequestService.LeaveRequestData) : World :=
  {| employees := employees w;
     leaveRequests := leaveRequests w ++ [createdRow env w d];
     nextId := nextId w + 1;
     published :=
       published w
       ++ [mkPublication LEAVE_REQUESTED
             (LeaveRequestedMessage (nextId w)
                (LeaveRequestService.employeeId d)
                (LeaveRequestService.startDate d)
                (LeaveRequestService.endDate d)
                PENDING
                (Some (LeaveRequestService.keyOrRandom env
                         (LeaveRequestService.idempotencyKey d)))
                (now env))
             (brokerUp env)] |}.

(** What a status update keeps of a row: everything but the status and the
    two stamps [processedAt] and [updatedAt]. *)
Definition sameRequest (r r' : LeaveRequest.t) : Prop :=
  LeaveRequest.id r' = LeaveRequest.id r
  /\ LeaveRequest.employeeId r' = LeaveRequest.employeeId r
  /\ LeaveRequest.startDate r' = LeaveRequest.startDate r
  /\ LeaveRequest.endDate r' = LeaveRequest.endDate r
  /\ LeaveRequest.idempotencyKey r' = LeaveRequest.idempotencyKey r
  /\ LeaveRequest.createdAt r' = LeaveRequest.createdAt r.

(** The guards a creation passes before it looks the key up. *)
Definition passesValidation (env : Env) (w : World)
  (d : LeaveRequestService.LeaveRequestData) : Prop :=
  EmployeeRepository.exists_ w (LeaveRequestService.employeeId d) = true
  /\ LeaveRequestService.startDate d <= LeaveRequestService.endDate d
  /\ setHours0 (utcOffset env) (now env)
     <= LeaveRequestService.startDate d * MILLISECONDS_IN_DAY
  /\ LeaveRequestRepository.findOverlapping w
       (LeaveRequestService.employeeId d) (LeaveRequestService.startDate d)
       (LeaveRequestService.endDate d) None = [].

(** ** The duration classifier, for the statements below *)

(** The range in which the integer quotient is the engine's. *)
Definition EXACT_DIFFERENCE : Z := 2 ^ 53.

(** The pairs of dates at which the two readings of the function are
    compared below: DATEONLY values, instants a fraction of a day apart in
    either order, and instants 2^53 milliseconds apart. *)
Definition comparedDates : list (DateInput * DateInput) :=
  [ (isoDate 2024 1 1, isoDate 2024 1 1);
    (isoDate 2024 1 1, isoDate 2024 1 3);
    (isoDate 2024 1 3, isoDate 2024 1 1);
    (isoDate 1000 1 1, isoDate 9999 12 31);
    (Instant 0, Instant 1);
    (Instant 1, Instant 0);
    (Instant 0, Instant 86399999);
    (Instant 0, Instant 86400000);
    (Instant 0, Instant 86400001);
    (Instant 86400001, Instant 0);
    (Instant 1704067200000, Instant 1704153600001);
    (Instant (-1), Instant 9007199254740990);
    (Instant (-1), Instant 9007199254740991);
    (Instant 9007199254740991, Instant (-1));
    (Instant 3456000000000001, Instant (-8640000000000000));
    (Instant (-8640000000000000), Instant 367199254740991);
    (Instant (-8640000000000000), Instant 367199254740992);
    (Instant 3456000000000001, Unparseable);
    (Instant 8640000000000001, Instant 0) ].

(** Pairs of instants a whole number of days apart, and one millisecond
    less or more: 2,000 day counts spread from 0 to 104,197,875, the
    differences reaching up to 2^53 milliseconds. *)
Definition nearWholeDays : list (DateInput * DateInput) :=
  flat_map
    (fun i =>
       let start := - 2 ^ 52 in
       let difference := Z.of_nat i * 52125 * MILLISECONDS_IN_DAY in
       [ (Instant start, Instant (start + difference - 1));
         (Instant start, Instant (start + difference));
         (Instant start, Instant (start + difference + 1)) ])
    (seq 0 2000).

(** Whether the two readings of the function agree on a pair of dates. *)
Definition readingsAgree (dates : DateInput * DateInput) : bool :=
  match LeaveRequestProcessor.calculateLeaveDuration (fst dates) (snd dates),
        LeaveRequestProcessor.Binary64.calculateLeaveDuration
          (fst dates) (snd dates) with
  | Some a, Some b => a =? b
  | None, None => true
  | _, _ => false
  end.

(** ** The statistics, as the spec words them *)

Definition hasStatus (s : Status) (r : LeaveRequest.t) : bool :=
  Status_eqb (LeaveRequest.status r) s.

Definition countWhere (p : LeaveRequest.t -> bool) (l : list LeaveRequest.t)
  : Z :=
  Z.of_nat (List.length (filter p l)).

(** The inclusive day span of a request. *)
Definition daySpan (r : LeaveRequest.t) : Z :=
  LeaveRequest.endDate r - LeaveRequest.startDate r + 1.

Definition sumZ (l : list Z) : Z := fold_right Z.add 0 l.

(** The aggregate of a list of requests: their count, the approved and the
    rejected ones, the pending ones of either kind, and the day spans of the
    approved ones. *)
Definition statsOf (requests : list LeaveRequest.t)
  : LeaveRequestRepository.Stats :=
  {| LeaveRequestRepository.total := Z.of_nat (List.length requests);
     LeaveRequestRepository.approved := countWhere (hasStatus APPROVED) requests;
     LeaveRequestRepository.pending :=
       countWhere (hasStatus PENDING) requests
       + countWhere (hasStatus PENDING_APPROVAL) requests;
     LeaveRequestRepository.rejected := countWhere (hasStatus REJECTED) requests;
     LeaveRequestRepository.totalDays :=
       sumZ (map daySpan (filter (hasStatus APPROVED) requests)) |}.

(** A request of [employeeId] was created within the calendar year [year] of
    the server's local time. *)
Definition createdInYear (env : Env) (employeeId year : Z)
  (r : LeaveRequest.t) : bool :=
  (LeaveRequest.employeeId r =? employeeId)
  && (newDateLocal (utcOffset env) year 0 1 <=? LeaveRequest.createdAt r)
  && (LeaveRequest.createdAt r <? newDateLocal (utcOffset env) (year + 1) 0 1).

(** ** Concrete rows, requests and worlds used in the examples *)

(** A row holding the day range [s, e]. *)
Definition rowWithRange (s e : Z) : LeaveRequest.t :=
  LeaveRequest.mk 1 1 s e APPROVED None None 0 0.

(** The clock at 2024-01-10T00:00:01Z on a server in UTC with a reachable
    broker. *)
Definition exampleEnv : Env :=
  mkEnv (19732 * MILLISECONDS_IN_DAY + 1000) 0
        "9f86d081884c7d659a2feaa0c55ad015" true.

(** A PENDING request of employee 1. *)
Definition pendingRow (id startDate endDate : Z) : LeaveRequest.t :=
  LeaveRequest.mk id 1 startDate endDate PENDING None (Some "k") 0 0.

(** A world whose only employee is 1, holding the given rows. *)
Definition worldWith (rows : list LeaveRequest.t) : World :=
  {| employees := [1]; leaveRequests := rows; nextId := 100;
     published := [] |}.

(** The same server a moment later, drawing another random key. *)
Definition exampleEnv' : Env :=
  mkEnv (19732 * MILLISECONDS_IN_DAY + 2000) 0
        "e3b0c44298fc1c149afbf4c8996fb924" true.

(** Employee 1 asks for 2024-01-18 to 2024-01-19 under a key of their own. *)
Definition keyedRequest : LeaveRequestService.LeaveRequestData :=
  LeaveRequestService.mkLeaveRequestData 1 19740 19741 (Some "retry-7").

(** The same request with the empty string as its key. *)
Definition emptyKeyRequest : LeaveRequestService.LeaveRequestData :=
  LeaveRequestService.mkLeaveRequestData 1 19740 19741 (Some EmptyString).

(** The delivery of the "requested" event of record [id]. *)
Definition requestedEvent (id : Z) : LeaveRequestProcessor.QueueMessage :=
  LeaveRequestProcessor.mkQueueMessage (Some id) (Some LEAVE_REQUESTED).

(** Employee 1 asks for 2024-01-09, the day before [exampleEnv]'s today. *)
Definition yesterdayRequest : LeaveRequestService.LeaveRequestData :=
  LeaveRequestService.mkLeaveRequestData 1 19731 19731 None.

(** The same request in the name of employee 99, who does not exist. *)
Definition strangerRequest : LeaveRequestService.LeaveRequestData :=
  LeaveRequestService.mkLeaveRequestData 99 19731 19731 None.

(** Employee 1 asks for 2024-01-10 alone. *)
Definition todayRequest : LeaveRequestService.LeaveRequestData :=
  LeaveRequestService.mkLeaveRequestData 1 19732 19732 None.

(** 2024-01-10T15:00:00Z on a server five hours behind UTC, where it is ten
    in the morning of 2024-01-10. *)
Definition westEnv : Env :=
  mkEnv (19732 * MILLISECONDS_IN_DAY + 15 * 3600000) (- (5 * 3600000))
        "9f86d081884c7d659a2feaa0c55ad015" true.

(** Two requests of employee 1 for the same two days, under different
    keys. *)
Definition firstRequest : LeaveRequestService.LeaveRequestData :=
  LeaveRequestService.mkLeaveRequestData 1 19740 19741 (Some "first").

Definition secondRequest : LeaveRequestService.LeaveRequestData :=
  LeaveRequestService.mkLeaveRequestData 1 19740 19741 (Some "second").

(** Both are created, then each is approved by a status update. *)
Definition approveBothByUpdate : list Operation :=
  [CreateLeaveRequest exampleEnv firstRequest;
   CreateLeaveRequest exampleEnv secondRequest;
   UpdateLeaveRequestStatus exampleEnv' 1 "APPROVED";
   UpdateLeaveRequestStatus exampleEnv' 2 "APPROVED"].

(** Both are created, then the processor consumes the event of each. *)
Definition approveBothByProcessor : list Operation :=
  [CreateLeaveRequest exampleEnv firstRequest;
   CreateLeaveRequest exampleEnv secondRequest;
   ConsumeMessage exampleEnv' (requestedEvent 1);
   ConsumeMessage exampleEnv' (requestedEvent 2)].

(** The rows either run ends with. *)
Definition approvedFirst : LeaveRequest.t :=
  LeaveRequest.mk 1 1 19740 19741 APPROVED (Some (now exampleEnv'))
    (Some "first") (now exampleEnv) (now exampleEnv').

Definition approvedSecond : LeaveRequest.t :=
  LeaveRequest.mk 2 1 19740 19741 APPROVED (Some (now exampleEnv'))
    (Some "second") (now exampleEnv) (now exampleEnv').

(** An approved three-day request of employee 1 created on 2024-12-31 at
    noon UTC. *)
Definition createdOnNewYearsEve : LeaveRequest.t :=
  LeaveRequest.mk 1 1 20100 20102 APPROVED None (Some "k")
    (20088 * MILLISECONDS_IN_DAY + 12 * 3600000)
    (20088 * MILLISECONDS_IN_DAY + 12 * 3600000).

(** Three requests of employee 1 created on 2024-06-01: one approved for
    three days, one pending, one rejected. *)
Definition midYearRows : list LeaveRequest.t :=
  [LeaveRequest.mk 1 1 19900 19902 APPROVED None (Some "a")
     (19875 * MILLISECONDS_IN_DAY) (19875 * MILLISECONDS_IN_DAY);
   LeaveRequest.mk 2 1 19910 19910 PENDING None (Some "b")
     (19875 * MILLISECONDS_IN_DAY) (19875 * MILLISECONDS_IN_DAY);
   LeaveRequest.mk 3 1 19920 19921 REJECTED None (Some "c")
     (19875 * MILLISECONDS_IN_DAY) (19875 * MILLISECONDS_IN_DAY)].

From Stdlib Require Import Permutation Sorted.

(** ** What every reachable store satisfies *)

(** Ids are distinct and below the auto-increment counter; idempotency keys
    are present and distinct; ranges are well-formed; the owner exists; a
    row that no status update has touched is PENDING. *)
Record storeInvariant (w : World) : Prop := mkStoreInvariant {
  inv_next : 1 <= nextId w;
  inv_ids_nodup : NoDup (map LeaveRequest.id (leaveRequests w));
  inv_ids_range :
    forall r, In r (leaveRequests w) -> 1 <= LeaveRequest.id r < nextId w;
  inv_keys_nodup : NoDup (map LeaveRequest.idempotencyKey (leaveRequests w));
  inv_keys_some :
    forall r, In r (leaveRequests w) -> LeaveRequest.idempotencyKey r <> None;
  inv_dates :
    forall r, In r (leaveRequests w) ->
              LeaveRequest.startDate r <= LeaveRequest.endDate r;
  inv_employee :
    forall r, In r (leaveRequests w) ->
              EmployeeRepository.exists_ w (LeaveRequest.employeeId r) = true;
  inv_processed :
    forall r, In r (leaveRequests w) ->
              LeaveRequest.processedAt r = None ->
              LeaveRequest.status r = PENDING
}.

(** The world after employee 1's request under the key "retry-7" was
    created, and the row it holds. *)
Definition oneRequestWorld : World :=
  run DEFAULT_AUTO_APPROVE_DAYS_THRESHOLD (initialWorld [1])
    [CreateLeaveRequest exampleEnv keyedRequest].

Definition theRequest : LeaveRequest.t :=
  createdRow exampleEnv (initialWorld [1]) keyedRequest.

(** How the record a consumed message names reads afterwards when it was
    processed: with the status [s], stamped with the clock, and otherwise
    as before. *)
Definition processedTo (env : Env) (s : Status) (r r' : LeaveRequest.t)
  : Prop :=
  LeaveRequest.status r' = s
  /\ LeaveRequest.processedAt r' = Some (now env)
  /\ sameRequest r r'.

(** The same surroundings with the broker reachable or not. *)
Definition withBroker (env : Env) (up : bool) : Env :=
  {| now := now env; utcOffset := utcOffset env;
     randomHex := randomHex env; brokerUp := up |}.

(** Employee 2 asks for other days under employee 1's key "retry-7". *)
Definition borrowedKeyRequest : LeaveRequestService.LeaveRequestData :=
  LeaveRequestService.mkLeaveRequestData 2 19750 19752 (Some "retry-7").

(** [oneRequestWorld] with a second employee. *)
Definition twoEmployeesWorld : World :=
  run DEFAULT_AUTO_APPROVE_DAYS_THRESHOLD (initialWorld [1; 2])
    [CreateLeaveRequest exampleEnv keyedRequest].

(** ** repositories/LeaveRequestRepository.js: the listings *)

Module LeaveRequestListing.

(** The options of [findAll]; [None] is a key left undefined. *)
Record Options : Type := mkOptions {
  page : option Z;
  limit : option Z;
  employeeId : option Z;
  status : option Status;          (* one of the four names, as written *)
  startDate : option Z;
  endDate : option Z
}.

(** [const { page = 1 } = options] *)
Definition pageOf (o : Options) : Z :=
  match page o with Some p => p | None => 1 end.

(** [const { limit = 10 } = options] *)
Definition limitOf (o : Options) : Z :=
  match limit o with Some l => l | None => 10 end.

(** The [where] of [findAll]: a filter is added for each option that is
    truthy, so an employee id of 0 filters nothing. *)
Definition matchesWhere (o : Options) (r : LeaveRequest.t) : bool :=
  match employeeId o with
  | Some e => if e =? 0 then true else LeaveRequest.employeeId r =? e
  | None => true
  end
  && match status o with
     | Some s => Status_eqb (LeaveRequest.status r) s
     | None => true
     end
  && match startDate o with
     | Some d => LeaveRequest.startDate r >=? d
     | None => true
     end
  && match endDate o with
     | Some d => LeaveRequest.endDate r <=? d
     | None => true
     end.

(** [order: [['createdAt', 'DESC']]], as an insertion sort: rows created at
    the same instant keep their order in the table, a choice the database
    is free to make otherwise. *)
Fixpoint insertByCreatedAt (r : LeaveRequest.t) (l : list LeaveRequest.t)
  : list LeaveRequest.t :=
  match l with
  | [] => [r]
  | x :: xs =>
      if LeaveRequest.createdAt x <=? LeaveRequest.createdAt r
      then r :: x :: xs
      else x :: insertByCreatedAt r xs
  end.

Definition orderByCreatedAtDesc (l : list LeaveRequest.t)
  : list LeaveRequest.t :=
  fold_right insertByCreatedAt [] l.

(** [LIMIT limit OFFSET offset] over the ordered matches; the database
    refuses a negative limit or offset. *)
Definition limitOffset (limit offset : Z) (l : list LeaveRequest.t)
  : option (list LeaveRequest.t) :=
  if (limit <? 0) || (offset <? 0) then None
  else Some (firstn (Z.to_nat limit) (skipn (Z.to_nat offset) l)).

(** [{ rows, count }] of [findAndCountAll]. *)
Record Found : Type := mkFound {
  rows : list LeaveRequest.t;
  count : Z
}.

Definition findAll (w : World) (options : Options) : option Found :=
  let offset := (pageOf options - 1) * limitOf options in
  let matching := filter (matchesWhere options) (leaveRequests w) in
  match limitOffset (limitOf options) offset (orderByCreatedAtDesc matching) with
  | None => None
  | Some rows' =>
      Some {| rows := rows'; count := Z.of_nat (List.length matching) |}
  end.

(** [findByEmployee(employeeId, options)]: the employee's rows, whatever the
    id, filtered by the status when it is truthy. *)
Definition findByEmployee (w : World) (employeeId' : Z) (options : Options)
  : option Found :=
  let offset := (pageOf options - 1) * limitOf options in
  let matching :=
    filter (fun r =>
              (LeaveRequest.employeeId r =? employeeId')
              && match status options with
                 | Some s => Status_eqb (LeaveRequest.status r) s
                 | None => true
                 end)
           (leaveRequests w) in
  match limitOffset (limitOf options) offset (orderByCreatedAtDesc matching) with
  | None => None
  | Some rows' =>
      Some {| rows := rows'; count := Z.of_nat (List.length matching) |}
  end.

End LeaveRequestListing.

(** ** services/LeaveRequestService.js: the read operations *)

Module LeaveRequestQueries.

Definition getLeaveRequestById (w : World) (id : Z) : Result LeaveRequest.t :=
  match LeaveRequestRepository.findById w id with
  | None => Err LeaveRequestNotFound
  | Some leaveRequest => Ok leaveRequest
  end.

(** [{ page, limit, total, totalPages }]; [totalPages] is
    [Math.ceil(count / limit)], which is not a finite number when the limit
    is 0. *)
Record Pagination : Type := mkPagination {
  page : Z;
  limit : Z;
  total : Z;
  totalPages : option Z
}.

Record Listing : Type := mkListing {
  data : list LeaveRequest.t;
  pagination : Pagination
}.

Definition paginate (options : LeaveRequestListing.Options)
  (found : LeaveRequestListing.Found) : Listing :=
  let page' := LeaveRequestListing.pageOf options in
  let limit' := LeaveRequestListing.limitOf options in
  {| data := LeaveRequestListing.rows found;
     pagination :=
       {| page := page'; limit := limit';
          total := LeaveRequestListing.count found;
          totalPages :=
            if limit' =? 0 then None
            else Some (ceilDiv (LeaveRequestListing.count found) limit') |} |}.

(** [None] when the query throws in the database. *)
Definition getAllLeaveRequests (w : World)
  (options : LeaveRequestListing.Options) : option Listing :=
  option_map (paginate options) (LeaveRequestListing.findAll w options).

(** The outer [Result] is the service's own failure, the inner [option] the
    database's. *)
Definition getLeaveRequestsByEmployee (w : World) (employeeId : Z)
  (options : LeaveRequestListing.Options) : Result (option Listing) :=
  throwIf (negb (EmployeeRepository.exists_ w employeeId)) EmployeeNotFound ;;
  Ok (option_map (paginate options)
        (LeaveRequestListing.findByEmployee w employeeId options)).

End LeaveRequestQueries.

(** The options asking for page [p] with [l] rows a page, and no filter. *)
Definition pageOptions (p l : Z) : LeaveRequestListing.Options :=
  LeaveRequestListing.mkOptions (Some p) (Some l) None None None None.

(** The rows of the pages 1 to [n] of a listing, one after the other. *)
Definition pagesUpTo (w : World) (o : LeaveRequestListing.Options) (n : nat)
  : list LeaveRequest.t :=
  flat_map
    (fun p =>
       match LeaveRequestQueries.getAllLeaveRequests w
               (LeaveRequestListing.mkOptions (Some (Z.of_nat p))
                  (LeaveRequestListing.limit o)
                  (LeaveRequestListing.employeeId o)
                  (LeaveRequestListing.status o)
                  (LeaveRequestListing.startDate o)
                  (LeaveRequestListing.endDate o)) with
       | Some listing => LeaveRequestQueries.data listing
       | None => []
       end)
    (seq 1 n).

(** The publish calls of one topic in a trace. *)
Definition callsOf (topic : string) (trace : list Publication)
  : list Publication :=
  filter (fun p => String.eqb (routingKey p) topic) trace.

(** The leave.requested call that announced the stored request [r]: it
    names the id, the employee, the days and the key of the row, with the
    status PENDING every request is created in. *)
Definition announces (call : Publication) (r : LeaveRequest.t) : Prop :=
  routingKey call = LEAVE_REQUESTED
  /\ exists timestamp,
       payload call
       = LeaveRequestedMessage (LeaveRequest.id r) (LeaveRequest.employeeId r)
           (LeaveRequest.startDate r) (LeaveRequest.endDate r) PENDING
           (LeaveRequest.idempotencyKey r) timestamp.

(** Created no earlier than: the order of a listing. *)
Definition createdNoEarlier (a b : LeaveRequest.t) : Prop :=
  LeaveRequest.createdAt b <= LeaveRequest.createdAt a.

(** Created later than: the order of a listing of rows created at
    different instants. *)
Definition createdLater (a b : LeaveRequest.t) : Prop :=
  LeaveRequest.createdAt b < LeaveRequest.createdAt a.

(** ** middleware/errorHandler.js and controllers/LeaveRequestController.js *)

Module Http.

(** The members of [HTTP_STATUS] the sources name; the constants module is
    not among the sources, so the numbers behind the names stay out. *)
Inductive HttpStatus : Type :=
| OK | CREATED | BAD_REQUEST | NOT_FOUND | CONFLICT | INTERNAL_SERVER_ERROR.

(** [err.name]: a thrown [new Error(...)] is named Error. *)
Definition errorName (e : Error) : string :=
  match e with
  | SequelizeValidationError => "SequelizeValidationError"
  | SequelizeUniqueConstraintError => "SequelizeUniqueConstraintError"
  | SequelizeForeignKeyConstraintError => "SequelizeForeignKeyConstraintError"
  | _ => "Error"
  end.

(** [s.startsWith(p)] *)
Fixpoint startsWith (s p : string) : bool :=
  match p, s with
  | EmptyString, _ => true
  | String c p', String c' s' => Ascii.eqb c c' && startsWith s' p'
  | String _ _, EmptyString => false
  end.

(** [s.includes(p)] *)
Fixpoint includes (s p : string) : bool :=
  startsWith s p
  || match s with
     | EmptyString => false
     | String _ s' => includes s' p
     end.

(** The status [errorHandler] answers with.  None of the errors thrown by
    the services carries a [statusCode], so the default applies unless a
    branch of the chain sets another. *)
Definition errorHandler (err : Error) : HttpStatus :=
  let statusCode := INTERNAL_SERVER_ERROR in
  if String.eqb (errorName err) "SequelizeValidationError" then BAD_REQUEST
  else if String.eqb (errorName err) "SequelizeUniqueConstraintError"
  then CONFLICT
  else if String.eqb (errorName err) "SequelizeForeignKeyConstraintError"
  then BAD_REQUEST
  else if String.eqb (errorName err) "SequelizeDatabaseError"
  then INTERNAL_SERVER_ERROR
  else match message err with
       | Some m =>
           if negb (String.eqb m EmptyString) && includes m "not found"
           then NOT_FOUND else statusCode
       | None => statusCode
       end.

(** [asyncHandler(createLeaveRequest)] followed by [errorHandler]: the
    world after the request and the status of the response. *)
Definition postLeaveRequest (env : Env) (w : World)
  (body : LeaveRequestService.LeaveRequestData) : World * HttpStatus :=
  match LeaveRequestService.createLeaveRequest env w body with
  | Ok result =>
      (fst result,
       if LeaveRequestService.duplicate (snd result) then OK else CREATED)
  | Err err => (w, errorHandler err)
  end.

(** A member of the parsed JSON body.  The controllers hand the members
    [employeeId] and [status] to the service as they are. *)
Inductive JsonValue : Type :=
| JsonNumber (n : Z)         (* a whole number *)
| JsonString (s : string)
| JsonOther.                 (* absent, null, a boolean, an array, ... *)

(** [column !== member], for an INTEGER column: values of different types
    are never strictly equal. *)
Definition strictNotEqual (column : Z) (member : JsonValue) : bool :=
  match member with
  | JsonNumber n => negb (column =? n)
  | _ => true
  end.

(** [Object.values(LEAVE_REQUEST_STATUS).includes(status)], and the status
    it finds. *)
Definition statusOfJson (status : JsonValue) : option Status :=
  match status with
  | JsonString s => statusOfString s
  | _ => None
  end.

(** [LeaveRequestService.cancelLeaveRequest(id, employeeId)], with the
    member of the body for [employeeId]. *)
Definition cancelLeaveRequest (w : World) (id : Z) (employeeId : JsonValue)
  : Result World :=
  match LeaveRequestRepository.findById w id with
  | None => Err LeaveRequestNotFound
  | Some leaveRequest =>
      throwIf (strictNotEqual (LeaveRequest.employeeId leaveRequest) employeeId)
              UnauthorizedCancel ;;
      throwIf (Status_eqb (LeaveRequest.status leaveRequest) REJECTED)
              CannotCancelRejected ;;
      Ok (LeaveRequestRepository.delete w id)
  end.

(** [LeaveRequestService.updateLeaveRequestStatus(id, status)], with the
    member of the body for [status]. *)
Definition updateLeaveRequestStatus (env : Env) (w : World) (id : Z)
  (status : JsonValue) : Result (World * option LeaveRequest.t) :=
  let exists' := LeaveRequestRepository.exists_ w id in
  throwIf (negb exists') LeaveRequestNotFound ;;
  match statusOfJson status with
  | None => Err InvalidStatus
  | Some status' =>
      let w1 := LeaveRequestRepository.updateStatus env w id status' in
      Ok (w1, LeaveRequestRepository.findById w1 id)
  end.

(** [asyncHandler(cancelLeaveRequest)] followed by [errorHandler]:
    [req.params.id] is the id the route matched, [employeeId] is
    [req.body.employeeId]. *)
Definition deleteLeaveRequest (w : World) (id : Z) (employeeId : JsonValue)
  : World * HttpStatus :=
  match cancelLeaveRequest w id employeeId with
  | Ok w' => (w', OK)
  | Err err => (w, errorHandler err)
  end.

(** [asyncHandler(updateLeaveRequestStatus)] followed by [errorHandler];
    [status] is [req.body.status]. *)
Definition patchLeaveRequestStatus (env : Env) (w : World) (id : Z)
  (status : JsonValue) : World * HttpStatus :=
  match updateLeaveRequestStatus env w id status with
  | Ok result => (fst result, OK)
  | Err err => (w, errorHandler err)
  end.

End Http.

(** ** config/rabbitmq.js: the consumer's retries *)

Module RabbitMq.

(** [msg.properties.headers?.['x-retry-count'] || 0]; a message published by
    [publishMessage] carries no such header. *)
Definition retryCountOf (header : option Z) : Z :=
  match header with
  | Some n => n
  | None => 0
  end.

(** [parseInt(process.env.RABBITMQ_MAX_RETRIES) || 3]; [None] is NaN, the
    variable unset or not a number. *)
Definition maxRetriesOf (parsed : option Z) : Z :=
  match parsed with
  | Some n => if n =? 0 then 3 else n
  | None => 3
  end.

(** What the consumer does with a delivery: acknowledge it; or reject it and
    publish a copy that carries the next retry count; or reject it for
    good. *)
Inductive Disposition : Type :=
| Ack
| NackAndRepublish (retryCount : Z)
| NackAndDrop.

(** The callback of [ch.consume]; [threw] tells whether parsing the content
    or the handler threw. *)
Definition onDelivery (maxRetriesEnv : option Z) (header : option Z)
  (threw : bool) : Disposition :=
  if negb threw then Ack
  else
    let retryCount := retryCountOf header in
    let maxRetries := maxRetriesOf maxRetriesEnv in
    if retryCount <? maxRetries then NackAndRepublish (retryCount + 1)
    else NackAndDrop.

(** The dispositions of a message whose handling throws every time, each
    republished copy being delivered in turn, for at most [fuel]
    deliveries. *)
Fixpoint failingDeliveries (fuel : nat) (maxRetriesEnv : option Z)
  (header : option Z) : list Disposition :=
  match fuel with
  | O => []
  | S fuel' =>
      match onDelivery maxRetriesEnv header true with
      | NackAndRepublish c =>
          NackAndRepublish c
          :: failingDeliveries fuel' maxRetriesEnv (Some c)
      | d => [d]
      end
  end.

End RabbitMq.

(** ** middleware/rateLimiter.js *)

Module RateLimiter.

Record RequestData : Type := mkRequestData {
  count : Z;
  resetTime : Z
}.

(** The [Map] [requestCounts], by what [get] returns for each key. *)
Definition Store : Type := string -> option RequestData.

Definition emptyStore : Store := fun _ => None.

(** [requestCounts.set(key, data)] *)
Definition set (s : Store) (key : string) (data : RequestData) : Store :=
  fun k => if String.eqb k key then Some data else s k.

Record Options : Type := mkOptions {
  windowMs : Z;
  maxRequests : Z
}.

(** What the middleware does with a request: whether it calls [next()], the
    X-RateLimit-Remaining header, and [retryAfter] of a refusal. *)
Record Decision : Type := mkDecision {
  allowed : bool;
  remaining : Z;
  retryAfter : option Z
}.

(** The middleware [rateLimiter(options)] returns.  The entry of the key is
    one object, read from the map or put there anew, whose count is then
    incremented in place: the map holds the incremented entry. *)
Definition rateLimiter (o : Options) (s : Store) (key : string) (now : Z)
  : Store * Decision :=
  let requestData :=
    match s key with
    | Some data =>
        if resetTime data <? now
        then {| count := 0; resetTime := now + windowMs o |}
        else data
    | None => {| count := 0; resetTime := now + windowMs o |}
    end in
  let requestData' :=
    {| count := count requestData + 1; resetTime := resetTime requestData |} in
  (set s key requestData',
   if maxRequests o <? count requestData'
   then {| allowed := false;
           remaining := Z.max 0 (maxRequests o - count requestData');
           retryAfter := Some (ceilDiv (resetTime requestData' - now) 1000) |}
   else {| allowed := true;
           remaining := Z.max 0 (maxRequests o - count requestData');
           retryAfter := None |}).

(** The periodic clean-up: every entry with [now - resetTime > 0] is
    deleted. *)
Definition cleanUp (now : Z) (s : Store) : Store :=
  fun k =>
    match s k with
    | Some data => if 0 <? now - resetTime data then None else Some data
    | None => None
    end.

(** The requests of one key at the given instants, in turn: the store after
    them and whether each was let through. *)
Fixpoint serve (o : Options) (s : Store) (key : string) (times : list Z)
  : Store * list bool :=
  match times with
  | [] => (s, [])
  | t :: times' =>
      let (s1, d) := rateLimiter o s key t in
      let (s2, ds) := serve o s1 key times' in
      (s2, allowed d :: ds)
  end.

End RateLimiter.

(** Some active request of the employee shares a day with [s, e]. *)
Definition activeOverlapExists (w : World) (employeeId s e : Z) : Prop :=
  exists r,
    In r (leaveRequests w)
    /\ LeaveRequest.employeeId r = employeeId
    /\ LeaveRequestRepository.isActive r = true
    /\ rangesOverlap s e (LeaveRequest.startDate r) (LeaveRequest.endDate r).

(** An approved request of employee 1 for 2024-01-18 and 19, and the world
    that holds it after a creation and its processing. *)
Definition approvedWorld : World :=
  run DEFAULT_AUTO_APPROVE_DAYS_THRESHOLD (initialWorld [1])
    [CreateLeaveRequest exampleEnv keyedRequest;
     ConsumeMessage exampleEnv' (requestedEvent 1)].

(** Employee 1 asks for 2024-01-19 to 2024-01-22 under another key. *)
Definition laterRequest : LeaveRequestService.LeaveRequestData :=
  LeaveRequestService.mkLeaveRequestData 1 19741 19744 (Some "later").

(** Employee 1 asks for 2024-01-28 and 29 under a third key; and the world
    in which this request and the one of [approvedWorld] are both
    approved. *)
Definition awayRequest : LeaveRequestService.LeaveRequestData :=
  LeaveRequestService.mkLeaveRequestData 1 19750 19751 (Some "away").

Definition twoApprovedWorld : World :=
  run DEFAULT_AUTO_APPROVE_DAYS_THRESHOLD (initialWorld [1])
    [CreateLeaveRequest exampleEnv keyedRequest;
     ConsumeMessage exampleEnv' (requestedEvent 1);
     CreateLeaveRequest exampleEnv' awayRequest;
     ConsumeMessage exampleEnv' (requestedEvent 2)].

(** Three PENDING requests of employee 1, stored in the order of their ids
    and created at three different instants, the second one last. *)
Definition stampedRow (id createdAt : Z) : LeaveRequest.t :=
  LeaveRequest.mk id 1 19740 19741 PENDING None None createdAt createdAt.

Definition stampedRows : list LeaveRequest.t :=
  [stampedRow 1 100; stampedRow 2 300; stampedRow 3 200].

(** A REJECTED request of employee 1, alone in the store. *)
Definition rejectedRow : LeaveRequest.t :=
  LeaveRequest.mk 1 1 19740 19741 REJECTED None None 0 0.

(** * Properties *)

(** ** Arithmetic of the day quotient *)

Lemma MILLISECONDS_IN_DAY_pos : 0 < MILLISECONDS_IN_DAY.
Proof. reflexivity. Qed.

(** [ceilDiv a b] is the least multiple count that reaches [a]. *)
Lemma ceilDiv_bounds (a b : Z) :
  0 < b -> (ceilDiv a b - 1) * b < a <= ceilDiv a b * b.
Proof.
  intros Hb. unfold ceilDiv.
  pose proof (Z.mul_div_le (- a) b Hb) as Hle.
  pose proof (Z.mul_succ_div_gt (- a) b Hb) as Hgt.
  nia.
Qed.

Lemma ceilDiv_unique (a b c : Z) :
  0 < b -> (c - 1) * b < a <= c * b -> ceilDiv a b = c.
Proof.
  intros Hb Hc. pose proof (ceilDiv_bounds a b Hb) as H. nia.
Qed.

Lemma ceilDiv_whole (k b : Z) : 0 < b -> ceilDiv (k * b) b = k.
Proof.
  intros Hb. apply ceilDiv_unique; [assumption | nia].
Qed.

Lemma ceilDiv_nonpos (a b : Z) : 0 < b -> a <= 0 -> ceilDiv a b <= 0.
Proof.
  intros Hb Ha. pose proof (ceilDiv_bounds a b Hb) as H. nia.
Qed.

(** The day span of two DATEONLY values, as both the processor and the
    statistics compute it. *)
Lemma ceilDiv_days (s e : Z) :
  ceilDiv (e * MILLISECONDS_IN_DAY - s * MILLISECONDS_IN_DAY)
          MILLISECONDS_IN_DAY = e - s.
Proof.
  replace (e * MILLISECONDS_IN_DAY - s * MILLISECONDS_IN_DAY)
    with ((e - s) * MILLISECONDS_IN_DAY) by ring.
  apply ceilDiv_whole, MILLISECONDS_IN_DAY_pos.
Qed.

Lemma calculateLeaveDuration_days (s e : Z) :
  LeaveRequestProcessor.calculateLeaveDuration (DateOnly s) (DateOnly e)
  = Some (Z.max 1 (e - s + 1)).
Proof.
  unfold LeaveRequestProcessor.calculateLeaveDuration. simpl newDate.
  cbv iota beta. now rewrite ceilDiv_days.
Qed.

(** ** The employees table *)

(** [exists] answers true exactly for the ids the table holds. *)
Lemma EmployeeRepository_exists_In (w : World) (id : Z) :
  EmployeeRepository.exists_ w id = true <-> In id (employees w).
Proof.
  unfold EmployeeRepository.exists_.
  induction (employees w) as [| e emps IH]; simpl.
  - split; [discriminate | intros []].
  - destruct (Z.eqb_spec id e) as [-> | Hne]; simpl.
    + split; [now left | intros _; apply Z.ltb_lt; lia].
    + rewrite IH. split; [now right | intros [Heq | Hin]; congruence].
Qed.

(** ** The overlap query *)

(** C3: for a well-formed candidate range [s1, e1] and a row with a
    well-formed range, the match condition of the overlap query (the row
    starts in the candidate range, or ends in it, or spans it) holds exactly
    when the two ranges intersect with inclusive end points:
    s1 <= e2 and s2 <= e1. *)
Theorem C3_overlap_query_is_inclusive_intersection :
  forall (s1 e1 : Z) (r : LeaveRequest.t),
    s1 <= e1 ->
    LeaveRequest.startDate r <= LeaveRequest.endDate r ->
    (LeaveRequestRepository.overlapMatch s1 e1 r = true <->
     rangesOverlap s1 e1 (LeaveRequest.startDate r) (LeaveRequest.endDate r)).
Proof.
  intros s1 e1 r H1 H2.
  unfold LeaveRequestRepository.overlapMatch, LeaveRequestRepository.between,
    rangesOverlap.
  rewrite !orb_true_iff, !andb_true_iff, !Z.leb_le, Z.geb_le.
  lia.
Qed.

(** The ranges [1,5] and [5,8] overlap, [1,5] and [6,8] do not. *)
Lemma C3_boundary_days :
  LeaveRequestRepository.overlapMatch 1 5 (rowWithRange 5 8) = true
  /\ LeaveRequestRepository.overlapMatch 1 5 (rowWithRange 6 8) <> true.
Proof.
  split.
  - apply (C3_overlap_query_is_inclusive_intersection 1 5 (rowWithRange 5 8));
      simpl; unfold rangesOverlap; lia.
  - intros H.
    apply (C3_overlap_query_is_inclusive_intersection 1 5 (rowWithRange 6 8))
      in H; simpl in *; unfold rangesOverlap in *; lia.
Defined.

(** The overlap query returns the employee's active rows whose range
    intersects the candidate range. *)
Lemma findOverlapping_selects (w : World) (employeeId s1 e1 : Z)
  (r : LeaveRequest.t) :
  s1 <= e1 ->
  LeaveRequest.startDate r <= LeaveRequest.endDate r ->
  (In r (LeaveRequestRepository.findOverlapping w employeeId s1 e1 None) <->
   In r (leaveRequests w)
   /\ LeaveRequest.employeeId r = employeeId
   /\ LeaveRequestRepository.isActive r = true
   /\ rangesOverlap s1 e1 (LeaveRequest.startDate r) (LeaveRequest.endDate r)).
Proof.
  intros H1 H2. unfold LeaveRequestRepository.findOverlapping.
  rewrite filter_In. simpl LeaveRequestRepository.notExcluded.
  rewrite andb_true_r, !andb_true_iff, Z.eqb_eq.
  unfold LeaveRequestRepository.overlapMatch, LeaveRequestRepository.between,
    rangesOverlap.
  rewrite !orb_true_iff, !andb_true_iff, !Z.leb_le, Z.geb_le.
  intuition lia.
Qed.

(** ** The duration classifier *)




(** On each of them the integer reading and the binary64 reading agree. *)
Lemma calculateLeaveDuration_readings_agree :
  Forall (fun dates =>
            LeaveRequestProcessor.calculateLeaveDuration
              (fst dates) (snd dates)
            = LeaveRequestProcessor.Binary64.calculateLeaveDuration
                (fst dates) (snd dates))
         comparedDates.
Proof. repeat constructor; vm_compute; reflexivity. Qed.

Lemma readingsAgree_eq (dates : DateInput * DateInput) :
  readingsAgree dates = true ->
  LeaveRequestProcessor.calculateLeaveDuration (fst dates) (snd dates)
  = LeaveRequestProcessor.Binary64.calculateLeaveDuration
      (fst dates) (snd dates).
Proof.
  unfold readingsAgree.
  destruct (LeaveRequestProcessor.calculateLeaveDuration _ _) as [a |],
           (LeaveRequestProcessor.Binary64.calculateLeaveDuration _ _) as [b |];
    try discriminate; [| reflexivity].
  intros H. apply Z.eqb_eq in H. now subst.
Qed.

(** The two readings agree where the rounding of the quotient would show
    first: at differences of a whole number of days, and of one millisecond
    less or more, up to 2^53 milliseconds. *)
Lemma calculateLeaveDuration_readings_agree_near_whole_days :
  Forall (fun dates =>
            LeaveRequestProcessor.calculateLeaveDuration
              (fst dates) (snd dates)
            = LeaveRequestProcessor.Binary64.calculateLeaveDuration
                (fst dates) (snd dates))
         nearWholeDays
  /\ Z.of_nat (List.length nearWholeDays) = 6000
  /\ Forall (fun dates =>
               match newDate (fst dates), newDate (snd dates) with
               | Some s, Some e => Z.abs (e - s) <= EXACT_DIFFERENCE
               | _, _ => False
               end)
            nearWholeDays.
Proof.
  split; [| split].
  - apply Forall_forall. intros dates Hin. apply readingsAgree_eq.
    assert (Hall : forallb readingsAgree nearWholeDays = true)
      by (vm_compute; reflexivity).
    rewrite forallb_forall in Hall. now apply Hall.
  - vm_compute. reflexivity.
  - apply Forall_forall. intros dates Hin.
    assert (Hall : forallb
                     (fun dates =>
                        match newDate (fst dates), newDate (snd dates) with
                        | Some s, Some e => Z.abs (e - s) <=? EXACT_DIFFERENCE
                        | _, _ => false
                        end) nearWholeDays = true)
      by (vm_compute; reflexivity).
    rewrite forallb_forall in Hall. specialize (Hall dates Hin).
    destruct (newDate (fst dates)), (newDate (snd dates));
      try discriminate. now apply Z.leb_le.
Qed.

(** ** The record store *)

Lemma findById_id (w : World) (i : Z) (r : LeaveRequest.t) :
  LeaveRequestRepository.findById w i = Some r -> LeaveRequest.id r = i.
Proof.
  unfold LeaveRequestRepository.findById. intros H.
  apply find_some in H. destruct H as [_ H]. now apply Z.eqb_eq.
Qed.

Lemma findById_In (w : World) (i : Z) (r : LeaveRequest.t) :
  LeaveRequestRepository.findById w i = Some r -> In r (leaveRequests w).
Proof.
  unfold LeaveRequestRepository.findById. intros H.
  now apply find_some in H.
Qed.

(** A status update rewrites the rows of one id in place: a lookup after it
    finds the row a lookup before it found, updated when it is the target. *)
Lemma findById_updateStatus (env : Env) (w : World) (i j : Z) (s : Status) :
  LeaveRequestRepository.findById
    (LeaveRequestRepository.updateStatus env w i s) j
  = option_map
      (fun r => if LeaveRequest.id r =? i
                then LeaveRequest.withStatus s (now env) r else r)
      (LeaveRequestRepository.findById w j).
Proof.
  unfold LeaveRequestRepository.findById, LeaveRequestRepository.updateStatus.
  simpl. induction (leaveRequests w) as [| r rows IH]; simpl.
  - reflexivity.
  - destruct (LeaveRequest.id r =? i) eqn:Hi; simpl;
      destruct (LeaveRequest.id r =? j) eqn:Hj; simpl;
      try rewrite Hi; auto.
Qed.

(** What a status update does to the store, field by field: the record of
    the id carries the new status and the instant of the update, keeps its
    other fields, and every other id resolves as before. *)
Lemma updateStatus_moves_the_record (env : Env) (w : World)
  (lr : LeaveRequest.t) (s : Status) :
  LeaveRequestRepository.findById w (LeaveRequest.id lr) = Some lr ->
  let w' := LeaveRequestRepository.updateStatus env w (LeaveRequest.id lr) s in
  (exists lr',
     LeaveRequestRepository.findById w' (LeaveRequest.id lr) = Some lr'
     /\ LeaveRequest.status lr' = s
     /\ LeaveRequest.processedAt lr' = Some (now env)
     /\ sameRequest lr lr')
  /\ (forall j, j <> LeaveRequest.id lr ->
                LeaveRequestRepository.findById w' j
                = LeaveRequestRepository.findById w j).
Proof.
  intros Hfetch w'. subst w'. split.
  - rewrite findById_updateStatus, Hfetch. simpl. rewrite Z.eqb_refl.
    eexists. split; [reflexivity |]. repeat split.
  - intros j Hj. rewrite findById_updateStatus.
    destruct (LeaveRequestRepository.findById w j) as [r |] eqn:Hr;
      [| reflexivity].
    apply findById_id in Hr. simpl.
    destruct (LeaveRequest.id r =? LeaveRequest.id lr) eqn:Heq;
      [| reflexivity].
    apply Z.eqb_eq in Heq. congruence.
Qed.

Lemma findById_delete (w : World) (i : Z) :
  LeaveRequestRepository.findById (LeaveRequestRepository.delete w i) i = None.
Proof.
  unfold LeaveRequestRepository.findById, LeaveRequestRepository.delete.
  simpl. induction (leaveRequests w) as [| r rows IH]; simpl.
  - reflexivity.
  - destruct (LeaveRequest.id r =? i) eqn:Hi; simpl.
    + exact IH.
    + now rewrite Hi.
Qed.

Lemma findById_delete_other (w : World) (i j : Z) :
  i <> j ->
  LeaveRequestRepository.findById (LeaveRequestRepository.delete w i) j
  = LeaveRequestRepository.findById w j.
Proof.
  intros Hij.
  unfold LeaveRequestRepository.findById, LeaveRequestRepository.delete.
  simpl. induction (leaveRequests w) as [| r rows IH]; simpl.
  - reflexivity.
  - destruct (LeaveRequest.id r =? i) eqn:Hi; simpl.
    + apply Z.eqb_eq in Hi.
      destruct (LeaveRequest.id r =? j) eqn:Hj; [| exact IH].
      apply Z.eqb_eq in Hj. congruence.
    + destruct (LeaveRequest.id r =? j); [reflexivity | exact IH].
Qed.

(** ** The auto-processor *)

Lemma Status_eqb_eq (a b : Status) : Status_eqb a b = true <-> a = b.
Proof. destruct a, b; simpl; split; congruence. Qed.

Lemma Status_eqb_neq (a b : Status) : Status_eqb a b = false <-> a <> b.
Proof. destruct a, b; simpl; split; congruence. Qed.

(** What the processor does to a PENDING record, by its day span. *)
Lemma autoProcess_pending (threshold : Z) (env : Env) (w : World)
  (lr : LeaveRequest.t) :
  LeaveRequest.status lr = PENDING ->
  LeaveRequestProcessor.autoProcessLeaveRequest threshold env w (Some lr)
  = if Z.max 1 (LeaveRequest.endDate lr - LeaveRequest.startDate lr + 1)
       <=? threshold
    then fst (publishMessage env
                (LeaveRequestRepository.updateStatus env w
                   (LeaveRequest.id lr) APPROVED)
                LEAVE_APPROVED
                (LeaveApprovedMessage (LeaveRequest.id lr)
                   (LeaveRequest.employeeId lr) (LeaveRequest.startDate lr)
                   (LeaveRequest.endDate lr) (now env)))
    else LeaveRequestRepository.updateStatus env w
           (LeaveRequest.id lr) PENDING_APPROVAL.
Proof.
  intros Hst. unfold LeaveRequestProcessor.autoProcessLeaveRequest.
  rewrite Hst, calculateLeaveDuration_days. cbn [Status_eqb negb].
  destruct (Z.max 1 _ =? 0) eqn:H0; [apply Z.eqb_eq in H0; lia |].
  destruct (Z.max 1 _ <=? threshold); reflexivity.
Qed.

(** The store and the trace after processing a fetched PENDING record of
    day span [d]. *)
Lemma autoProcess_pending_fetched (threshold : Z) (env : Env) (w : World)
  (lr : LeaveRequest.t) :
  LeaveRequestRepository.findById w (LeaveRequest.id lr) = Some lr ->
  LeaveRequest.status lr = PENDING ->
  let d := Z.max 1 (LeaveRequest.endDate lr - LeaveRequest.startDate lr + 1) in
  let w' :=
    LeaveRequestProcessor.autoProcessLeaveRequest threshold env w (Some lr) in
  (d <= threshold ->
     (exists lr',
        LeaveRequestRepository.findById w' (LeaveRequest.id lr) = Some lr'
        /\ LeaveRequest.status lr' = APPROVED
        /\ LeaveRequest.processedAt lr' = Some (now env)
        /\ sameRequest lr lr')
     /\ (forall j, j <> LeaveRequest.id lr ->
                   LeaveRequestRepository.findById w' j
                   = LeaveRequestRepository.findById w j)
     /\ published w'
        = (published w
           ++ [mkPublication LEAVE_APPROVED
                 (LeaveApprovedMessage (LeaveRequest.id lr)
                    (LeaveRequest.employeeId lr) (LeaveRequest.startDate lr)
                    (LeaveRequest.endDate lr) (now env))
                 (brokerUp env)])%list)
  /\ (threshold < d ->
        (exists lr',
           LeaveRequestRepository.findById w' (LeaveRequest.id lr) = Some lr'
           /\ LeaveRequest.status lr' = PENDING_APPROVAL
           /\ LeaveRequest.processedAt lr' = Some (now env)
           /\ sameRequest lr lr')
        /\ (forall j, j <> LeaveRequest.id lr ->
                      LeaveRequestRepository.findById w' j
                      = LeaveRequestRepository.findById w j)
        /\ published w' = published w).
Proof.
  intros Hfetch Hst d w'. subst d w'.
  rewrite (autoProcess_pending threshold env w lr Hst).
  split; intros Hcmp.
  - apply Z.leb_le in Hcmp. rewrite Hcmp.
    destruct (updateStatus_moves_the_record env w lr APPROVED Hfetch)
      as [Hrow Hothers].
    split; [exact Hrow |]. split; [exact Hothers | reflexivity].
  - apply Z.leb_gt in Hcmp. rewrite Hcmp.
    destruct (updateStatus_moves_the_record env w lr PENDING_APPROVAL Hfetch)
      as [Hrow Hothers].
    split; [exact Hrow |]. split; [exact Hothers | reflexivity].
Qed.

(** C4: for a fetched record that is PENDING and whose duration is
    determined, the processor acts by the duration.  When it is at most the
    threshold, the record is stored with status APPROVED, stamped with the
    instant of processing and otherwise as it was, and the trace gains one
    publish call, of a leave.approved event that names the record, which
    the broker takes when it can be reached.  When it exceeds the threshold,
    the record is stored with status PENDING_APPROVAL and the trace stays as
    it was.  In both cases every other record is left as it was. *)
Theorem C4_auto_approval_threshold :
  forall (threshold : Z) (env : Env) (w : World) (lr : LeaveRequest.t)
         (duration : Z),
    LeaveRequestRepository.findById w (LeaveRequest.id lr) = Some lr ->
    LeaveRequest.status lr = PENDING ->
    LeaveRequestProcessor.calculateLeaveDuration
      (DateOnly (LeaveRequest.startDate lr))
      (DateOnly (LeaveRequest.endDate lr)) = Some duration ->
    let w' :=
      LeaveRequestProcessor.autoProcessLeaveRequest threshold env w (Some lr) in
    (duration <= threshold ->
       (exists lr',
          LeaveRequestRepository.findById w' (LeaveRequest.id lr) = Some lr'
          /\ LeaveRequest.status lr' = APPROVED
          /\ LeaveRequest.processedAt lr' = Some (now env)
          /\ sameRequest lr lr')
       /\ (forall j, j <> LeaveRequest.id lr ->
                     LeaveRequestRepository.findById w' j
                     = LeaveRequestRepository.findById w j)
       /\ exists call,
            published w' = (published w ++ [call])%list
            /\ routingKey call = LEAVE_APPROVED
            /\ payload call
               = LeaveApprovedMessage (LeaveRequest.id lr)
                   (LeaveRequest.employeeId lr) (LeaveRequest.startDate lr)
                   (LeaveRequest.endDate lr) (now env)
            /\ delivered call = brokerUp env)
    /\ (threshold < duration ->
          (exists lr',
             LeaveRequestRepository.findById w' (LeaveRequest.id lr) = Some lr'
             /\ LeaveRequest.status lr' = PENDING_APPROVAL
             /\ LeaveRequest.processedAt lr' = Some (now env)
             /\ sameRequest lr lr')
          /\ (forall j, j <> LeaveRequest.id lr ->
                        LeaveRequestRepository.findById w' j
                        = LeaveRequestRepository.findById w j)
          /\ published w' = published w).
Proof.
  intros threshold env w lr duration Hfetch Hst Hdur.
  rewrite calculateLeaveDuration_days in Hdur. injection Hdur as Hdur.
  subst duration.
  destruct (autoProcess_pending_fetched threshold env w lr Hfetch Hst)
    as [Hle Hgt].
  split; intros Hcmp.
  - destruct (Hle Hcmp) as (Hrow & Hothers & Htrace).
    split; [exact Hrow |]. split; [exact Hothers |].
    eexists. split; [exact Htrace |]. repeat split.
  - exact (Hgt Hcmp).
Qed.

(** At the default threshold of 2 days, with the broker reachable: a
    fetched PENDING two-day request is found APPROVED afterwards and one
    delivered leave.approved call is in the trace; a three-day one is found
    PENDING_APPROVAL and the trace is empty. *)
Lemma C4_default_threshold_examples :
  (let lr := pendingRow 1 19740 19741 in
   let w' := LeaveRequestProcessor.autoProcessLeaveRequest
               DEFAULT_AUTO_APPROVE_DAYS_THRESHOLD exampleEnv
               (worldWith [lr]) (Some lr) in
   (exists lr',
      LeaveRequestRepository.findById w' 1 = Some lr'
      /\ LeaveRequest.status lr' = APPROVED
      /\ LeaveRequest.processedAt lr' = Some (now exampleEnv)
      /\ sameRequest lr lr')
   /\ (forall j, j <> 1 ->
                 LeaveRequestRepository.findById w' j
                 = LeaveRequestRepository.findById (worldWith [lr]) j)
   /\ exists call,
        published w' = [call]
        /\ routingKey call = LEAVE_APPROVED
        /\ payload call
           = LeaveApprovedMessage 1 1 19740 19741 (now exampleEnv)
        /\ delivered call = true)
  /\ (let lr := pendingRow 1 19740 19742 in
      let w' := LeaveRequestProcessor.autoProcessLeaveRequest
                  DEFAULT_AUTO_APPROVE_DAYS_THRESHOLD exampleEnv
                  (worldWith [lr]) (Some lr) in
      (exists lr',
         LeaveRequestRepository.findById w' 1 = Some lr'
         /\ LeaveRequest.status lr' = PENDING_APPROVAL
         /\ LeaveRequest.processedAt lr' = Some (now exampleEnv)
         /\ sameRequest lr lr')
      /\ (forall j, j <> 1 ->
                    LeaveRequestRepository.findById w' j
                    = LeaveRequestRepository.findById (worldWith [lr]) j)
      /\ published w' = []).
Proof.
  split.
  - destruct (C4_auto_approval_threshold DEFAULT_AUTO_APPROVE_DAYS_THRESHOLD
                exampleEnv (worldWith [pendingRow 1 19740 19741])
                (pendingRow 1 19740 19741) 2 eq_refl eq_refl eq_refl)
      as [Happroved _].
    apply Happroved. unfold DEFAULT_AUTO_APPROVE_DAYS_THRESHOLD. lia.
  - destruct (C4_auto_approval_threshold DEFAULT_AUTO_APPROVE_DAYS_THRESHOLD
                exampleEnv (worldWith [pendingRow 1 19740 19742])
                (pendingRow 1 19740 19742) 3 eq_refl eq_refl eq_refl)
      as [_ Hlong].
    apply Hlong. unfold DEFAULT_AUTO_APPROVE_DAYS_THRESHOLD. lia.
Defined.

Lemma autoProcess_not_pending (threshold : Z) (env : Env) (w : World)
  (lr : LeaveRequest.t) :
  LeaveRequest.status lr <> PENDING ->
  LeaveRequestProcessor.autoProcessLeaveRequest threshold env w (Some lr) = w.
Proof.
  intros Hst. unfold LeaveRequestProcessor.autoProcessLeaveRequest.
  apply Status_eqb_neq in Hst. now rewrite Hst.
Qed.

(** After a PENDING record was processed, a lookup finds it in a status that
    is not PENDING. *)
Lemma autoProcess_pending_moves_on (threshold : Z) (env : Env) (w : World)
  (lr : LeaveRequest.t) :
  LeaveRequestRepository.findById w (LeaveRequest.id lr) = Some lr ->
  LeaveRequest.status lr = PENDING ->
  exists lr',
    LeaveRequestRepository.findById
      (LeaveRequestProcessor.autoProcessLeaveRequest threshold env w (Some lr))
      (LeaveRequest.id lr) = Some lr'
    /\ LeaveRequest.status lr' <> PENDING.
Proof.
  intros Hfetch Hst.
  pose proof (autoProcess_pending_fetched threshold env w lr Hfetch Hst)
    as [Hle Hgt].
  destruct (Z_le_gt_dec
              (Z.max 1 (LeaveRequest.endDate lr - LeaveRequest.startDate lr + 1))
              threshold) as [H | H].
  - destruct (Hle H) as ((lr' & Hfind & Hstatus & _) & _).
    exists lr'. split; [exact Hfind |]. rewrite Hstatus. discriminate.
  - destruct (Hgt ltac:(lia)) as ((lr' & Hfind & Hstatus & _) & _).
    exists lr'. split; [exact Hfind |]. rewrite Hstatus. discriminate.
Qed.

(** C5: a consumed "requested" event whose re-fetched record is not PENDING
    changes neither the store nor the trace of published events; hence
    consuming any message a second time, whatever the first consumption did,
    changes nothing more. *)
Theorem C5_reprocessing_guard :
  (forall (threshold : Z) (env : Env) (w : World)
          (msg : LeaveRequestProcessor.QueueMessage) (i : Z)
          (lr : LeaveRequest.t),
     LeaveRequestProcessor.fieldsRoutingKey msg = Some LEAVE_REQUESTED ->
     LeaveRequestProcessor.payloadId msg = Some i ->
     LeaveRequestRepository.findById w i = Some lr ->
     LeaveRequest.status lr <> PENDING ->
     LeaveRequestProcessor.handleQueueMessage threshold env w msg = w)
  /\ (forall (threshold : Z) (env env' : Env) (w : World)
             (msg : LeaveRequestProcessor.QueueMessage),
        LeaveRequestProcessor.handleQueueMessage threshold env'
          (LeaveRequestProcessor.handleQueueMessage threshold env w msg) msg
        = LeaveRequestProcessor.handleQueueMessage threshold env w msg).
Proof.
  split.
  - intros threshold env w msg i lr Hkey Hid Hfetch Hst.
    unfold LeaveRequestProcessor.handleQueueMessage.
    rewrite Hkey, Hid, Hfetch. simpl.
    destruct (i =? 0); [reflexivity |].
    now apply autoProcess_not_pending.
  - intros threshold env env' w msg.
    unfold LeaveRequestProcessor.handleQueueMessage.
    destruct (LeaveRequestProcessor.fieldsRoutingKey msg) as [key |];
      [| reflexivity].
    destruct (negb (key =? LEAVE_REQUESTED)%string); [reflexivity |].
    destruct (LeaveRequestProcessor.payloadId msg) as [i |]; [| reflexivity].
    destruct (i =? 0); [reflexivity |].
    destruct (LeaveRequestRepository.findById w i) as [lr |] eqn:Hfetch.
    + pose proof (findById_id _ _ _ Hfetch) as Hi. subst i.
      destruct (Status_eqb (LeaveRequest.status lr) PENDING) eqn:Hst.
      * apply Status_eqb_eq in Hst.
        destruct (autoProcess_pending_moves_on threshold env w lr Hfetch Hst)
          as [lr' [Hfetch' Hst']].
        rewrite Hfetch'. now apply autoProcess_not_pending.
      * apply Status_eqb_neq in Hst.
        rewrite (autoProcess_not_pending threshold env w lr Hst), Hfetch.
        now apply autoProcess_not_pending.
    + now rewrite Hfetch.
Qed.

(** Replaying the "requested" event of an APPROVED record: the world stays
    as it is. *)
Lemma C5_replay_after_approval :
  let w := worldWith [rowWithRange 19740 19741] in
  LeaveRequestProcessor.handleQueueMessage DEFAULT_AUTO_APPROVE_DAYS_THRESHOLD
    exampleEnv w
    (LeaveRequestProcessor.mkQueueMessage (Some 1) (Some LEAVE_REQUESTED))
  = w.
Proof.
  apply (proj1 C5_reprocessing_guard DEFAULT_AUTO_APPROVE_DAYS_THRESHOLD
           exampleEnv (worldWith [rowWithRange 19740 19741])
           (LeaveRequestProcessor.mkQueueMessage (Some 1) (Some LEAVE_REQUESTED))
           1 (rowWithRange 19740 19741) eq_refl eq_refl eq_refl).
  simpl. discriminate.
Defined.

(** C10: the classifier returns a number, at least 1, for every pair of
    dates that parse, and 1 when the end precedes the start; so the
    processor, at any threshold of at least one day, does not skip a stored
    PENDING record whose dates are reversed: it counts one day and the
    record is found with status APPROVED afterwards, stamped with the
    instant of processing. *)
Theorem C10_reversed_dates_are_one_day :
  (forall (startDate endDate : DateInput) (s e : Z),
     newDate startDate = Some s -> newDate endDate = Some e ->
     exists n : Z,
       LeaveRequestProcessor.calculateLeaveDuration startDate endDate = Some n
       /\ 1 <= n /\ (e < s -> n = 1))
  /\ (forall (threshold : Z) (env : Env) (w : World) (lr : LeaveRequest.t),
        1 <= threshold ->
        LeaveRequestRepository.findById w (LeaveRequest.id lr) = Some lr ->
        LeaveRequest.status lr = PENDING ->
        LeaveRequest.endDate lr < LeaveRequest.startDate lr ->
        LeaveRequestProcessor.calculateLeaveDuration
          (DateOnly (LeaveRequest.startDate lr))
          (DateOnly (LeaveRequest.endDate lr)) = Some 1
        /\ exists lr',
             LeaveRequestRepository.findById
               (LeaveRequestProcessor.autoProcessLeaveRequest threshold env w
                  (Some lr))
               (LeaveRequest.id lr) = Some lr'
             /\ LeaveRequest.status lr' = APPROVED
             /\ LeaveRequest.processedAt lr' = Some (now env)
             /\ sameRequest lr lr').
Proof.
  split.
  - intros startDate endDate s e Hs He.
    unfold LeaveRequestProcessor.calculateLeaveDuration. rewrite Hs, He.
    eexists. split; [reflexivity |]. split; [lia |].
    intros Hlt.
    pose proof (ceilDiv_nonpos (e - s) MILLISECONDS_IN_DAY
                  MILLISECONDS_IN_DAY_pos ltac:(lia)).
    lia.
  - intros threshold env w lr Hth Hfetch Hst Hrev.
    assert (Hdur : LeaveRequestProcessor.calculateLeaveDuration
                     (DateOnly (LeaveRequest.startDate lr))
                     (DateOnly (LeaveRequest.endDate lr)) = Some 1).
    { rewrite calculateLeaveDuration_days. f_equal. lia. }
    split; [exact Hdur |].
    destruct (autoProcess_pending_fetched threshold env w lr Hfetch Hst)
      as [Happroved _].
    apply Happroved. lia.
Qed.

(** A stored PENDING record running from 2024-01-20 back to 2024-01-18
    counts one day and is found APPROVED after its processing at the
    default threshold. *)
Lemma C10_reversed_record_approved :
  let lr := pendingRow 1 19742 19740 in
  LeaveRequestProcessor.calculateLeaveDuration (DateOnly 19742) (DateOnly 19740)
  = Some 1
  /\ exists lr',
       LeaveRequestRepository.findById
         (LeaveRequestProcessor.autoProcessLeaveRequest
            DEFAULT_AUTO_APPROVE_DAYS_THRESHOLD exampleEnv (worldWith [lr])
            (Some lr)) 1 = Some lr'
       /\ LeaveRequest.status lr' = APPROVED
       /\ LeaveRequest.processedAt lr' = Some (now exampleEnv)
       /\ sameRequest lr lr'.
Proof.
  apply (proj2 C10_reversed_dates_are_one_day
           DEFAULT_AUTO_APPROVE_DAYS_THRESHOLD exampleEnv
           (worldWith [pendingRow 1 19742 19740]) (pendingRow 1 19742 19740)).
  - unfold DEFAULT_AUTO_APPROVE_DAYS_THRESHOLD. lia.
  - reflexivity.
  - reflexivity.
  - simpl. lia.
Defined.

(** ** Cancellation *)

(** C8: cancelling fails NotFound when no record has the id; fails
    Unauthorized when the record is another employee's; fails InvalidState
    when it is the requester's and REJECTED; otherwise the record is deleted
    and no lookup finds it, while every other id resolves as before.  A
    failure leaves the world as it was. *)
Theorem C8_cancellation :
  forall (w : World) (id employeeId : Z),
    (LeaveRequestRepository.findById w id = None ->
       exists e, LeaveRequestService.cancelLeaveRequest w id employeeId = Err e
                 /\ kind e = NotFound)
    /\ (forall r,
          LeaveRequestRepository.findById w id = Some r ->
          LeaveRequest.employeeId r <> employeeId ->
          exists e,
            LeaveRequestService.cancelLeaveRequest w id employeeId = Err e
            /\ kind e = Unauthorized)
    /\ (forall r,
          LeaveRequestRepository.findById w id = Some r ->
          LeaveRequest.employeeId r = employeeId ->
          LeaveRequest.status r = REJECTED ->
          exists e,
            LeaveRequestService.cancelLeaveRequest w id employeeId = Err e
            /\ kind e = InvalidState)
    /\ (forall r,
          LeaveRequestRepository.findById w id = Some r ->
          LeaveRequest.employeeId r = employeeId ->
          LeaveRequest.status r <> REJECTED ->
          exists w',
            LeaveRequestService.cancelLeaveRequest w id employeeId = Ok w'
            /\ LeaveRequestRepository.findById w' id = None
            /\ (forall j, j <> id ->
                  LeaveRequestRepository.findById w' j
                  = LeaveRequestRepository.findById w j)
            /\ employees w' = employees w
            /\ published w' = published w)
    /\ (forall (threshold : Z) e,
          LeaveRequestService.cancelLeaveRequest w id employeeId = Err e ->
          step threshold w (CancelLeaveRequest id employeeId) = w).
Proof.
  intros w id employeeId.
  unfold LeaveRequestService.cancelLeaveRequest.
  repeat split.
  - intros Hnone. rewrite Hnone. now exists LeaveRequestNotFound.
  - intros r Hsome Howner. rewrite Hsome.
    apply Z.eqb_neq in Howner. rewrite Howner. simpl.
    now exists UnauthorizedCancel.
  - intros r Hsome Howner Hst. rewrite Hsome.
    apply Z.eqb_eq in Howner. rewrite Howner, Hst. simpl.
    now exists CannotCancelRejected.
  - intros r Hsome Howner Hst. rewrite Hsome.
    apply Z.eqb_eq in Howner. apply Status_eqb_neq in Hst.
    rewrite Howner, Hst. simpl.
    exists (LeaveRequestRepository.delete w id).
    split; [reflexivity |]. split; [apply findById_delete |].
    split; [| split; reflexivity].
    intros j Hj. apply findById_delete_other. congruence.
  - intros threshold e Herr. simpl.
    unfold LeaveRequestService.cancelLeaveRequest. now rewrite Herr.
Qed.

(** Employee 1 cancels their own PENDING request 1; employee 2 may not. *)
Lemma C8_cancellation_examples :
  (exists w',
     LeaveRequestService.cancelLeaveRequest
       (worldWith [pendingRow 1 19740 19741]) 1 1 = Ok w'
     /\ LeaveRequestRepository.findById w' 1 = None)
  /\ (exists e,
        LeaveRequestService.cancelLeaveRequest
          (worldWith [pendingRow 1 19740 19741]) 1 2 = Err e
        /\ kind e = Unauthorized).
Proof.
  destruct (C8_cancellation (worldWith [pendingRow 1 19740 19741]) 1 1)
    as (_ & _ & _ & Hdelete & _).
  destruct (C8_cancellation (worldWith [pendingRow 1 19740 19741]) 1 2)
    as (_ & Hunauthorized & _).
  split.
  - destruct (Hdelete (pendingRow 1 19740 19741) eq_refl eq_refl)
      as (w' & Hok & Hgone & _).
    + simpl. discriminate.
    + now exists w'.
  - apply (Hunauthorized (pendingRow 1 19740 19741) eq_refl).
    simpl. lia.
Defined.

(** ** Creation *)

Lemma find_none_existsb {A : Type} (p : A -> bool) (l : list A) :
  find p l = None -> existsb p l = false.
Proof.
  induction l as [| a l IH]; simpl; [reflexivity |].
  destruct (p a); [discriminate | exact IH].
Qed.

Lemma length_pos_false {A : Type} (l : list A) :
  (0 <? Z.of_nat (List.length l)) = false -> l = [].
Proof.
  destruct l; [reflexivity |]. simpl List.length. intros H.
  apply Z.ltb_ge in H. lia.
Qed.

(** How a creation that passes the guards ends: with the existing record of
    the key, or with a new row and a published event. *)
Lemma createLeaveRequest_validated (env : Env) (w : World)
  (d : LeaveRequestService.LeaveRequestData) :
  passesValidation env w d ->
  LeaveRequestService.createLeaveRequest env w d
  = match LeaveRequestRepository.findByIdempotencyKey w
            (LeaveRequestService.keyOrRandom env
               (LeaveRequestService.idempotencyKey d)) with
    | Some existingRequest =>
        Ok (w, LeaveRequestService.mkCreateResponse (Some existingRequest) true)
    | None =>
        Ok (createdWorld env w d,
            LeaveRequestService.mkCreateResponse
              (LeaveRequestRepository.findById (createdWorld env w d) (nextId w))
              false)
    end.
Proof.
  intros (Hemp & Hdates & Hpast & Hover).
  unfold LeaveRequestService.createLeaveRequest.
  rewrite Hemp, Hover. simpl negb. simpl newDate.
  unfold JsDate.gt, JsDate.lt.
  assert (H1 : (LeaveRequestService.endDate d * MILLISECONDS_IN_DAY
                <? LeaveRequestService.startDate d * MILLISECONDS_IN_DAY)
               = false).
  { apply Z.ltb_ge. pose proof MILLISECONDS_IN_DAY_pos. nia. }
  assert (H2 : (LeaveRequestService.startDate d * MILLISECONDS_IN_DAY
                <? setHours0 (utcOffset env) (now env)) = false).
  { now apply Z.ltb_ge. }
  rewrite H1, H2. cbn [throwIf bind List.length Z.of_nat Z.ltb Z.compare].
  destruct (LeaveRequestRepository.findByIdempotencyKey w _) eqn:Hkey;
    [reflexivity |].
  unfold LeaveRequestRepository.create.
  cbn [LeaveRequestRepository.endDate LeaveRequestRepository.startDate
       LeaveRequestRepository.idempotencyKey LeaveRequestRepository.employeeId
       LeaveRequestRepository.status newDate].
  unfold JsDate.lt. rewrite H1.
  rewrite (find_none_existsb _ _ Hkey), Hemp.
  reflexivity.
Qed.

Lemma find_app_split {A : Type} (p : A -> bool) (l l' : list A) :
  find p (l ++ l') = match find p l with
                     | Some x => Some x
                     | None => find p l'
                     end.
Proof.
  induction l as [| a l IH]; simpl; [reflexivity |].
  destruct (p a); [reflexivity | exact IH].
Qed.

(** A creation that returns has passed the guards. *)
Lemma createLeaveRequest_Ok_validated (env : Env) (w : World)
  (d : LeaveRequestService.LeaveRequestData)
  (r : World * LeaveRequestService.CreateResponse) :
  LeaveRequestService.createLeaveRequest env w d = Ok r ->
  passesValidation env w d.
Proof.
  unfold LeaveRequestService.createLeaveRequest, passesValidation.
  destruct (EmployeeRepository.exists_ w (LeaveRequestService.employeeId d));
    [| discriminate].
  simpl negb. simpl newDate. unfold JsDate.gt, JsDate.lt.
  destruct (_ <? _) eqn:H1; [discriminate |].
  destruct (_ <? setHours0 _ _) eqn:H2; [discriminate |].
  destruct (0 <? _) eqn:H3; [discriminate |].
  intros _. apply Z.ltb_ge in H1, H2. apply length_pos_false in H3.
  pose proof MILLISECONDS_IN_DAY_pos.
  repeat split; [nia | lia | exact H3].
Qed.

(** A PENDING row is invisible to the overlap query. *)
Lemma findOverlapping_createdWorld (env : Env) (w : World)
  (d : LeaveRequestService.LeaveRequestData) (e s f : Z) (x : option Z) :
  LeaveRequestRepository.findOverlapping (createdWorld env w d) e s f x
  = LeaveRequestRepository.findOverlapping w e s f x.
Proof.
  unfold LeaveRequestRepository.findOverlapping. simpl leaveRequests.
  rewrite filter_app. simpl.
  rewrite andb_false_r. simpl. apply app_nil_r.
Qed.

(** C1 (as amended): for a non-empty idempotency key, when a first creation
    returns a new record (duplicate false), a second creation with the same
    request, made in the world the first one left and while the start date
    is still not in the past, returns a record of the same id with duplicate
    true and leaves the world as it is: no row is added and nothing is
    published. *)
Theorem C1_idempotent_creation :
  forall (env env' : Env) (w w1 : World)
         (d : LeaveRequestService.LeaveRequestData) (k : string)
         (r1 : LeaveRequestService.CreateResponse),
    LeaveRequestService.idempotencyKey d = Some k ->
    k <> EmptyString ->
    LeaveRequestService.createLeaveRequest env w d = Ok (w1, r1) ->
    LeaveRequestService.duplicate r1 = false ->
    setHours0 (utcOffset env') (now env')
    <= LeaveRequestService.startDate d * MILLISECONDS_IN_DAY ->
    exists row1 row2 : LeaveRequest.t,
      LeaveRequestService.data r1 = Some row1
      /\ LeaveRequestService.createLeaveRequest env' w1 d
         = Ok (w1, LeaveRequestService.mkCreateResponse (Some row2) true)
      /\ LeaveRequest.id row1 = LeaveRequest.id row2.
Proof.
  intros env env' w w1 d k r1 Hk Hne Hfirst Hfresh Hpast.
  pose proof (createLeaveRequest_Ok_validated _ _ _ _ Hfirst) as Hval.
  rewrite (createLeaveRequest_validated env w d Hval) in Hfirst.
  assert (Hkey : forall e, LeaveRequestService.keyOrRandom e
                             (LeaveRequestService.idempotencyKey d) = k).
  { intros e. rewrite Hk. simpl.
    destruct (String.eqb_spec k EmptyString); [contradiction | reflexivity]. }
  rewrite Hkey in Hfirst.
  destruct (LeaveRequestRepository.findByIdempotencyKey w k) eqn:Hnone.
  { injection Hfirst as _ Hr. subst r1. discriminate. }
  injection Hfirst as Hw Hr. subst w1 r1.
  destruct Hval as (Hemp & Hdates & _ & Hover).
  assert (Hval' : passesValidation env' (createdWorld env w d) d).
  { repeat split; try assumption.
    now rewrite findOverlapping_createdWorld. }
  rewrite (createLeaveRequest_validated env' _ d Hval'), Hkey.
  assert (Hfound : LeaveRequestRepository.findByIdempotencyKey
                     (createdWorld env w d) k = Some (createdRow env w d)).
  { unfold LeaveRequestRepository.findByIdempotencyKey in *.
    simpl leaveRequests. rewrite find_app_split, Hnone. simpl.
    unfold LeaveRequestRepository.hasKey. simpl.
    now rewrite Hkey, String.eqb_refl. }
  rewrite Hfound. simpl LeaveRequestService.data.
  destruct (LeaveRequestRepository.findById (createdWorld env w d) (nextId w))
    as [row1 |] eqn:Hrow.
  - exists row1, (createdRow env w d). repeat split.
    now apply findById_id in Hrow.
  - exfalso. unfold LeaveRequestRepository.findById in Hrow.
    simpl leaveRequests in Hrow. rewrite find_app_split in Hrow.
    destruct (find _ (leaveRequests w)); [discriminate |].
    simpl in Hrow. now rewrite Z.eqb_refl in Hrow.
Qed.

(** Creating twice under the key "retry-7": record 1 both times, new and
    then duplicate, and the world after the first call is the world after
    the second. *)
Lemma C1_retry_returns_same_record :
  exists row1 row2 : LeaveRequest.t,
    LeaveRequestRepository.findById
      (createdWorld exampleEnv (initialWorld [1]) keyedRequest) 1 = Some row1
    /\ LeaveRequestService.createLeaveRequest exampleEnv'
         (createdWorld exampleEnv (initialWorld [1]) keyedRequest) keyedRequest
       = Ok (createdWorld exampleEnv (initialWorld [1]) keyedRequest,
             LeaveRequestService.mkCreateResponse (Some row2) true)
    /\ LeaveRequest.id row1 = LeaveRequest.id row2.
Proof.
  apply (C1_idempotent_creation exampleEnv exampleEnv' (initialWorld [1])
           (createdWorld exampleEnv (initialWorld [1]) keyedRequest)
           keyedRequest "retry-7"
           (LeaveRequestService.mkCreateResponse
              (LeaveRequestRepository.findById
                 (createdWorld exampleEnv (initialWorld [1]) keyedRequest) 1)
              false)).
  - reflexivity.
  - discriminate.
  - reflexivity.
  - reflexivity.
  - vm_compute. discriminate.
Defined.

(** C1, as stated, fails in two ways.  Under the empty key both calls
    create: the two records differ, the second call also reports no
    duplicate, and two rows and two events result.  And under a key of the
    caller's own, once the processor has approved the new record between the
    two calls, the second call meets the record in the overlap check, which
    precedes the key lookup, and fails. *)
Lemma C1_second_call_creates_or_conflicts :
  (exists (w1 w2 : World) (row1 row2 : LeaveRequest.t),
     LeaveRequestService.createLeaveRequest exampleEnv (initialWorld [1])
       emptyKeyRequest
     = Ok (w1, LeaveRequestService.mkCreateResponse (Some row1) false)
     /\ LeaveRequestService.createLeaveRequest exampleEnv' w1 emptyKeyRequest
        = Ok (w2, LeaveRequestService.mkCreateResponse (Some row2) false)
     /\ LeaveRequest.id row1 <> LeaveRequest.id row2
     /\ List.length (leaveRequests w1) = 1%nat
     /\ List.length (leaveRequests w2) = 2%nat
     /\ List.length (published w2) = 2%nat)
  /\ (exists (w1 : World) (row1 : LeaveRequest.t),
        LeaveRequestService.createLeaveRequest exampleEnv (initialWorld [1])
          keyedRequest
        = Ok (w1, LeaveRequestService.mkCreateResponse (Some row1) false)
        /\ LeaveRequestService.createLeaveRequest exampleEnv'
             (LeaveRequestProcessor.handleQueueMessage
                DEFAULT_AUTO_APPROVE_DAYS_THRESHOLD exampleEnv w1
                (requestedEvent (LeaveRequest.id row1)))
             keyedRequest
           = Err Overlap).
Proof.
  split.
  - do 4 eexists.
    split; [vm_compute; reflexivity |].
    split; [vm_compute; reflexivity |].
    split; [simpl; discriminate |].
    repeat split.
  - do 2 eexists.
    split; [vm_compute; reflexivity |].
    vm_compute. reflexivity.
Qed.

(** ** Past dates *)

Lemma setHours0_localDay (off t : Z) :
  setHours0 off t = localDay off t * MILLISECONDS_IN_DAY - off.
Proof. reflexivity. Qed.

(** What the past-date guard does.  A creation in the name of an employee
    that does not exist fails with "Employee not found" before any date is
    read.  For an existing employee, a creation whose start date, read as
    midnight UTC of that day, lies before the server's local midnight of
    today fails with an InvalidInput error and leaves the world as it
    was. *)
Lemma createLeaveRequest_past_start :
  forall (env : Env) (w : World) (d : LeaveRequestService.LeaveRequestData),
    (EmployeeRepository.exists_ w (LeaveRequestService.employeeId d) = false ->
       LeaveRequestService.createLeaveRequest env w d = Err EmployeeNotFound
       /\ kind EmployeeNotFound = NotFound)
    /\ (EmployeeRepository.exists_ w (LeaveRequestService.employeeId d) = true ->
        LeaveRequestService.startDate d * MILLISECONDS_IN_DAY
        < setHours0 (utcOffset env) (now env) ->
          (exists e,
             LeaveRequestService.createLeaveRequest env w d = Err e
             /\ kind e = InvalidInput)
          /\ (forall threshold,
                step threshold w (CreateLeaveRequest env d) = w)).
Proof.
  intros env w d. split.
  - intros Hemp. unfold LeaveRequestService.createLeaveRequest.
    rewrite Hemp. split; reflexivity.
  - intros Hemp Hpast.
    assert (Herr : exists e,
               LeaveRequestService.createLeaveRequest env w d = Err e
               /\ kind e = InvalidInput).
    { unfold LeaveRequestService.createLeaveRequest.
      rewrite Hemp. simpl negb. simpl newDate. unfold JsDate.gt, JsDate.lt.
      apply Z.ltb_lt in Hpast. rewrite Hpast.
      destruct (LeaveRequestService.endDate d * MILLISECONDS_IN_DAY
                <? LeaveRequestService.startDate d * MILLISECONDS_IN_DAY);
        simpl; eexists; split; reflexivity. }
    split; [exact Herr |].
    intros threshold. destruct Herr as (e & Herr & _). simpl.
    now rewrite Herr.
Qed.

(** On a server whose local time is UTC or ahead of it, a request of an
    existing employee that starts on the current local day, with a
    well-formed range that overlaps no active request and a key no stored
    record carries, is created: one PENDING row is added for it. *)
Lemma createLeaveRequest_start_today_from_utc_eastwards :
  forall (env : Env) (w : World) (d : LeaveRequestService.LeaveRequestData),
    EmployeeRepository.exists_ w (LeaveRequestService.employeeId d) = true ->
    0 <= utcOffset env ->
    LeaveRequestService.startDate d = localDay (utcOffset env) (now env) ->
    LeaveRequestService.startDate d <= LeaveRequestService.endDate d ->
    LeaveRequestRepository.findOverlapping w
      (LeaveRequestService.employeeId d) (LeaveRequestService.startDate d)
      (LeaveRequestService.endDate d) None = [] ->
    LeaveRequestRepository.findByIdempotencyKey w
      (LeaveRequestService.keyOrRandom env
         (LeaveRequestService.idempotencyKey d)) = None ->
    exists w' r row,
      LeaveRequestService.createLeaveRequest env w d = Ok (w', r)
      /\ LeaveRequestService.duplicate r = false
      /\ leaveRequests w' = (leaveRequests w ++ [row])%list
      /\ LeaveRequest.employeeId row = LeaveRequestService.employeeId d
      /\ LeaveRequest.startDate row = LeaveRequestService.startDate d
      /\ LeaveRequest.endDate row = LeaveRequestService.endDate d
      /\ LeaveRequest.status row = PENDING.
Proof.
  intros env w d Hemp Hoff Htoday Hdates Hover Hkey.
  assert (Hnotpast : setHours0 (utcOffset env) (now env)
                     <= LeaveRequestService.startDate d * MILLISECONDS_IN_DAY).
  { rewrite setHours0_localDay, Htoday. lia. }
  rewrite (createLeaveRequest_validated env w d
             (conj Hemp (conj Hdates (conj Hnotpast Hover)))), Hkey.
  do 3 eexists. split; [reflexivity |]. repeat split.
Qed.

(** On a server in UTC on 2024-01-10: a request of employee 1 for
    2024-01-09 is refused as invalid; one for 2024-01-10 is created. *)
Lemma yesterday_refused_today_created_in_utc :
  (exists e,
     LeaveRequestService.createLeaveRequest exampleEnv (initialWorld [1])
       yesterdayRequest = Err e
     /\ kind e = InvalidInput)
  /\ (exists w' r,
        LeaveRequestService.createLeaveRequest exampleEnv (initialWorld [1])
          todayRequest = Ok (w', r)
        /\ LeaveRequestService.duplicate r = false
        /\ List.length (leaveRequests w') = 1%nat).
Proof.
  split.
  - destruct (createLeaveRequest_past_start exampleEnv (initialWorld [1])
                yesterdayRequest) as (_ & Hpast).
    apply Hpast; vm_compute; reflexivity.
  - do 2 eexists. split; [vm_compute; reflexivity |]. split; reflexivity.
Qed.

(** Behind UTC the guard refuses today: the date string is read as midnight
    UTC and compared with the local midnight, which comes later. *)
Lemma createLeaveRequest_start_today_behind_utc :
  forall (env : Env) (w : World) (d : LeaveRequestService.LeaveRequestData),
    EmployeeRepository.exists_ w (LeaveRequestService.employeeId d) = true ->
    utcOffset env < 0 ->
    LeaveRequestService.startDate d = localDay (utcOffset env) (now env) ->
    LeaveRequestService.startDate d <= LeaveRequestService.endDate d ->
    LeaveRequestService.createLeaveRequest env w d = Err PastDate.
Proof.
  intros env w d Hemp Hoff Htoday Hdates.
  unfold LeaveRequestService.createLeaveRequest.
  rewrite Hemp. simpl negb. simpl newDate. unfold JsDate.gt, JsDate.lt.
  assert (H1 : (LeaveRequestService.endDate d * MILLISECONDS_IN_DAY
                <? LeaveRequestService.startDate d * MILLISECONDS_IN_DAY)
               = false).
  { apply Z.ltb_ge. pose proof MILLISECONDS_IN_DAY_pos. nia. }
  assert (H2 : (LeaveRequestService.startDate d * MILLISECONDS_IN_DAY
                <? setHours0 (utcOffset env) (now env)) = true).
  { apply Z.ltb_lt. rewrite setHours0_localDay, Htoday. lia. }
  rewrite H1, H2. reflexivity.
Qed.

(** C9 (the code departs from it): on a server five hours behind UTC, at
    ten in the morning of 2024-01-10 local time, employee 1, who exists and
    has no request yet, asks for 2024-01-10 alone.  The start date is the
    current local day, yet the creation fails with "Cannot create leave
    request for past dates" and the store stays empty.  On a server in UTC,
    at the same instant, the same request is created. *)
Theorem C9_today_is_refused_behind_utc :
  EmployeeRepository.exists_ (initialWorld [1])
    (LeaveRequestService.employeeId todayRequest) = true
  /\ leaveRequests (initialWorld [1]) = []
  /\ LeaveRequestService.startDate todayRequest
     = localDay (utcOffset westEnv) (now westEnv)
  /\ LeaveRequestService.startDate todayRequest
     <= LeaveRequestService.endDate todayRequest
  /\ LeaveRequestService.createLeaveRequest westEnv (initialWorld [1])
       todayRequest = Err PastDate
  /\ message PastDate = Some "Cannot create leave request for past dates"
  /\ step DEFAULT_AUTO_APPROVE_DAYS_THRESHOLD (initialWorld [1])
       (CreateLeaveRequest westEnv todayRequest) = initialWorld [1]
  /\ (exists w' r,
        LeaveRequestService.createLeaveRequest
          (mkEnv (now westEnv) 0 (randomHex westEnv) (brokerUp westEnv))
          (initialWorld [1]) todayRequest = Ok (w', r)
        /\ LeaveRequestService.duplicate r = false
        /\ List.length (leaveRequests w') = 1%nat).
Proof.
  assert (Hrefused : LeaveRequestService.createLeaveRequest westEnv
                       (initialWorld [1]) todayRequest = Err PastDate).
  { apply createLeaveRequest_start_today_behind_utc;
      vm_compute; first [reflexivity | discriminate]. }
  split; [reflexivity |]. split; [reflexivity |].
  split; [vm_compute; reflexivity |].
  split; [vm_compute; discriminate |].
  split; [exact Hrefused |]. split; [reflexivity |].
  split; [vm_compute; reflexivity |].
  do 2 eexists. split; [vm_compute; reflexivity |]. split; reflexivity.
Qed.

(** ** The overlap invariant *)

Lemma reachable_run (threshold : Z) (ops : list Operation) :
  forall w, reachable threshold w -> reachable threshold (run threshold w ops).
Proof.
  unfold run. induction ops as [| op ops IH]; intros w Hw; simpl.
  - exact Hw.
  - apply IH. now apply reachable_step.
Qed.

(** The overlap check of a creation reads the active rows only: what it
    admits overlaps no APPROVED or PENDING_APPROVAL request of the
    employee. *)
Lemma created_overlaps_no_active_row (env : Env) (w : World)
  (d : LeaveRequestService.LeaveRequestData)
  (res : World * LeaveRequestService.CreateResponse) (r : LeaveRequest.t) :
  LeaveRequestService.createLeaveRequest env w d = Ok res ->
  In r (leaveRequests w) ->
  LeaveRequest.employeeId r = LeaveRequestService.employeeId d ->
  LeaveRequestRepository.isActive r = true ->
  LeaveRequestRepository.overlapMatch (LeaveRequestService.startDate d)
    (LeaveRequestService.endDate d) r = false.
Proof.
  intros Hok Hin Hemp Hact.
  destruct (createLeaveRequest_Ok_validated _ _ _ _ Hok) as (_ & _ & _ & Hover).
  destruct (LeaveRequestRepository.overlapMatch _ _ r) eqn:Hm; [| reflexivity].
  assert (Hr : In r (LeaveRequestRepository.findOverlapping w
                       (LeaveRequestService.employeeId d)
                       (LeaveRequestService.startDate d)
                       (LeaveRequestService.endDate d) None)).
  { unfold LeaveRequestRepository.findOverlapping. apply filter_In.
    split; [exact Hin |]. rewrite Hemp, Z.eqb_refl, Hact, Hm. reflexivity. }
  rewrite Hover in Hr. destruct Hr.
Qed.

Lemma approvedFirst_overlaps_approvedSecond (w : World) :
  leaveRequests w = [approvedFirst; approvedSecond] -> ~ noActiveOverlap w.
Proof.
  intros Hrows Hinv.
  apply (Hinv approvedFirst approvedSecond).
  - rewrite Hrows. now left.
  - rewrite Hrows. right. now left.
  - simpl. lia.
  - reflexivity.
  - reflexivity.
  - reflexivity.
  - unfold rangesOverlap. simpl. lia.
Qed.

(** C2 (the code departs from it): two requests of one employee for the
    same days can both be created, since a PENDING request is not seen by
    the overlap check, and both can then be approved, by status updates at
    any threshold or by the processor at the default one; the world reached
    holds two overlapping APPROVED requests. *)
Theorem C2_overlapping_active_requests_are_reachable :
  (forall threshold : Z,
     reachable threshold (run threshold (initialWorld [1]) approveBothByUpdate)
     /\ ~ noActiveOverlap (run threshold (initialWorld [1]) approveBothByUpdate))
  /\ reachable DEFAULT_AUTO_APPROVE_DAYS_THRESHOLD
       (run DEFAULT_AUTO_APPROVE_DAYS_THRESHOLD (initialWorld [1])
          approveBothByProcessor)
  /\ ~ noActiveOverlap
         (run DEFAULT_AUTO_APPROVE_DAYS_THRESHOLD (initialWorld [1])
            approveBothByProcessor).
Proof.
  split; [intros threshold; split | split].
  - apply reachable_run, reachable_init.
  - apply approvedFirst_overlaps_approvedSecond. vm_compute. reflexivity.
  - apply reachable_run, reachable_init.
  - apply approvedFirst_overlaps_approvedSecond. vm_compute. reflexivity.
Qed.

(** ** Statistics *)

Lemma fold_addRequest (requests : list LeaveRequest.t) :
  forall acc : LeaveRequestRepository.Stats,
    fold_left LeaveRequestRepository.addRequest requests acc
    = {| LeaveRequestRepository.total := LeaveRequestRepository.total acc;
         LeaveRequestRepository.approved :=
           LeaveRequestRepository.approved acc
           + countWhere (hasStatus APPROVED) requests;
         LeaveRequestRepository.pending :=
           LeaveRequestRepository.pending acc
           + (countWhere (hasStatus PENDING) requests
              + countWhere (hasStatus PENDING_APPROVAL) requests);
         LeaveRequestRepository.rejected :=
           LeaveRequestRepository.rejected acc
           + countWhere (hasStatus REJECTED) requests;
         LeaveRequestRepository.totalDays :=
           LeaveRequestRepository.totalDays acc
           + sumZ (map daySpan (filter (hasStatus APPROVED) requests)) |}.
Proof.
  unfold countWhere, hasStatus.
  induction requests as [| r requests IH]; intros acc.
  - destruct acc; simpl. f_equal; lia.
  - cbn [fold_left]. rewrite IH. unfold LeaveRequestRepository.addRequest.
    change (1000 * 60 * 60 * 24) with MILLISECONDS_IN_DAY.
    rewrite ceilDiv_days. unfold daySpan.
    cbn [filter].
    destruct (LeaveRequest.status r);
      cbn [Status_eqb map fold_right List.length
           LeaveRequestRepository.total LeaveRequestRepository.approved
           LeaveRequestRepository.pending LeaveRequestRepository.rejected
           LeaveRequestRepository.totalDays];
      f_equal; try lia.
    change (sumZ (?x :: ?l)) with (x + sumZ l). lia.
Qed.

(** The aggregation over the selected rows is the one the spec words: the
    count, the approved, the pending of both kinds, the rejected, and the
    day spans of the approved. *)
Lemma getEmployeeStats_aggregates (env : Env) (w : World)
  (employeeId year : Z) :
  LeaveRequestRepository.getEmployeeStats env w employeeId year
  = statsOf (LeaveRequestRepository.statsRequests env w employeeId year).
Proof.
  unfold LeaveRequestRepository.getEmployeeStats. rewrite fold_addRequest.
  reflexivity.
Qed.

(** December 31st starts one day before the next year does. *)
Lemma last_day_of_year (off year : Z) :
  100 <= year ->
  newDateLocal off year 11 31 + MILLISECONDS_IN_DAY
  = newDateLocal off (year + 1) 0 1.
Proof.
  intros Hy. unfold newDateLocal.
  replace (year <=? 99) with false by (symmetry; apply Z.leb_gt; lia).
  replace (year + 1 <=? 99) with false by (symmetry; apply Z.leb_gt; lia).
  rewrite !andb_false_r. unfold daysFromCivil.
  change (11 + 1) with 12. change (0 + 1) with 1.
  change (12 <=? 2) with false. change (1 <=? 2) with true. cbv iota.
  replace (year + 1 - 1) with year by lia.
  change ((153 * (12 - 3) + 2) / 5) with 275.
  change ((153 * (1 + 9) + 2) / 5) with 306.
  lia.
Qed.

(** The rows the statistics select were created within the year; those
    created after the first instant of December 31st are within the year
    and are not selected. *)
Lemma statsRequests_within_year (env : Env) (w : World)
  (employeeId year : Z) (r : LeaveRequest.t) :
  100 <= year ->
  (In r (LeaveRequestRepository.statsRequests env w employeeId year) ->
     In r (leaveRequests w) /\ createdInYear env employeeId year r = true)
  /\ (In r (leaveRequests w) ->
      LeaveRequest.employeeId r = employeeId ->
      newDateLocal (utcOffset env) year 11 31 < LeaveRequest.createdAt r
      < newDateLocal (utcOffset env) (year + 1) 0 1 ->
      createdInYear env employeeId year r = true
      /\ ~ In r (LeaveRequestRepository.statsRequests env w employeeId year)).
Proof.
  intros Hy. pose proof (last_day_of_year (utcOffset env) year Hy) as Hlast.
  pose proof MILLISECONDS_IN_DAY_pos as Hpos.
  unfold LeaveRequestRepository.statsRequests, createdInYear,
    LeaveRequestRepository.between.
  split.
  - intros Hin. apply filter_In in Hin. destruct Hin as [Hin Hsel].
    split; [exact Hin |].
    rewrite !andb_true_iff in *. rewrite Z.ltb_lt. rewrite !Z.leb_le in *.
    repeat split; try tauto. lia.
  - intros Hin Hemp Hcreated. split.
    + rewrite !andb_true_iff, Z.ltb_lt, Z.leb_le, Z.eqb_eq.
      assert (newDateLocal (utcOffset env) year 0 1
              <= newDateLocal (utcOffset env) year 11 31).
      { unfold newDateLocal.
        replace (year <=? 99) with false by (symmetry; apply Z.leb_gt; lia).
        rewrite andb_false_r. unfold daysFromCivil.
        change (11 + 1) with 12. change (0 + 1) with 1.
        change (12 <=? 2) with false. change (1 <=? 2) with true. cbv iota.
        change ((153 * (12 - 3) + 2) / 5) with 275.
        change ((153 * (1 + 9) + 2) / 5) with 306.
        apply Z.sub_le_mono_r, Z.mul_le_mono_nonneg_r; [lia |].
        Z.to_euclidean_division_equations. lia. }
      repeat split; lia.
    + intros Hsel. apply filter_In in Hsel. destruct Hsel as [_ Hsel].
      rewrite !andb_true_iff, !Z.leb_le in Hsel. lia.
Qed.

(** One approved three-day, one pending and one rejected request created in
    June: total 3, approved 1, pending 1, rejected 1, totalDays 3. *)
Lemma stats_of_mid_year_requests :
  LeaveRequestRepository.getEmployeeStats exampleEnv (worldWith midYearRows)
    1 2024
  = LeaveRequestRepository.mkStats 3 1 1 1 3.
Proof. vm_compute. reflexivity. Qed.

(** C7 (the code departs from it): the upper bound of the year is
    [new Date(year, 11, 31)], the midnight that starts December 31st, so a
    request created later on that day lies within the calendar year and is
    not counted. *)
Theorem C7_last_day_of_year_is_not_counted :
  createdInYear exampleEnv 1 2024 createdOnNewYearsEve = true
  /\ LeaveRequestRepository.statsRequests exampleEnv
       (worldWith [createdOnNewYearsEve]) 1 2024 = []
  /\ LeaveRequestRepository.getEmployeeStats exampleEnv
       (worldWith [createdOnNewYearsEve]) 1 2024
     = LeaveRequestRepository.mkStats 0 0 0 0 0.
Proof. repeat split; vm_compute; reflexivity. Qed.

(** * Further properties of the leave-request core *)

(** ** The store invariant *)

(** Deleting rows keeps a column free of duplicates. *)
Lemma rows_filter_keeps_NoDup (B : Type) (column : LeaveRequest.t -> B)
  (keep : LeaveRequest.t -> bool) :
  forall rows : list LeaveRequest.t,
    NoDup (map column rows) -> NoDup (map column (filter keep rows)).
Proof.
  intros rows. induction rows as [| r rows IH]; simpl; intros Hnd.
  - constructor.
  - inversion Hnd as [| x xs Hnotin Hnd']; subst.
    destruct (keep r); simpl; [| now apply IH].
    constructor; [| now apply IH].
    intros Hin. apply Hnotin. apply in_map_iff in Hin.
    destruct Hin as (x & Hx & Hin). apply filter_In in Hin.
    apply in_map_iff. exists x. tauto.
Qed.

Lemma storeInvariant_initial (emps : list Z) : storeInvariant (initialWorld emps).
Proof.
  constructor; simpl; first [lia | constructor | intros r []].
Qed.

(** The invariant reads the tables only, not the trace of publish calls. *)
Lemma storeInvariant_publish (env : Env) (w : World) (k : string) (m : Message) :
  storeInvariant w -> storeInvariant (fst (publishMessage env w k m)).
Proof.
  intros [H0 H1 H2 H3 H4 H5 H6 H7]. constructor; assumption.
Qed.

Lemma storeInvariant_updateStatus (env : Env) (w : World) (i : Z) (s : Status) :
  storeInvariant w ->
  storeInvariant (LeaveRequestRepository.updateStatus env w i s).
Proof.
  intros [H0 H1 H2 H3 H4 H5 H6 H7].
  set (f := fun r : LeaveRequest.t =>
              if LeaveRequest.id r =? i
              then LeaveRequest.withStatus s (now env) r else r).
  assert (Hid : forall r, LeaveRequest.id (f r) = LeaveRequest.id r).
  { intros r. unfold f. now destruct (LeaveRequest.id r =? i). }
  assert (Hkey : forall r, LeaveRequest.idempotencyKey (f r)
                           = LeaveRequest.idempotencyKey r).
  { intros r. unfold f. now destruct (LeaveRequest.id r =? i). }
  assert (Hin : forall r', In r' (map f (leaveRequests w)) ->
                           exists r, In r (leaveRequests w) /\ r' = f r).
  { intros r' Hr'. apply in_map_iff in Hr'. destruct Hr' as (r & <- & Hr).
    now exists r. }
  unfold LeaveRequestRepository.updateStatus. fold f.
  constructor; simpl.
  - assumption.
  - rewrite map_map. now rewrite (map_ext _ _ Hid).
  - intros r' Hr'. destruct (Hin r' Hr') as (r & Hr & ->). rewrite Hid. auto.
  - rewrite map_map. now rewrite (map_ext _ _ Hkey).
  - intros r' Hr'. destruct (Hin r' Hr') as (r & Hr & ->). rewrite Hkey. auto.
  - intros r' Hr'. destruct (Hin r' Hr') as (r & Hr & ->). unfold f.
    destruct (LeaveRequest.id r =? i); simpl; auto.
  - intros r' Hr'. destruct (Hin r' Hr') as (r & Hr & ->). unfold f.
    destruct (LeaveRequest.id r =? i); simpl; now apply H6.
  - intros r' Hr'. destruct (Hin r' Hr') as (r & Hr & ->). unfold f.
    destruct (LeaveRequest.id r =? i); simpl; [discriminate | auto].
Qed.

Lemma storeInvariant_delete (w : World) (i : Z) :
  storeInvariant w -> storeInvariant (LeaveRequestRepository.delete w i).
Proof.
  intros [H0 H1 H2 H3 H4 H5 H6 H7].
  unfold LeaveRequestRepository.delete.
  constructor; cbn [leaveRequests nextId setLeaveRequests].
  - assumption.
  - now apply rows_filter_keeps_NoDup.
  - intros r Hr. apply filter_In in Hr. now apply H2.
  - now apply rows_filter_keeps_NoDup.
  - intros r Hr. apply filter_In in Hr. now apply H4.
  - intros r Hr. apply filter_In in Hr. now apply H5.
  - intros r Hr. apply filter_In in Hr. now apply H6.
  - intros r Hr. apply filter_In in Hr. now apply H7.
Qed.

Lemma findByIdempotencyKey_None (w : World) (k : string) :
  LeaveRequestRepository.findByIdempotencyKey w k = None ->
  ~ In (Some k) (map LeaveRequest.idempotencyKey (leaveRequests w)).
Proof.
  unfold LeaveRequestRepository.findByIdempotencyKey. intros Hnone Hin.
  apply in_map_iff in Hin. destruct Hin as (r & Hk & Hr).
  pose proof (find_none _ _ Hnone r Hr) as Hno.
  unfold LeaveRequestRepository.hasKey in Hno. rewrite Hk in Hno.
  now rewrite String.eqb_refl in Hno.
Qed.

Lemma NoDup_snoc {A : Type} (l : list A) (a : A) :
  NoDup l -> ~ In a l -> NoDup (l ++ [a]).
Proof.
  intros Hnd Hnotin. apply NoDup_app; [assumption | | ].
  - constructor; [intros [] | constructor].
  - intros x Hx [<- | []]. contradiction.
Qed.

Lemma storeInvariant_created (env : Env) (w : World)
  (d : LeaveRequestService.LeaveRequestData) :
  storeInvariant w ->
  passesValidation env w d ->
  LeaveRequestRepository.findByIdempotencyKey w
    (LeaveRequestService.keyOrRandom env (LeaveRequestService.idempotencyKey d))
  = None ->
  storeInvariant (createdWorld env w d).
Proof.
  intros [H0 H1 H2 H3 H4 H5 H6 H7] (Hemp & Hdates & _ & _) Hkey.
  constructor; simpl leaveRequests; simpl nextId.
  - lia.
  - rewrite map_app. simpl. apply NoDup_snoc; [assumption |].
    intros Hin. apply in_map_iff in Hin. destruct Hin as (r & Hid & Hr).
    specialize (H2 r Hr). lia.
  - intros r Hr. apply in_app_iff in Hr. destruct Hr as [Hr | [<- | []]].
    + specialize (H2 r Hr). lia.
    + simpl. lia.
  - rewrite map_app. simpl. apply NoDup_snoc; [assumption |].
    now apply findByIdempotencyKey_None.
  - intros r Hr. apply in_app_iff in Hr. destruct Hr as [Hr | [<- | []]];
      [auto | discriminate].
  - intros r Hr. apply in_app_iff in Hr. destruct Hr as [Hr | [<- | []]];
      [auto | exact Hdates].
  - intros r Hr. apply in_app_iff in Hr. destruct Hr as [Hr | [<- | []]];
      [now apply H6 | exact Hemp].
  - intros r Hr. apply in_app_iff in Hr. destruct Hr as [Hr | [<- | []]];
      [auto | reflexivity].
Qed.

(** The two ways a creation returns. *)
Lemma createLeaveRequest_cases (env : Env) (w : World)
  (d : LeaveRequestService.LeaveRequestData)
  (res : World * LeaveRequestService.CreateResponse) :
  LeaveRequestService.createLeaveRequest env w d = Ok res ->
  passesValidation env w d
  /\ ((exists existing,
         LeaveRequestRepository.findByIdempotencyKey w
           (LeaveRequestService.keyOrRandom env
              (LeaveRequestService.idempotencyKey d)) = Some existing
         /\ res = (w, LeaveRequestService.mkCreateResponse (Some existing) true))
      \/ (LeaveRequestRepository.findByIdempotencyKey w
            (LeaveRequestService.keyOrRandom env
               (LeaveRequestService.idempotencyKey d)) = None
          /\ res = (createdWorld env w d,
                    LeaveRequestService.mkCreateResponse
                      (LeaveRequestRepository.findById (createdWorld env w d)
                         (nextId w))
                      false))).
Proof.
  intros Hok.
  pose proof (createLeaveRequest_Ok_validated _ _ _ _ Hok) as Hval.
  split; [exact Hval |].
  rewrite (createLeaveRequest_validated env w d Hval) in Hok.
  destruct (LeaveRequestRepository.findByIdempotencyKey w _) as [existing |].
  - left. exists existing. split; [reflexivity | congruence].
  - right. split; [reflexivity | congruence].
Qed.

(** What a consumed message does: nothing, or the status update of one
    PENDING record, followed by one leave.approved publish call when the
    record is approved. *)
Lemma handleQueueMessage_cases (threshold : Z) (env : Env) (w : World)
  (msg : LeaveRequestProcessor.QueueMessage) :
  LeaveRequestProcessor.handleQueueMessage threshold env w msg = w
  \/ exists lr,
       LeaveRequestProcessor.payloadId msg = Some (LeaveRequest.id lr)
       /\ LeaveRequestRepository.findById w (LeaveRequest.id lr) = Some lr
       /\ LeaveRequest.status lr = PENDING
       /\ ((Z.max 1 (LeaveRequest.endDate lr - LeaveRequest.startDate lr + 1)
            <= threshold
            /\ LeaveRequestProcessor.handleQueueMessage threshold env w msg
               = fst (publishMessage env
                        (LeaveRequestRepository.updateStatus env w
                           (LeaveRequest.id lr) APPROVED)
                        LEAVE_APPROVED
                        (LeaveApprovedMessage (LeaveRequest.id lr)
                           (LeaveRequest.employeeId lr)
                           (LeaveRequest.startDate lr)
                           (LeaveRequest.endDate lr) (now env))))
           \/ (threshold
               < Z.max 1 (LeaveRequest.endDate lr - LeaveRequest.startDate lr + 1)
               /\ LeaveRequestProcessor.handleQueueMessage threshold env w msg
                  = LeaveRequestRepository.updateStatus env w
                      (LeaveRequest.id lr) PENDING_APPROVAL)).
Proof.
  unfold LeaveRequestProcessor.handleQueueMessage.
  destruct (LeaveRequestProcessor.fieldsRoutingKey msg) as [key |];
    [| now left].
  destruct (negb (key =? LEAVE_REQUESTED)%string); [now left |].
  destruct (LeaveRequestProcessor.payloadId msg) as [i |]; [| now left].
  destruct (i =? 0); [now left |].
  destruct (LeaveRequestRepository.findById w i) as [lr |] eqn:Hfetch;
    [| now left].
  pose proof (findById_id _ _ _ Hfetch) as Hi. subst i.
  destruct (Status_eqb (LeaveRequest.status lr) PENDING) eqn:Hst.
  - apply Status_eqb_eq in Hst. right. exists lr.
    repeat (split; [assumption || reflexivity |]).
    rewrite (autoProcess_pending threshold env w lr Hst).
    destruct (Z.max 1 _ <=? threshold) eqn:Hcmp.
    + left. apply Z.leb_le in Hcmp. now split.
    + right. apply Z.leb_gt in Hcmp. now split.
  - apply Status_eqb_neq in Hst. left.
    now apply autoProcess_not_pending.
Qed.

Lemma step_storeInvariant (threshold : Z) (w : World) (op : Operation) :
  storeInvariant w -> storeInvariant (step threshold w op).
Proof.
  intros Hinv. destruct op as [env d | env i s | i e | env msg]; simpl.
  - destruct (LeaveRequestService.createLeaveRequest env w d) as [res |] eqn:Hc;
      [| assumption].
    destruct (createLeaveRequest_cases _ _ _ _ Hc)
      as (Hval & [(existing & _ & ->) | (Hnone & ->)]); simpl.
    + assumption.
    + now apply storeInvariant_created.
  - unfold LeaveRequestService.updateLeaveRequestStatus.
    destruct (LeaveRequestRepository.exists_ w i); simpl; [| assumption].
    destruct (statusOfString s); simpl; [| assumption].
    now apply storeInvariant_updateStatus.
  - unfold LeaveRequestService.cancelLeaveRequest.
    destruct (LeaveRequestRepository.findById w i) as [lr |]; [| assumption].
    destruct (negb (LeaveRequest.employeeId lr =? e)); simpl; [assumption |].
    destruct (Status_eqb (LeaveRequest.status lr) REJECTED); simpl;
      [assumption |].
    now apply storeInvariant_delete.
  - destruct (handleQueueMessage_cases threshold env w msg)
      as [-> | (lr & _ & _ & _ & [[_ ->] | [_ ->]])].
    + assumption.
    + now apply storeInvariant_publish, storeInvariant_updateStatus.
    + now apply storeInvariant_updateStatus.
Qed.

Lemma reachable_storeInvariant (threshold : Z) (w : World) :
  reachable threshold w -> storeInvariant w.
Proof.
  induction 1 as [emps | w op _ IH].
  - apply storeInvariant_initial.
  - now apply step_storeInvariant.
Qed.

(** In a store with distinct ids, a lookup by the id of a row finds that
    row. *)
Lemma findById_of_row (w : World) (r : LeaveRequest.t) :
  NoDup (map LeaveRequest.id (leaveRequests w)) ->
  In r (leaveRequests w) ->
  LeaveRequestRepository.findById w (LeaveRequest.id r) = Some r.
Proof.
  unfold LeaveRequestRepository.findById.
  induction (leaveRequests w) as [| a rows IH]; simpl; intros Hnd Hin;
    [destruct Hin |].
  inversion Hnd as [| x xs Hnotin Hnd']; subst.
  destruct Hin as [-> | Hin].
  - now rewrite Z.eqb_refl.
  - destruct (LeaveRequest.id a =? LeaveRequest.id r) eqn:Heq.
    + apply Z.eqb_eq in Heq. exfalso. apply Hnotin. rewrite Heq.
      now apply in_map.
    + now apply IH.
Qed.

Lemma findByIdempotencyKey_of_row (w : World) (r : LeaveRequest.t) (k : string) :
  NoDup (map LeaveRequest.idempotencyKey (leaveRequests w)) ->
  In r (leaveRequests w) ->
  LeaveRequest.idempotencyKey r = Some k ->
  LeaveRequestRepository.findByIdempotencyKey w k = Some r.
Proof.
  unfold LeaveRequestRepository.findByIdempotencyKey.
  induction (leaveRequests w) as [| a rows IH]; simpl; intros Hnd Hin Hk;
    [destruct Hin |].
  inversion Hnd as [| x xs Hnotin Hnd']; subst.
  destruct Hin as [-> | Hin].
  - unfold LeaveRequestRepository.hasKey at 1. now rewrite Hk, String.eqb_refl.
  - destruct (LeaveRequestRepository.hasKey k a) eqn:Heq.
    + exfalso. apply Hnotin. unfold LeaveRequestRepository.hasKey in Heq.
      destruct (LeaveRequest.idempotencyKey a) as [ka |] eqn:Hka;
        [| discriminate].
      apply String.eqb_eq in Heq. subst ka. rewrite <- Hk.
      now apply in_map.
    + now apply IH.
Qed.

Lemma oneRequestWorld_reachable :
  reachable DEFAULT_AUTO_APPROVE_DAYS_THRESHOLD oneRequestWorld.
Proof. apply reachable_run, reachable_init. Qed.

Lemma theRequest_stored : In theRequest (leaveRequests oneRequestWorld).
Proof. left. reflexivity. Qed.

(** X2: in every reachable world each stored request carries an idempotency
    key, and a lookup by that key returns the request itself: no two stored
    requests share a key. *)
Theorem reachable_keys_identify_rows :
  forall (threshold : Z) (w : World) (r : LeaveRequest.t),
    reachable threshold w ->
    In r (leaveRequests w) ->
    exists k : string,
      LeaveRequest.idempotencyKey r = Some k
      /\ LeaveRequestRepository.findByIdempotencyKey w k = Some r.
Proof.
  intros threshold w r Hreach Hin.
  destruct (reachable_storeInvariant threshold w Hreach)
    as [_ _ _ Hnd Hsome _ _ _].
  destruct (LeaveRequest.idempotencyKey r) as [k |] eqn:Hk.
  - exists k. split; [reflexivity |].
    now apply findByIdempotencyKey_of_row.
  - now apply Hsome in Hin.
Qed.

Lemma reachable_keys_identify_rows_example :
  exists k : string,
    LeaveRequest.idempotencyKey theRequest = Some k
    /\ LeaveRequestRepository.findByIdempotencyKey oneRequestWorld k
       = Some theRequest.
Proof.
  exact (reachable_keys_identify_rows _ _ _ oneRequestWorld_reachable
           theRequest_stored).
Defined.

(** X3: in every reachable world a stored request starts no later than it
    ends, so the processor's duration of it is its inclusive day count,
    endDate - startDate + 1: the records with reversed dates are not
    produced by the public operations. *)
Theorem reachable_ranges_are_well_formed :
  forall (threshold : Z) (w : World) (r : LeaveRequest.t),
    reachable threshold w ->
    In r (leaveRequests w) ->
    LeaveRequest.startDate r <= LeaveRequest.endDate r
    /\ LeaveRequestProcessor.calculateLeaveDuration
         (DateOnly (LeaveRequest.startDate r))
         (DateOnly (LeaveRequest.endDate r))
       = Some (LeaveRequest.endDate r - LeaveRequest.startDate r + 1).
Proof.
  intros threshold w r Hreach Hin.
  destruct (reachable_storeInvariant threshold w Hreach)
    as [_ _ _ _ _ Hdates _ _].
  specialize (Hdates r Hin). split; [exact Hdates |].
  rewrite calculateLeaveDuration_days. f_equal. lia.
Qed.

Lemma reachable_ranges_are_well_formed_example :
  LeaveRequest.startDate theRequest <= LeaveRequest.endDate theRequest
  /\ LeaveRequestProcessor.calculateLeaveDuration
       (DateOnly (LeaveRequest.startDate theRequest))
       (DateOnly (LeaveRequest.endDate theRequest))
     = Some (LeaveRequest.endDate theRequest
             - LeaveRequest.startDate theRequest + 1).
Proof.
  exact (reachable_ranges_are_well_formed _ _ _ oneRequestWorld_reachable
           theRequest_stored).
Defined.

(** X4: in every reachable world a stored request whose processedAt is
    null is PENDING: every way out of the initial status goes through a
    status update, which stamps processedAt. *)
Theorem reachable_unprocessed_rows_are_pending :
  forall (threshold : Z) (w : World) (r : LeaveRequest.t),
    reachable threshold w ->
    In r (leaveRequests w) ->
    LeaveRequest.processedAt r = None ->
    LeaveRequest.status r = PENDING.
Proof.
  intros threshold w r Hreach Hin.
  destruct (reachable_storeInvariant threshold w Hreach)
    as [_ _ _ _ _ _ _ Hproc].
  now apply Hproc.
Qed.

Lemma reachable_unprocessed_rows_are_pending_example :
  LeaveRequest.status theRequest = PENDING.
Proof.
  exact (reachable_unprocessed_rows_are_pending _ _ _
           oneRequestWorld_reachable theRequest_stored eq_refl).
Defined.

(** ** What the processor never does *)

Lemma Forall2_map_r {A B : Type} (R : A -> B -> Prop) (f : A -> B) (l : list A) :
  (forall a, In a l -> R a (f a)) -> Forall2 R l (map f l).
Proof.
  induction l as [| a l IH]; simpl; intros H; constructor.
  - apply H. now left.
  - apply IH. intros x Hx. apply H. now right.
Qed.

(** X5: consuming a message in a reachable world never adds or removes a
    row, an employee or an id.  Either the world is left as it is, or the
    message names a stored PENDING record; then that record changes and no
    other row does: it reads APPROVED when its days are at most the
    threshold and PENDING_APPROVAL when they are more, stamped with the
    clock and otherwise as before; and the trace gains one leave.approved
    call, naming the record, in the first case and nothing in the second. *)
Theorem handleQueueMessage_only_moves_pending :
  forall (threshold : Z) (env : Env) (w : World)
         (msg : LeaveRequestProcessor.QueueMessage),
    reachable threshold w ->
    let w' := LeaveRequestProcessor.handleQueueMessage threshold env w msg in
    employees w' = employees w
    /\ nextId w' = nextId w
    /\ (w' = w
        \/ exists lr s,
             LeaveRequestProcessor.payloadId msg = Some (LeaveRequest.id lr)
             /\ In lr (leaveRequests w)
             /\ LeaveRequest.status lr = PENDING
             /\ ((s = APPROVED /\ daySpan lr <= threshold)
                 \/ (s = PENDING_APPROVAL /\ threshold < daySpan lr))
             /\ Forall2 (fun r r' => (r = lr /\ processedTo env s r r')
                                     \/ (r <> lr /\ r' = r))
                  (leaveRequests w) (leaveRequests w')
             /\ published w'
                = (published w
                   ++ (if Status_eqb s APPROVED
                       then [mkPublication LEAVE_APPROVED
                               (LeaveApprovedMessage (LeaveRequest.id lr)
                                  (LeaveRequest.employeeId lr)
                                  (LeaveRequest.startDate lr)
                                  (LeaveRequest.endDate lr) (now env))
                               (brokerUp env)]
                       else []))%list).
Proof.
  intros threshold env w msg Hreach w'. subst w'.
  pose proof (reachable_storeInvariant threshold w Hreach) as Hinv.
  assert (Hupd : forall lr s,
             LeaveRequestRepository.findById w (LeaveRequest.id lr) = Some lr ->
             Forall2 (fun r r' => (r = lr /\ processedTo env s r r')
                                  \/ (r <> lr /\ r' = r))
               (leaveRequests w)
               (leaveRequests
                  (LeaveRequestRepository.updateStatus env w
                     (LeaveRequest.id lr) s))).
  { intros lr s Hfetch. unfold LeaveRequestRepository.updateStatus.
    cbn [leaveRequests setLeaveRequests]. apply Forall2_map_r.
    intros a Ha. destruct (LeaveRequest.id a =? LeaveRequest.id lr) eqn:Heq.
    - apply Z.eqb_eq in Heq.
      pose proof (findById_of_row w a (inv_ids_nodup w Hinv) Ha) as Hfa.
      rewrite Heq, Hfetch in Hfa. injection Hfa as <-.
      left. split; [reflexivity |]. repeat split.
    - right. split; [| reflexivity]. intros ->.
      rewrite Z.eqb_refl in Heq. discriminate. }
  destruct (handleQueueMessage_cases threshold env w msg)
    as [-> | (lr & Hid & Hfetch & Hst & [[Hle ->] | [Hgt ->]])].
  - repeat split. now left.
  - pose proof (inv_dates w Hinv lr (findById_In _ _ _ Hfetch)) as Hdates.
    split; [reflexivity |]. split; [reflexivity |].
    right. exists lr, APPROVED.
    split; [exact Hid |]. split; [exact (findById_In _ _ _ Hfetch) |].
    split; [exact Hst |].
    split; [left; split; [reflexivity | unfold daySpan; lia] |].
    split; [exact (Hupd lr APPROVED Hfetch) | reflexivity].
  - pose proof (inv_dates w Hinv lr (findById_In _ _ _ Hfetch)) as Hdates.
    split; [reflexivity |]. split; [reflexivity |].
    right. exists lr, PENDING_APPROVAL.
    split; [exact Hid |]. split; [exact (findById_In _ _ _ Hfetch) |].
    split; [exact Hst |].
    split; [right; split; [reflexivity | unfold daySpan; lia] |].
    split; [exact (Hupd lr PENDING_APPROVAL Hfetch) |].
    cbn [Status_eqb]. now rewrite app_nil_r.
Qed.

(** The event of the two-day request 1, PENDING in [oneRequestWorld], is
    consumed at the default threshold: the one row reads APPROVED and a
    leave.approved call naming request 1 ends the trace. *)
Lemma handleQueueMessage_only_moves_pending_example :
  let w' := LeaveRequestProcessor.handleQueueMessage
              DEFAULT_AUTO_APPROVE_DAYS_THRESHOLD exampleEnv' oneRequestWorld
              (requestedEvent 1) in
  exists lr s,
    LeaveRequestProcessor.payloadId (requestedEvent 1)
    = Some (LeaveRequest.id lr)
    /\ In lr (leaveRequests oneRequestWorld)
    /\ LeaveRequest.status lr = PENDING
    /\ ((s = APPROVED /\ daySpan lr <= DEFAULT_AUTO_APPROVE_DAYS_THRESHOLD)
        \/ (s = PENDING_APPROVAL
            /\ DEFAULT_AUTO_APPROVE_DAYS_THRESHOLD < daySpan lr))
    /\ Forall2 (fun r r' => (r = lr /\ processedTo exampleEnv' s r r')
                            \/ (r <> lr /\ r' = r))
         (leaveRequests oneRequestWorld) (leaveRequests w')
    /\ published w'
       = (published oneRequestWorld
          ++ (if Status_eqb s APPROVED
              then [mkPublication LEAVE_APPROVED
                      (LeaveApprovedMessage (LeaveRequest.id lr)
                         (LeaveRequest.employeeId lr)
                         (LeaveRequest.startDate lr)
                         (LeaveRequest.endDate lr) (now exampleEnv'))
                      (brokerUp exampleEnv')]
              else []))%list.
Proof.
  destruct (handleQueueMessage_only_moves_pending
              DEFAULT_AUTO_APPROVE_DAYS_THRESHOLD exampleEnv' oneRequestWorld
              (requestedEvent 1) oneRequestWorld_reachable)
    as (_ & _ & [Hsame | Hmoved]).
  - vm_compute in Hsame. discriminate Hsame.
  - exact Hmoved.
Defined.

(** ** Creation and the broker *)

Lemma passesValidation_withBroker (env : Env) (up : bool) (w : World)
  (d : LeaveRequestService.LeaveRequestData) :
  passesValidation (withBroker env up) w d <-> passesValidation env w d.
Proof. reflexivity. Qed.

(** X6: whether the broker can be reached changes nothing of a creation but
    the delivered flag of its publish call: the same requests fail, with
    the same error, and the same requests succeed, with the same response,
    the same rows and the same id counter. *)
Theorem createLeaveRequest_does_not_depend_on_broker :
  forall (env : Env) (up : bool) (w : World)
         (d : LeaveRequestService.LeaveRequestData),
    match LeaveRequestService.createLeaveRequest env w d,
          LeaveRequestService.createLeaveRequest (withBroker env up) w d with
    | Ok (w1, r1), Ok (w2, r2) =>
        r1 = r2
        /\ leaveRequests w1 = leaveRequests w2
        /\ nextId w1 = nextId w2
        /\ employees w1 = employees w2
        /\ map payload (published w1) = map payload (published w2)
        /\ map routingKey (published w1) = map routingKey (published w2)
    | Err e1, Err e2 => e1 = e2
    | _, _ => False
    end.
Proof.
  intros env up w d.
  destruct (LeaveRequestService.createLeaveRequest env w d) as [[w1 r1] | e1]
    eqn:H1.
  - destruct (createLeaveRequest_cases _ _ _ _ H1) as (Hval & Hcases).
    rewrite (createLeaveRequest_validated (withBroker env up) w d
               (proj2 (passesValidation_withBroker env up w d) Hval)).
    change (LeaveRequestService.keyOrRandom (withBroker env up))
      with (LeaveRequestService.keyOrRandom env).
    destruct Hcases as [(existing & Hk & Heq) | (Hk & Heq)];
      rewrite Hk; injection Heq as -> ->.
    + repeat split.
    + repeat split; cbn [published createdWorld]; now rewrite !map_app.
  - destruct (LeaveRequestService.createLeaveRequest (withBroker env up) w d)
      as [[w2 r2] | e2] eqn:H2.
    + pose proof (createLeaveRequest_Ok_validated _ _ _ _ H2) as Hval.
      change (passesValidation env w d) in Hval.
      rewrite (createLeaveRequest_validated env w d Hval) in H1.
      destruct (LeaveRequestRepository.findByIdempotencyKey w _); discriminate.
    + revert H1 H2. unfold LeaveRequestService.createLeaveRequest.
      change (utcOffset (withBroker env up)) with (utcOffset env).
      change (now (withBroker env up)) with (now env).
      change (LeaveRequestService.keyOrRandom (withBroker env up))
        with (LeaveRequestService.keyOrRandom env).
      unfold bind, throwIf.
      repeat match goal with
             | |- context [if ?c then _ else _] => destruct c
             end; try congruence.
      destruct (LeaveRequestRepository.findByIdempotencyKey w _);
        [discriminate |].
      unfold LeaveRequestRepository.create, bind, throwIf.
      cbn [LeaveRequestRepository.endDate LeaveRequestRepository.startDate
           LeaveRequestRepository.idempotencyKey
           LeaveRequestRepository.employeeId].
      repeat match goal with
             | |- context [if ?c then _ else _] => destruct c
             end; congruence.
Qed.

(** ** Keys and records *)

(** X7: a creation that passes the guards under a non-empty key some stored
    record already carries creates nothing and publishes nothing: it
    answers with that stored record, flagged duplicate, whoever the
    employee and whatever the dates of the new request. *)
Theorem createLeaveRequest_returns_the_record_of_the_key :
  forall (env : Env) (w : World) (d : LeaveRequestService.LeaveRequestData)
         (k : string) (existing : LeaveRequest.t),
    passesValidation env w d ->
    LeaveRequestService.idempotencyKey d = Some k ->
    k <> EmptyString ->
    LeaveRequestRepository.findByIdempotencyKey w k = Some existing ->
    LeaveRequestService.createLeaveRequest env w d
    = Ok (w, LeaveRequestService.mkCreateResponse (Some existing) true).
Proof.
  intros env w d k existing Hval Hk Hne Hfound.
  rewrite (createLeaveRequest_validated env w d Hval), Hk. simpl.
  destruct (String.eqb_spec k EmptyString); [contradiction |].
  now rewrite Hfound.
Qed.

(** Employee 2, asking for other days under employee 1's key, is answered
    with employee 1's record. *)
Lemma borrowed_key_returns_the_other_record :
  LeaveRequestService.createLeaveRequest exampleEnv' twoEmployeesWorld
    borrowedKeyRequest
  = Ok (twoEmployeesWorld,
        LeaveRequestService.mkCreateResponse (Some theRequest) true).
Proof.
  apply (createLeaveRequest_returns_the_record_of_the_key exampleEnv'
           twoEmployeesWorld borrowedKeyRequest "retry-7" theRequest).
  - repeat split.
    + simpl. lia.
    + vm_compute. discriminate.
  - reflexivity.
  - discriminate.
  - reflexivity.
Defined.

(** X8: cancelling frees the key.  In a reachable world, after the record
    that carries the key k was cancelled, no lookup finds the record, by id
    or by key; so a later creation under k that returns does not answer
    with a duplicate: it has added one PENDING row, carrying k, for the
    employee and the days of the request. *)
Theorem cancel_then_create_under_the_same_key :
  forall (threshold : Z) (w w' : World) (i e : Z)
         (r : LeaveRequest.t) (k : string),
    reachable threshold w ->
    LeaveRequestRepository.findById w i = Some r ->
    LeaveRequest.idempotencyKey r = Some k ->
    k <> EmptyString ->
    LeaveRequestService.cancelLeaveRequest w i e = Ok w' ->
    LeaveRequestRepository.findById w' i = None
    /\ LeaveRequestRepository.findByIdempotencyKey w' k = None
    /\ (forall (env : Env) (d : LeaveRequestService.LeaveRequestData)
               (w'' : World) (resp : LeaveRequestService.CreateResponse),
          LeaveRequestService.idempotencyKey d = Some k ->
          LeaveRequestService.createLeaveRequest env w' d = Ok (w'', resp) ->
          LeaveRequestService.duplicate resp = false
          /\ exists row,
               leaveRequests w'' = (leaveRequests w' ++ [row])%list
               /\ LeaveRequest.idempotencyKey row = Some k
               /\ LeaveRequest.status row = PENDING
               /\ LeaveRequest.employeeId row
                  = LeaveRequestService.employeeId d
               /\ LeaveRequest.startDate row = LeaveRequestService.startDate d
               /\ LeaveRequest.endDate row = LeaveRequestService.endDate d).
Proof.
  intros threshold w w' i e r k Hreach Hfetch Hk Hne Hcancel.
  pose proof (reachable_storeInvariant threshold w Hreach) as Hinv.
  assert (Hw' : w' = LeaveRequestRepository.delete w i).
  { revert Hcancel. unfold LeaveRequestService.cancelLeaveRequest.
    rewrite Hfetch. unfold bind, throwIf.
    repeat match goal with
           | |- context [if ?c then _ else _] => destruct c
           end; congruence. }
  subst w'.
  assert (Hfree : LeaveRequestRepository.findByIdempotencyKey
                    (LeaveRequestRepository.delete w i) k = None).
  { destruct (LeaveRequestRepository.findByIdempotencyKey
                (LeaveRequestRepository.delete w i) k) as [r' |] eqn:Hr';
      [| reflexivity].
    exfalso. unfold LeaveRequestRepository.findByIdempotencyKey in Hr'.
    apply find_some in Hr'. destruct Hr' as [Hin' Hkey'].
    cbn [leaveRequests LeaveRequestRepository.delete setLeaveRequests] in Hin'.
    apply filter_In in Hin'. destruct Hin' as [Hin' Hid'].
    unfold LeaveRequestRepository.hasKey in Hkey'.
    destruct (LeaveRequest.idempotencyKey r') as [k' |] eqn:Hk';
      [| discriminate].
    apply String.eqb_eq in Hkey'. subst k'.
    pose proof (findByIdempotencyKey_of_row w r' k (inv_keys_nodup w Hinv)
                  Hin' Hk') as H1.
    pose proof (findByIdempotencyKey_of_row w r k (inv_keys_nodup w Hinv)
                  (findById_In _ _ _ Hfetch) Hk) as H2.
    rewrite H1 in H2. injection H2 as ->.
    rewrite (findById_id _ _ _ Hfetch), Z.eqb_refl in Hid'. discriminate. }
  split; [apply findById_delete |]. split; [exact Hfree |].
  intros env d w'' resp Hdk Hok.
  assert (Hkey : LeaveRequestService.keyOrRandom env
                   (LeaveRequestService.idempotencyKey d) = k).
  { rewrite Hdk. simpl. now destruct (String.eqb_spec k EmptyString). }
  destruct (createLeaveRequest_cases _ _ _ _ Hok)
    as (_ & [(existing & Hex & _) | (_ & Heq)]).
  - rewrite Hkey, Hfree in Hex. discriminate.
  - injection Heq as -> ->. split; [reflexivity |].
    exists (createdRow env (LeaveRequestRepository.delete w i) d).
    split; [reflexivity |].
    split; [cbn [LeaveRequest.idempotencyKey createdRow]; now rewrite Hkey |].
    repeat split.
Qed.

(** Employee 1 cancels request 1 and asks again under the same key: the
    answer is not a duplicate, a row was added. *)
Lemma cancel_then_create_under_the_same_key_example :
  LeaveRequestRepository.findById
    (LeaveRequestRepository.delete oneRequestWorld 1) 1 = None
  /\ LeaveRequestRepository.findByIdempotencyKey
       (LeaveRequestRepository.delete oneRequestWorld 1) "retry-7" = None
  /\ exists w'' resp row,
       LeaveRequestService.createLeaveRequest exampleEnv'
         (LeaveRequestRepository.delete oneRequestWorld 1) keyedRequest
       = Ok (w'', resp)
       /\ LeaveRequestService.duplicate resp = false
       /\ leaveRequests w''
          = (leaveRequests (LeaveRequestRepository.delete oneRequestWorld 1)
             ++ [row])%list
       /\ LeaveRequest.idempotencyKey row = Some "retry-7"
       /\ LeaveRequest.status row = PENDING
       /\ LeaveRequest.employeeId row = 1
       /\ LeaveRequest.startDate row = 19740
       /\ LeaveRequest.endDate row = 19741.
Proof.
  destruct (cancel_then_create_under_the_same_key
              DEFAULT_AUTO_APPROVE_DAYS_THRESHOLD oneRequestWorld
              (LeaveRequestRepository.delete oneRequestWorld 1) 1 1 theRequest
              "retry-7" oneRequestWorld_reachable eq_refl eq_refl
              ltac:(discriminate) eq_refl)
    as (Hgone & Hfree & Hnew).
  split; [exact Hgone |]. split; [exact Hfree |].
  destruct (Hnew exampleEnv' keyedRequest
              (createdWorld exampleEnv'
                 (LeaveRequestRepository.delete oneRequestWorld 1) keyedRequest)
              (LeaveRequestService.mkCreateResponse
                 (Some (createdRow exampleEnv'
                          (LeaveRequestRepository.delete oneRequestWorld 1)
                          keyedRequest))
                 false)
              eq_refl eq_refl) as (Hdup & row & Hrow).
  exists (createdWorld exampleEnv'
            (LeaveRequestRepository.delete oneRequestWorld 1) keyedRequest).
  eexists. exists row. split; [reflexivity |]. split; [exact Hdup | exact Hrow].
Defined.

(** ** Status updates *)

Lemma exists_findById (w : World) (i : Z) :
  LeaveRequestRepository.exists_ w i = true
  <-> LeaveRequestRepository.findById w i <> None.
Proof.
  unfold LeaveRequestRepository.exists_, LeaveRequestRepository.findById.
  induction (leaveRequests w) as [| a rows IH]; simpl.
  - split; [discriminate | congruence].
  - destruct (LeaveRequest.id a =? i); simpl.
    + split; [discriminate | intros _; apply Z.ltb_lt; lia].
    + exact IH.
Qed.

Lemma statusOfString_name (str : string) (s : Status) :
  statusOfString str = Some s <-> str = statusName s.
Proof.
  unfold statusOfString, LEAVE_REQUEST_STATUS_values.
  cbn [find statusName]. split.
  - repeat match goal with
           | |- context [String.eqb ?a ?b] =>
               destruct (String.eqb_spec a b); [subst |]
           end; intros H; try discriminate; injection H as <-; reflexivity.
  - intros ->. destruct s; reflexivity.
Qed.

(** X9: a status update fails with "Leave request not found" when no record
    has the id, whatever the status asked for; fails with "Invalid status"
    when the record exists and the status is not, letter for letter, one of
    the four names; and otherwise, from every current status, the record is
    found afterwards with the status asked for and processedAt at the
    clock, its other fields as before; that record is the one returned,
    every other id resolves as before, and nothing is published. *)
Theorem updateLeaveRequestStatus_outcomes :
  forall (env : Env) (w : World) (i : Z) (str : string),
    (LeaveRequestRepository.findById w i = None ->
       LeaveRequestService.updateLeaveRequestStatus env w i str
       = Err LeaveRequestNotFound)
    /\ (forall r,
          LeaveRequestRepository.findById w i = Some r ->
          (forall s, str <> statusName s) ->
          LeaveRequestService.updateLeaveRequestStatus env w i str
          = Err InvalidStatus)
    /\ (forall r s,
          LeaveRequestRepository.findById w i = Some r ->
          str = statusName s ->
          exists w' r',
            LeaveRequestService.updateLeaveRequestStatus env w i str
            = Ok (w', Some r')
            /\ LeaveRequestRepository.findById w' i = Some r'
            /\ LeaveRequest.status r' = s
            /\ LeaveRequest.processedAt r' = Some (now env)
            /\ sameRequest r r'
            /\ (forall j, j <> i ->
                  LeaveRequestRepository.findById w' j
                  = LeaveRequestRepository.findById w j)
            /\ List.length (leaveRequests w') = List.length (leaveRequests w)
            /\ published w' = published w).
Proof.
  intros env w i str.
  unfold LeaveRequestService.updateLeaveRequestStatus.
  split; [| split].
  - intros Hnone.
    destruct (LeaveRequestRepository.exists_ w i) eqn:Hex; [| reflexivity].
    apply exists_findById in Hex. contradiction.
  - intros r Hsome Hbad.
    assert (Hex : LeaveRequestRepository.exists_ w i = true).
    { apply exists_findById. congruence. }
    rewrite Hex. simpl.
    destruct (statusOfString str) as [s |] eqn:Hs; [| reflexivity].
    apply statusOfString_name in Hs. now apply Hbad in Hs.
  - intros r s Hsome Hname.
    assert (Hex : LeaveRequestRepository.exists_ w i = true).
    { apply exists_findById. congruence. }
    apply statusOfString_name in Hname. rewrite Hex, Hname. simpl.
    pose proof (findById_id _ _ _ Hsome) as Hi. subst i.
    destruct (updateStatus_moves_the_record env w r s Hsome)
      as ((r' & Hfound & Hstatus & Hstamp & Hkept) & Hothers).
    exists (LeaveRequestRepository.updateStatus env w (LeaveRequest.id r) s), r'.
    split; [now rewrite Hfound |]. split; [exact Hfound |].
    split; [exact Hstatus |]. split; [exact Hstamp |]. split; [exact Hkept |].
    split; [exact Hothers |]. split; [| reflexivity].
    cbn [leaveRequests LeaveRequestRepository.updateStatus setLeaveRequests].
    apply length_map.
Qed.

(** A rejected request is approved by a status update: it is found
    APPROVED afterwards; a status in lower case is refused. *)
Lemma updateLeaveRequestStatus_examples :
  (exists w' r',
     LeaveRequestService.updateLeaveRequestStatus exampleEnv
       (worldWith [rejectedRow]) 1 "APPROVED" = Ok (w', Some r')
     /\ LeaveRequestRepository.findById w' 1 = Some r'
     /\ LeaveRequest.status rejectedRow = REJECTED
     /\ LeaveRequest.status r' = APPROVED
     /\ LeaveRequest.processedAt r' = Some (now exampleEnv)
     /\ sameRequest rejectedRow r')
  /\ LeaveRequestService.updateLeaveRequestStatus exampleEnv
       (worldWith [rejectedRow]) 1 "approved"
     = Err InvalidStatus.
Proof.
  destruct (updateLeaveRequestStatus_outcomes exampleEnv
              (worldWith [rejectedRow]) 1 "APPROVED") as (_ & _ & Hok).
  destruct (updateLeaveRequestStatus_outcomes exampleEnv
              (worldWith [rejectedRow]) 1 "approved") as (_ & Hbad & _).
  split.
  - destruct (Hok rejectedRow APPROVED eq_refl eq_refl)
      as (w' & r' & Hw' & Hfound & Hstatus & Hstamp & Hkept & _).
    exists w', r'. repeat split; assumption || apply Hkept.
  - apply (Hbad _ eq_refl). intros s. destruct s; discriminate.
Defined.

(** ** Creation and lookup *)

(** X11: in a reachable world, the record a creation answers with, new or
    duplicate, is stored and is the one a lookup by its id returns
    afterwards.  A record answered as new was not stored before and has the
    key of the request (or the random key drawn for it), the employee and
    the dates of the request and the status PENDING; an answer flagged
    duplicate has left the world as it was. *)
Theorem created_record_is_found_by_id :
  forall (threshold : Z) (env : Env) (w w' : World)
         (d : LeaveRequestService.LeaveRequestData)
         (resp : LeaveRequestService.CreateResponse),
    reachable threshold w ->
    LeaveRequestService.createLeaveRequest env w d = Ok (w', resp) ->
    exists row,
      LeaveRequestService.data resp = Some row
      /\ In row (leaveRequests w')
      /\ LeaveRequestQueries.getLeaveRequestById w' (LeaveRequest.id row) = Ok row
      /\ (LeaveRequestService.duplicate resp = false ->
            ~ In row (leaveRequests w)
            /\ LeaveRequest.idempotencyKey row
               = Some (LeaveRequestService.keyOrRandom env
                         (LeaveRequestService.idempotencyKey d))
            /\ LeaveRequest.employeeId row = LeaveRequestService.employeeId d
            /\ LeaveRequest.startDate row = LeaveRequestService.startDate d
            /\ LeaveRequest.endDate row = LeaveRequestService.endDate d
            /\ LeaveRequest.status row = PENDING)
      /\ (LeaveRequestService.duplicate resp = true -> w' = w).
Proof.
  intros threshold env w w' d resp Hreach Hok.
  pose proof (reachable_storeInvariant threshold w Hreach) as Hinv.
  unfold LeaveRequestQueries.getLeaveRequestById.
  destruct (createLeaveRequest_cases _ _ _ _ Hok)
    as (Hval & [(existing & Hk & Heq) | (Hk & Heq)]); injection Heq as -> ->.
  - exists existing. split; [reflexivity |].
    unfold LeaveRequestRepository.findByIdempotencyKey in Hk.
    apply find_some in Hk. destruct Hk as [Hin Hkey].
    split; [exact Hin |].
    rewrite (findById_of_row w existing (inv_ids_nodup w Hinv) Hin).
    split; [reflexivity |]. split; [discriminate | reflexivity].
  - pose proof (storeInvariant_created env w d Hinv Hval Hk) as Hinv'.
    assert (Hrow : In (createdRow env w d)
                      (leaveRequests (createdWorld env w d))).
    { cbn [leaveRequests createdWorld]. apply in_app_iff. right. now left. }
    pose proof (findById_of_row _ _ (inv_ids_nodup _ Hinv') Hrow) as Hfind.
    cbn [LeaveRequest.id createdRow] in Hfind.
    exists (createdRow env w d). cbn [LeaveRequestService.data].
    split; [exact Hfind |]. split; [exact Hrow |].
    cbn [LeaveRequest.id createdRow]. rewrite Hfind.
    split; [reflexivity |].
    split; [| discriminate].
    intros _. split; [| repeat split].
    intros Hin. apply (findByIdempotencyKey_None w _ Hk).
    apply in_map_iff. exists (createdRow env w d). split; [reflexivity | exact Hin].
Qed.

(** The request created under "retry-7" is answered, stored as PENDING for
    employee 1, and found by its id. *)
Lemma created_record_is_found_by_id_example :
  exists row,
    LeaveRequestService.data
      (LeaveRequestService.mkCreateResponse (Some theRequest) false)
    = Some row
    /\ In row (leaveRequests oneRequestWorld)
    /\ LeaveRequestQueries.getLeaveRequestById oneRequestWorld
         (LeaveRequest.id row) = Ok row
    /\ ~ In row (leaveRequests (initialWorld [1]))
    /\ LeaveRequest.idempotencyKey row = Some "retry-7"
    /\ LeaveRequest.employeeId row = 1
    /\ LeaveRequest.startDate row = 19740
    /\ LeaveRequest.endDate row = 19741
    /\ LeaveRequest.status row = PENDING.
Proof.
  destruct (created_record_is_found_by_id DEFAULT_AUTO_APPROVE_DAYS_THRESHOLD
              exampleEnv (initialWorld [1]) oneRequestWorld keyedRequest
              (LeaveRequestService.mkCreateResponse (Some theRequest) false)
              (reachable_init _ [1]) eq_refl)
    as (row & Hrow & Hin & Hget & Hnew & _).
  exists row. split; [exact Hrow |]. split; [exact Hin |].
  split; [exact Hget |]. exact (Hnew eq_refl).
Defined.

(** ** Statistics *)

Lemma statsOf_total (l : list LeaveRequest.t) :
  Z.of_nat (List.length l)
  = countWhere (hasStatus APPROVED) l
    + (countWhere (hasStatus PENDING) l
       + countWhere (hasStatus PENDING_APPROVAL) l)
    + countWhere (hasStatus REJECTED) l.
Proof.
  unfold countWhere, hasStatus. induction l as [| r l IH]; [reflexivity |].
  cbn [filter List.length]. destruct (LeaveRequest.status r);
    cbn [Status_eqb List.length]; lia.
Qed.

Lemma approved_days (l : list LeaveRequest.t) :
  (forall r, In r l -> LeaveRequest.startDate r <= LeaveRequest.endDate r) ->
  countWhere (hasStatus APPROVED) l
  <= sumZ (map daySpan (filter (hasStatus APPROVED) l)).
Proof.
  unfold countWhere. intros Hwf.
  induction l as [| r l IH]; [simpl; lia |].
  cbn [filter]. destruct (hasStatus APPROVED r).
  - cbn [List.length map]. change (sumZ (?x :: ?xs)) with (x + sumZ xs).
    pose proof (Hwf r (or_introl eq_refl)). unfold daySpan at 1.
    specialize (IH (fun x Hx => Hwf x (or_intror Hx))). lia.
  - apply IH. intros x Hx. apply Hwf. now right.
Qed.

(** X10: the statistics of an employee and a year always add up: total is
    approved + pending + rejected, none of them negative; and in a
    reachable world totalDays is at least approved, each approved request
    counting for one day or more. *)
Theorem getEmployeeStats_adds_up :
  (forall (env : Env) (w : World) (employeeId year : Z),
     let s := LeaveRequestRepository.getEmployeeStats env w employeeId year in
     LeaveRequestRepository.total s
     = LeaveRequestRepository.approved s + LeaveRequestRepository.pending s
       + LeaveRequestRepository.rejected s
     /\ 0 <= LeaveRequestRepository.approved s
     /\ 0 <= LeaveRequestRepository.pending s
     /\ 0 <= LeaveRequestRepository.rejected s)
  /\ (forall (threshold : Z) (env : Env) (w : World) (employeeId year : Z),
        reachable threshold w ->
        LeaveRequestRepository.approved
          (LeaveRequestRepository.getEmployeeStats env w employeeId year)
        <= LeaveRequestRepository.totalDays
             (LeaveRequestRepository.getEmployeeStats env w employeeId year)).
Proof.
  split.
  - intros env w employeeId year s. subst s.
    rewrite getEmployeeStats_aggregates. unfold statsOf.
    cbn [LeaveRequestRepository.total LeaveRequestRepository.approved
         LeaveRequestRepository.pending LeaveRequestRepository.rejected].
    rewrite statsOf_total. unfold countWhere. lia.
  - intros threshold env w employeeId year Hreach.
    rewrite getEmployeeStats_aggregates. unfold statsOf.
    cbn [LeaveRequestRepository.approved LeaveRequestRepository.totalDays].
    apply approved_days. intros r Hr.
    apply (inv_dates w (reachable_storeInvariant threshold w Hreach)).
    unfold LeaveRequestRepository.statsRequests in Hr.
    now apply filter_In in Hr.
Qed.

Lemma approvedWorld_reachable :
  reachable DEFAULT_AUTO_APPROVE_DAYS_THRESHOLD approvedWorld.
Proof. apply reachable_run, reachable_init. Qed.

(** Employee 1 has one approved request of two days in 2024: approved is
    1, totalDays is 2. *)
Lemma getEmployeeStats_adds_up_example :
  LeaveRequestRepository.approved
    (LeaveRequestRepository.getEmployeeStats exampleEnv approvedWorld 1 2024)
  = 1
  /\ LeaveRequestRepository.totalDays
       (LeaveRequestRepository.getEmployeeStats exampleEnv approvedWorld 1 2024)
     = 2
  /\ LeaveRequestRepository.approved
       (LeaveRequestRepository.getEmployeeStats exampleEnv approvedWorld 1 2024)
     <= LeaveRequestRepository.totalDays
          (LeaveRequestRepository.getEmployeeStats exampleEnv approvedWorld
             1 2024).
Proof.
  split; [vm_compute; reflexivity |]. split; [vm_compute; reflexivity |].
  exact (proj2 getEmployeeStats_adds_up DEFAULT_AUTO_APPROVE_DAYS_THRESHOLD
           exampleEnv approvedWorld 1 2024 approvedWorld_reachable).
Defined.

(** ** The trace of publish calls *)

Lemma callsOf_app (topic : string) (l l' : list Publication) :
  callsOf topic (l ++ l') = (callsOf topic l ++ callsOf topic l')%list.
Proof. apply filter_app. Qed.

(** A row that differs from a stored one by its status and stamps only was
    announced by the same call. *)
Lemma announced_rows_stay_announced (w w' : World) :
  (forall r', In r' (leaveRequests w') ->
              exists r, In r (leaveRequests w) /\ sameRequest r r') ->
  (forall call, In call (published w) -> In call (published w')) ->
  (forall r, In r (leaveRequests w) ->
             exists call, In call (published w) /\ announces call r) ->
  forall r', In r' (leaveRequests w') ->
             exists call, In call (published w') /\ announces call r'.
Proof.
  intros Hrows Htrace Hann r' Hr'.
  destruct (Hrows r' Hr') as (r & Hr & e1 & e2 & e3 & e4 & e5 & _).
  destruct (Hann r Hr) as (call & Hcall & Hkey & ts & Hpayload).
  exists call. split; [now apply Htrace |]. split; [exact Hkey |].
  exists ts. now rewrite e1, e2, e3, e4, e5.
Qed.

Lemma updateStatus_rows_same (env : Env) (w : World) (i : Z) (s : Status)
  (r' : LeaveRequest.t) :
  In r' (leaveRequests (LeaveRequestRepository.updateStatus env w i s)) ->
  exists r, In r (leaveRequests w) /\ sameRequest r r'.
Proof.
  cbn [leaveRequests LeaveRequestRepository.updateStatus setLeaveRequests].
  intros Hin. apply in_map_iff in Hin. destruct Hin as (r & <- & Hr).
  exists r. split; [exact Hr |].
  destruct (LeaveRequest.id r =? i); repeat split.
Qed.

Lemma delete_rows_same (w : World) (i : Z) (r' : LeaveRequest.t) :
  In r' (leaveRequests (LeaveRequestRepository.delete w i)) ->
  exists r, In r (leaveRequests w) /\ sameRequest r r'.
Proof.
  cbn [leaveRequests LeaveRequestRepository.delete setLeaveRequests].
  intros Hin. apply filter_In in Hin. destruct Hin as [Hin _].
  exists r'. split; [exact Hin | repeat split].
Qed.

(** X12: in every reachable world each stored request was announced: the
    trace holds a leave.requested call, delivered or not, that names its
    id, its employee, its days and its key.  So the stored requests are at
    most as many as the leave.requested calls; and every call in the trace
    is to leave.requested or to leave.approved. *)
Theorem stored_requests_were_announced :
  forall (threshold : Z) (w : World),
    reachable threshold w ->
    (forall r, In r (leaveRequests w) ->
               exists call, In call (published w) /\ announces call r)
    /\ (List.length (leaveRequests w)
        <= List.length (callsOf LEAVE_REQUESTED (published w)))%nat
    /\ Forall (fun p => routingKey p = LEAVE_REQUESTED
                        \/ routingKey p = LEAVE_APPROVED) (published w).
Proof.
  intros threshold w Hreach.
  induction Hreach as [emps | w op Hreach (IHa & IHn & IHk)].
  - split; [intros r [] |]. split; [apply Nat.le_refl | constructor].
  - destruct op as [env d | env i s | i e | env msg]; simpl.
    + destruct (LeaveRequestService.createLeaveRequest env w d) as [res |] eqn:Hc;
        [| now repeat split].
      destruct (createLeaveRequest_cases _ _ _ _ Hc)
        as (_ & [(existing & _ & ->) | (_ & ->)]); simpl fst.
      * now repeat split.
      * cbn [published createdWorld leaveRequests]. split; [| split].
        -- intros r Hr. apply in_app_iff in Hr. destruct Hr as [Hr | [<- | []]].
           ++ destruct (IHa r Hr) as (call & Hcall & Hann).
              exists call. split; [apply in_or_app; now left | exact Hann].
           ++ eexists. split; [apply in_or_app; right; left; reflexivity |].
              split; [reflexivity |]. eexists. reflexivity.
        -- rewrite callsOf_app, !length_app. simpl. lia.
        -- apply Forall_app. split; [exact IHk |].
           constructor; [now left | constructor].
    + unfold LeaveRequestService.updateLeaveRequestStatus.
      destruct (LeaveRequestRepository.exists_ w i); simpl;
        [| now repeat split].
      destruct (statusOfString s) as [s' |]; simpl; [| now repeat split].
      split; [| split].
      * apply (announced_rows_stay_announced w
                 (LeaveRequestRepository.updateStatus env w i s'));
          [intros r' Hr'; exact (updateStatus_rows_same env w i s' r' Hr')
          | intros call Hcall; exact Hcall | exact IHa].
      * cbn [leaveRequests published LeaveRequestRepository.updateStatus
             setLeaveRequests]. now rewrite length_map.
      * exact IHk.
    + unfold LeaveRequestService.cancelLeaveRequest.
      destruct (LeaveRequestRepository.findById w i) as [lr |];
        [| now repeat split].
      destruct (negb (LeaveRequest.employeeId lr =? e)); simpl;
        [now repeat split |].
      destruct (Status_eqb (LeaveRequest.status lr) REJECTED); simpl;
        [now repeat split |].
      split; [| split].
      * apply (announced_rows_stay_announced w
                 (LeaveRequestRepository.delete w i));
          [intros r' Hr'; exact (delete_rows_same w i r' Hr')
          | intros call Hcall; exact Hcall | exact IHa].
      * cbn [leaveRequests published LeaveRequestRepository.delete
             setLeaveRequests].
        eapply Nat.le_trans; [apply filter_length_le | exact IHn].
      * exact IHk.
    + destruct (handleQueueMessage_cases threshold env w msg)
        as [-> | (lr & _ & _ & _ & [[_ ->] | [_ ->]])].
      * now repeat split.
      * split; [| split].
        -- apply (announced_rows_stay_announced w).
           ++ intros r' Hr'.
              exact (updateStatus_rows_same env w (LeaveRequest.id lr)
                       APPROVED r' Hr').
           ++ intros call Hcall.
              cbn [published publishMessage fst
                   LeaveRequestRepository.updateStatus setLeaveRequests].
              apply in_or_app. now left.
           ++ exact IHa.
        -- cbn [published publishMessage fst leaveRequests
                LeaveRequestRepository.updateStatus setLeaveRequests].
           rewrite callsOf_app, length_app, length_map. simpl. lia.
        -- cbn [published publishMessage fst
                LeaveRequestRepository.updateStatus setLeaveRequests].
           apply Forall_app. split; [exact IHk |].
           constructor; [now right | constructor].
      * split; [| split].
        -- apply (announced_rows_stay_announced w
                    (LeaveRequestRepository.updateStatus env w
                       (LeaveRequest.id lr) PENDING_APPROVAL));
             [intros r' Hr';
              exact (updateStatus_rows_same env w (LeaveRequest.id lr)
                       PENDING_APPROVAL r' Hr')
             | intros call Hcall; exact Hcall | exact IHa].
        -- cbn [leaveRequests published LeaveRequestRepository.updateStatus
                setLeaveRequests]. now rewrite length_map.
        -- exact IHk.
Qed.

(** The approved request of [approvedWorld] was announced when it was
    created, as PENDING; the trace holds that one leave.requested call. *)
Lemma stored_requests_were_announced_example :
  (exists call,
     In call (published approvedWorld)
     /\ announces call
          (LeaveRequest.withStatus APPROVED (now exampleEnv') theRequest))
  /\ (1 <= List.length (callsOf LEAVE_REQUESTED (published approvedWorld)))%nat.
Proof.
  destruct (stored_requests_were_announced DEFAULT_AUTO_APPROVE_DAYS_THRESHOLD
              approvedWorld approvedWorld_reachable) as (Hann & Hcount & _).
  split.
  - apply Hann. left. reflexivity.
  - exact Hcount.
Defined.

(** ** Listings and pages *)

Lemma insertByCreatedAt_perm (r : LeaveRequest.t) (l : list LeaveRequest.t) :
  Permutation (LeaveRequestListing.insertByCreatedAt r l) (r :: l).
Proof.
  induction l as [| x xs IH]; simpl; [reflexivity |].
  destruct (LeaveRequest.createdAt x <=? LeaveRequest.createdAt r);
    [reflexivity |].
  rewrite IH. apply perm_swap.
Qed.

Lemma orderByCreatedAtDesc_perm (l : list LeaveRequest.t) :
  Permutation (LeaveRequestListing.orderByCreatedAtDesc l) l.
Proof.
  induction l as [| r l IH]; simpl; [reflexivity |].
  rewrite insertByCreatedAt_perm. now constructor.
Qed.

Lemma insertByCreatedAt_sorted (r : LeaveRequest.t) (l : list LeaveRequest.t) :
  StronglySorted createdNoEarlier l ->
  StronglySorted createdNoEarlier (LeaveRequestListing.insertByCreatedAt r l).
Proof.
  induction 1 as [| x xs Hs IH Hx]; simpl.
  - repeat constructor.
  - destruct (LeaveRequest.createdAt x <=? LeaveRequest.createdAt r) eqn:Hle.
    + apply Z.leb_le in Hle. constructor; [now constructor |].
      constructor; [exact Hle |].
      eapply Forall_impl; [| exact Hx].
      unfold createdNoEarlier. intros; lia.
    + apply Z.leb_gt in Hle. constructor; [exact IH |].
      eapply Permutation_Forall;
        [symmetry; apply insertByCreatedAt_perm |].
      constructor; [unfold createdNoEarlier; lia | exact Hx].
Qed.

Lemma orderByCreatedAtDesc_sorted (l : list LeaveRequest.t) :
  StronglySorted createdNoEarlier (LeaveRequestListing.orderByCreatedAtDesc l).
Proof.
  induction l as [| r l IH]; simpl; [constructor |].
  now apply insertByCreatedAt_sorted.
Qed.

(** Cutting a list into [n] pages of [k] rows and gluing them gives the
    list back, once the pages reach its end. *)
Lemma pages_cover {A : Type} (k : nat) (l : list A) (n : nat) :
  (List.length l <= n * k)%nat ->
  flat_map (fun p => firstn k (skipn (p * k) l)) (seq 0 n) = l.
Proof.
  revert l. induction n as [| n IH]; intros l Hlen.
  - destruct l; [reflexivity | simpl in Hlen; lia].
  - cbn [seq flat_map]. rewrite <- seq_shift, flat_map_concat_map, map_map,
      <- flat_map_concat_map.
    rewrite (flat_map_ext _ (fun p => firstn k (skipn (p * k) (skipn k l)))).
    + rewrite IH.
      * simpl. apply firstn_skipn.
      * rewrite length_skipn. lia.
    + intros p. rewrite skipn_skipn. f_equal. f_equal. lia.
Qed.

Lemma In_firstn {A : Type} (n : nat) (l : list A) (x : A) :
  In x (firstn n l) -> In x l.
Proof.
  intros H. rewrite <- (firstn_skipn n l). apply in_or_app. now left.
Qed.

Lemma In_skipn {A : Type} (n : nat) (l : list A) (x : A) :
  In x (skipn n l) -> In x l.
Proof.
  intros H. rewrite <- (firstn_skipn n l). apply in_or_app. now right.
Qed.

(** X13: a listing with a positive limit and a page of at least 1 answers
    with at most limit rows, all of them stored rows the filters admit;
    total counts every stored row the filters admit, whatever the page;
    and totalPages is the least number of pages of that size that hold
    them.  A page below 1 makes the query fail in the database. *)
Theorem getAllLeaveRequests_page :
  forall (w : World) (o : LeaveRequestListing.Options),
    0 < LeaveRequestListing.limitOf o ->
    (1 <= LeaveRequestListing.pageOf o ->
       exists listing n,
         LeaveRequestQueries.getAllLeaveRequests w o = Some listing
         /\ Z.of_nat (List.length (LeaveRequestQueries.data listing))
            <= LeaveRequestListing.limitOf o
         /\ (forall r, In r (LeaveRequestQueries.data listing) ->
                       In r (leaveRequests w)
                       /\ LeaveRequestListing.matchesWhere o r = true)
         /\ LeaveRequestQueries.total (LeaveRequestQueries.pagination listing)
            = Z.of_nat (List.length
                          (filter (LeaveRequestListing.matchesWhere o)
                             (leaveRequests w)))
         /\ LeaveRequestQueries.totalPages
              (LeaveRequestQueries.pagination listing) = Some n
         /\ (n - 1) * LeaveRequestListing.limitOf o
            < LeaveRequestQueries.total (LeaveRequestQueries.pagination listing)
            <= n * LeaveRequestListing.limitOf o)
    /\ (LeaveRequestListing.pageOf o < 1 ->
          LeaveRequestQueries.getAllLeaveRequests w o = None).
Proof.
  intros w o Hlimit. split.
  - intros Hpage.
    unfold LeaveRequestQueries.getAllLeaveRequests, LeaveRequestListing.findAll,
      LeaveRequestListing.limitOffset.
    replace (LeaveRequestListing.limitOf o <? 0) with false
      by (symmetry; apply Z.ltb_ge; lia).
    replace ((LeaveRequestListing.pageOf o - 1) * LeaveRequestListing.limitOf o
             <? 0) with false by (symmetry; apply Z.ltb_ge; nia).
    cbn [orb option_map]. eexists. eexists. split; [reflexivity |].
    unfold LeaveRequestQueries.paginate.
    cbn [LeaveRequestQueries.data LeaveRequestQueries.pagination
         LeaveRequestQueries.total LeaveRequestQueries.totalPages
         LeaveRequestListing.rows LeaveRequestListing.count].
    replace (LeaveRequestListing.limitOf o =? 0) with false
      by (symmetry; apply Z.eqb_neq; lia).
    split; [| split; [| split; [| split]]].
    + rewrite length_firstn. lia.
    + intros r Hr. apply In_firstn, In_skipn in Hr.
      apply (Permutation_in _ (orderByCreatedAtDesc_perm _)) in Hr.
      now apply filter_In in Hr.
    + reflexivity.
    + reflexivity.
    + apply ceilDiv_bounds. exact Hlimit.
  - intros Hpage.
    unfold LeaveRequestQueries.getAllLeaveRequests, LeaveRequestListing.findAll,
      LeaveRequestListing.limitOffset.
    replace ((LeaveRequestListing.pageOf o - 1) * LeaveRequestListing.limitOf o
             <? 0) with true by (symmetry; apply Z.ltb_lt; nia).
    now rewrite orb_true_r.
Qed.

(** The first page of two rows of a store of three: two rows, total 3, two
    pages. *)
Lemma getAllLeaveRequests_page_example :
  exists listing n,
    LeaveRequestQueries.getAllLeaveRequests (worldWith midYearRows)
      (pageOptions 1 2) = Some listing
    /\ Z.of_nat (List.length (LeaveRequestQueries.data listing)) <= 2
    /\ (forall r, In r (LeaveRequestQueries.data listing) ->
                  In r midYearRows
                  /\ LeaveRequestListing.matchesWhere (pageOptions 1 2) r = true)
    /\ LeaveRequestQueries.total (LeaveRequestQueries.pagination listing) = 3
    /\ LeaveRequestQueries.totalPages (LeaveRequestQueries.pagination listing)
       = Some n
    /\ (n - 1) * 2
       < LeaveRequestQueries.total (LeaveRequestQueries.pagination listing)
       <= n * 2.
Proof.
  destruct (getAllLeaveRequests_page (worldWith midYearRows) (pageOptions 1 2))
    as [Hpage _].
  - reflexivity.
  - apply Hpage. discriminate.
Defined.

Lemma pagesUpTo_firstn (w : World) (o : LeaveRequestListing.Options) (n : nat) :
  0 < LeaveRequestListing.limitOf o ->
  pagesUpTo w o n
  = flat_map
      (fun p =>
         firstn (Z.to_nat (LeaveRequestListing.limitOf o))
           (skipn (p * Z.to_nat (LeaveRequestListing.limitOf o))
              (LeaveRequestListing.orderByCreatedAtDesc
                 (filter (LeaveRequestListing.matchesWhere o)
                    (leaveRequests w)))))
      (seq 0 n).
Proof.
  intros Hlimit. unfold pagesUpTo.
  rewrite <- seq_shift, flat_map_concat_map, map_map, <- flat_map_concat_map.
  apply flat_map_ext. intros p.
  unfold LeaveRequestQueries.getAllLeaveRequests, LeaveRequestListing.findAll,
    LeaveRequestListing.limitOffset, LeaveRequestListing.pageOf,
    LeaveRequestListing.limitOf in *.
  cbn [LeaveRequestListing.page LeaveRequestListing.limit].
  destruct (LeaveRequestListing.limit o) as [l |];
    (match goal with
     | |- context [?a <? 0] =>
         replace (a <? 0) with false by (symmetry; apply Z.ltb_ge; lia)
     end;
     match goal with
     | |- context [(Z.of_nat (S p) - 1) * ?b <? 0] =>
         replace ((Z.of_nat (S p) - 1) * b <? 0) with false
           by (symmetry; apply Z.ltb_ge; nia)
     end;
     cbn [orb option_map LeaveRequestQueries.paginate
          LeaveRequestQueries.data LeaveRequestListing.rows];
     f_equal; f_equal; nia).
Qed.

(** A list in the order of a listing, of rows created at different
    instants, is in strict order. *)
Lemma createdNoEarlier_strict (l : list LeaveRequest.t) :
  StronglySorted createdNoEarlier l ->
  NoDup (map LeaveRequest.createdAt l) ->
  StronglySorted createdLater l.
Proof.
  induction 1 as [| a l Hsorted IH Hall]; intros Hnd; constructor.
  - apply IH. now inversion Hnd.
  - inversion Hnd as [| x xs Hnotin _]; subst.
    rewrite Forall_forall in Hall |- *. intros b Hb.
    specialize (Hall b Hb). unfold createdNoEarlier in Hall.
    unfold createdLater.
    assert (LeaveRequest.createdAt b <> LeaveRequest.createdAt a).
    { intros Heq. apply Hnotin. rewrite <- Heq. now apply in_map. }
    lia.
Qed.

(** X14: with a positive limit, when the stored rows the filters admit were
    created at different instants, the pages 1 to totalPages of a listing,
    one after the other, are those rows, each exactly once, the later
    created first; and every page after totalPages is empty.  (Rows
    created at the same instant have no order of their own in the query,
    each page being a query of its own.) *)
Theorem getAllLeaveRequests_pages_cover :
  forall (w : World) (o : LeaveRequestListing.Options)
         (listing : LeaveRequestQueries.Listing) (n : Z),
    0 < LeaveRequestListing.limitOf o ->
    NoDup (map LeaveRequest.createdAt
             (filter (LeaveRequestListing.matchesWhere o) (leaveRequests w))) ->
    LeaveRequestQueries.getAllLeaveRequests w o = Some listing ->
    LeaveRequestQueries.totalPages (LeaveRequestQueries.pagination listing)
    = Some n ->
    Permutation (pagesUpTo w o (Z.to_nat n))
      (filter (LeaveRequestListing.matchesWhere o) (leaveRequests w))
    /\ StronglySorted createdLater (pagesUpTo w o (Z.to_nat n))
    /\ (n < LeaveRequestListing.pageOf o ->
          LeaveRequestQueries.data listing = []).
Proof.
  intros w o listing n Hlimit Hdistinct Hget Hpages.
  set (matching := filter (LeaveRequestListing.matchesWhere o) (leaveRequests w))
    in *.
  unfold LeaveRequestQueries.getAllLeaveRequests, LeaveRequestListing.findAll,
    LeaveRequestListing.limitOffset in Hget.
  fold matching in Hget.
  destruct ((LeaveRequestListing.limitOf o <? 0)
            || ((LeaveRequestListing.pageOf o - 1)
                * LeaveRequestListing.limitOf o <? 0)) eqn:Hneg;
    [discriminate |].
  apply orb_false_elim in Hneg. destruct Hneg as [_ Hoff].
  apply Z.ltb_ge in Hoff.
  cbn [option_map] in Hget. injection Hget as <-.
  unfold LeaveRequestQueries.paginate in Hpages |- *.
  cbn [LeaveRequestQueries.pagination LeaveRequestQueries.totalPages
       LeaveRequestListing.count LeaveRequestQueries.data
       LeaveRequestListing.rows] in Hpages |- *.
  replace (LeaveRequestListing.limitOf o =? 0) with false in Hpages
    by (symmetry; apply Z.eqb_neq; lia).
  injection Hpages as Hn.
  pose proof (ceilDiv_bounds (Z.of_nat (List.length matching))
                (LeaveRequestListing.limitOf o) Hlimit) as Hceil.
  rewrite Hn in Hceil.
  assert (Hcover : pagesUpTo w o (Z.to_nat n)
                   = LeaveRequestListing.orderByCreatedAtDesc matching).
  { rewrite (pagesUpTo_firstn w o _ Hlimit). apply pages_cover.
    rewrite (Permutation_length (orderByCreatedAtDesc_perm matching)).
    nia. }
  rewrite Hcover. split; [apply orderByCreatedAtDesc_perm |].
  split.
  - apply createdNoEarlier_strict; [apply orderByCreatedAtDesc_sorted |].
    apply (Permutation_NoDup (l := map LeaveRequest.createdAt matching));
      [| exact Hdistinct].
    apply Permutation_map, Permutation_sym, orderByCreatedAtDesc_perm.
  - intros Hbeyond. rewrite skipn_all2; [now rewrite firstn_nil |].
    rewrite (Permutation_length (orderByCreatedAtDesc_perm matching)).
    nia.
Qed.

(** Three rows created at the instants 100, 300 and 200, listed two a
    page: the first page holds the rows of 300 and 200, the second the row
    of 100. *)
Lemma getAllLeaveRequests_pages_cover_example :
  pagesUpTo (worldWith stampedRows) (pageOptions 1 2) 2
  = [stampedRow 2 300; stampedRow 3 200; stampedRow 1 100]
  /\ Permutation (pagesUpTo (worldWith stampedRows) (pageOptions 1 2) 2)
       stampedRows
  /\ StronglySorted createdLater
       (pagesUpTo (worldWith stampedRows) (pageOptions 1 2) 2).
Proof.
  split; [reflexivity |].
  destruct (getAllLeaveRequests_pages_cover (worldWith stampedRows)
              (pageOptions 1 2)
              (LeaveRequestQueries.mkListing
                 [stampedRow 2 300; stampedRow 3 200]
                 (LeaveRequestQueries.mkPagination 1 2 3 (Some 2)))
              2) as (Hperm & Hsorted & _).
  - reflexivity.
  - repeat (constructor; [simpl; intuition discriminate |]). constructor.
  - reflexivity.
  - reflexivity.
  - split; [exact Hperm | exact Hsorted].
Defined.

(** ** The responses *)

(** The errors a creation can end with. *)
Lemma createLeaveRequest_errors (env : Env) (w : World)
  (d : LeaveRequestService.LeaveRequestData) (e : Error) :
  LeaveRequestService.createLeaveRequest env w d = Err e ->
  (e = EmployeeNotFound
   /\ EmployeeRepository.exists_ w (LeaveRequestService.employeeId d) = false)
  \/ (EmployeeRepository.exists_ w (LeaveRequestService.employeeId d) = true
      /\ ((e = StartAfterEnd
           /\ LeaveRequestService.endDate d < LeaveRequestService.startDate d)
          \/ (e = PastDate
              /\ LeaveRequestService.startDate d
                 <= LeaveRequestService.endDate d
              /\ LeaveRequestService.startDate d * MILLISECONDS_IN_DAY
                 < setHours0 (utcOffset env) (now env))
          \/ (e = Overlap
              /\ LeaveRequestService.startDate d
                 <= LeaveRequestService.endDate d
              /\ setHours0 (utcOffset env) (now env)
                 <= LeaveRequestService.startDate d * MILLISECONDS_IN_DAY
              /\ LeaveRequestRepository.findOverlapping w
                   (LeaveRequestService.employeeId d)
                   (LeaveRequestService.startDate d)
                   (LeaveRequestService.endDate d) None <> []))).
Proof.
  intros Herr.
  destruct (EmployeeRepository.exists_ w (LeaveRequestService.employeeId d))
    eqn:Hemp.
  2:{ left. unfold LeaveRequestService.createLeaveRequest in Herr.
      rewrite Hemp in Herr. simpl in Herr. split; congruence. }
  right. split; [reflexivity |].
  destruct (Z_lt_ge_dec (LeaveRequestService.endDate d)
              (LeaveRequestService.startDate d)) as [Hrev | Hdates].
  { left. split; [| exact Hrev].
    unfold LeaveRequestService.createLeaveRequest in Herr.
    rewrite Hemp in Herr. simpl negb in Herr. simpl newDate in Herr.
    unfold JsDate.gt, JsDate.lt in Herr.
    replace (LeaveRequestService.endDate d * MILLISECONDS_IN_DAY
             <? LeaveRequestService.startDate d * MILLISECONDS_IN_DAY)
      with true in Herr
      by (symmetry; apply Z.ltb_lt; pose proof MILLISECONDS_IN_DAY_pos; nia).
    simpl in Herr. congruence. }
  destruct (Z_lt_ge_dec
              (LeaveRequestService.startDate d * MILLISECONDS_IN_DAY)
              (setHours0 (utcOffset env) (now env))) as [Hpast | Hnotpast].
  { right. left. split; [| split; [lia | exact Hpast]].
    unfold LeaveRequestService.createLeaveRequest in Herr.
    rewrite Hemp in Herr. simpl negb in Herr. simpl newDate in Herr.
    unfold JsDate.gt, JsDate.lt in Herr.
    replace (LeaveRequestService.endDate d * MILLISECONDS_IN_DAY
             <? LeaveRequestService.startDate d * MILLISECONDS_IN_DAY)
      with false in Herr
      by (symmetry; apply Z.ltb_ge; pose proof MILLISECONDS_IN_DAY_pos; nia).
    apply Z.ltb_lt in Hpast. rewrite Hpast in Herr.
    simpl in Herr. congruence. }
  destruct (LeaveRequestRepository.findOverlapping w
              (LeaveRequestService.employeeId d)
              (LeaveRequestService.startDate d)
              (LeaveRequestService.endDate d) None) as [| x xs] eqn:Hover.
  { exfalso.
    rewrite (createLeaveRequest_validated env w d) in Herr.
    - destruct (LeaveRequestRepository.findByIdempotencyKey w _); discriminate.
    - repeat split; [assumption | lia | lia | assumption]. }
  right. right. split; [| split; [lia | split; [lia | discriminate]]].
  unfold LeaveRequestService.createLeaveRequest in Herr.
  rewrite Hemp, Hover in Herr. simpl negb in Herr. simpl newDate in Herr.
  unfold JsDate.gt, JsDate.lt in Herr.
  replace (LeaveRequestService.endDate d * MILLISECONDS_IN_DAY
           <? LeaveRequestService.startDate d * MILLISECONDS_IN_DAY)
    with false in Herr
    by (symmetry; apply Z.ltb_ge; pose proof MILLISECONDS_IN_DAY_pos; nia).
  replace (LeaveRequestService.startDate d * MILLISECONDS_IN_DAY
           <? setHours0 (utcOffset env) (now env))
    with false in Herr by (symmetry; apply Z.ltb_ge; lia).
  simpl in Herr. congruence.
Qed.

Lemma errorHandler_is_never_a_success (e : Error) :
  Http.errorHandler e <> Http.CREATED /\ Http.errorHandler e <> Http.OK.
Proof. destruct e; split; vm_compute; discriminate. Qed.

(** X16: the status the creation controller and the error handler answer
    with, once the validators of the route have let the body through.
    CREATED exactly when the service returned a new record, OK exactly when
    it returned a duplicate, NOT_FOUND exactly when the employee does not
    exist.  A request of an existing employee with a well-formed range that
    starts in the past or overlaps an active request is answered
    INTERNAL_SERVER_ERROR, the errors thrown for it carrying no status of
    their own, and the world is left as it was. *)
Theorem postLeaveRequest_status :
  forall (env : Env) (w : World) (d : LeaveRequestService.LeaveRequestData),
    let response := Http.postLeaveRequest env w d in
    (snd response = Http.CREATED
     <-> exists r,
           LeaveRequestService.createLeaveRequest env w d
           = Ok (fst response, r)
           /\ LeaveRequestService.duplicate r = false)
    /\ (snd response = Http.OK
        <-> exists r,
              LeaveRequestService.createLeaveRequest env w d
              = Ok (fst response, r)
              /\ LeaveRequestService.duplicate r = true)
    /\ (snd response = Http.NOT_FOUND
        <-> EmployeeRepository.exists_ w (LeaveRequestService.employeeId d)
            = false)
    /\ (EmployeeRepository.exists_ w (LeaveRequestService.employeeId d) = true ->
        LeaveRequestService.startDate d <= LeaveRequestService.endDate d ->
        LeaveRequestService.startDate d * MILLISECONDS_IN_DAY
        < setHours0 (utcOffset env) (now env)
        \/ LeaveRequestRepository.findOverlapping w
             (LeaveRequestService.employeeId d)
             (LeaveRequestService.startDate d)
             (LeaveRequestService.endDate d) None <> [] ->
        response = (w, Http.INTERNAL_SERVER_ERROR)).
Proof.
  intros env w d response. subst response. unfold Http.postLeaveRequest.
  destruct (LeaveRequestService.createLeaveRequest env w d) as [[w' r] | e]
    eqn:Hc; cbn [fst snd].
  - destruct (createLeaveRequest_Ok_validated _ _ _ _ Hc)
      as (Hemp & Hdates & Hnotpast & Hnone).
    split; [| split; [| split]].
    + split.
      * intros Hst. exists r. split; [reflexivity |].
        destruct (LeaveRequestService.duplicate r);
          [discriminate | reflexivity].
      * intros (r0 & Heq & Hdup). injection Heq as <-. now rewrite Hdup.
    + split.
      * intros Hst. exists r. split; [reflexivity |].
        destruct (LeaveRequestService.duplicate r);
          [reflexivity | discriminate].
      * intros (r0 & Heq & Hdup). injection Heq as <-. now rewrite Hdup.
    + split.
      * destruct (LeaveRequestService.duplicate r); discriminate.
      * congruence.
    + intros _ _ [Hpast | Hover]; [lia | contradiction].
  - destruct (errorHandler_is_never_a_success e) as [Hcreated Hok].
    split; [| split; [| split]].
    + split; [contradiction | intros (r0 & Heq & _); discriminate].
    + split; [contradiction | intros (r0 & Heq & _); discriminate].
    + destruct (createLeaveRequest_errors _ _ _ _ Hc)
        as [[-> Hemp] | (Hemp & [[-> _] | [[-> _] | [-> _]]])];
        rewrite Hemp; split; intros H; try reflexivity;
          try discriminate H; vm_compute in H; discriminate H.
    + intros Hemp Hdates _.
      destruct (createLeaveRequest_errors _ _ _ _ Hc)
        as [[-> Hemp'] | (_ & [[-> Hrev] | [[-> _] | [-> _]]])];
        [congruence | lia | reflexivity | reflexivity].
Qed.

(** While request 1 is approved, employee 1 asks for days that overlap it:
    the answer is INTERNAL_SERVER_ERROR and nothing changes. *)
Lemma postLeaveRequest_status_example :
  Http.postLeaveRequest exampleEnv' approvedWorld laterRequest
  = (approvedWorld, Http.INTERNAL_SERVER_ERROR).
Proof.
  destruct (postLeaveRequest_status exampleEnv' approvedWorld laterRequest)
    as (_ & _ & _ & Hrefused).
  apply Hrefused.
  - reflexivity.
  - simpl. lia.
  - right. vm_compute. discriminate.
Defined.

(** With a whole number for [employeeId] and a string for [status], the
    service functions of the controllers are those of the service. *)
Lemma Http_cancelLeaveRequest_of_number (w : World) (i n : Z) :
  Http.cancelLeaveRequest w i (Http.JsonNumber n)
  = LeaveRequestService.cancelLeaveRequest w i n.
Proof. reflexivity. Qed.

Lemma Http_updateLeaveRequestStatus_of_string (env : Env) (w : World) (i : Z)
  (str : string) :
  Http.updateLeaveRequestStatus env w i (Http.JsonString str)
  = LeaveRequestService.updateLeaveRequestStatus env w i str.
Proof. reflexivity. Qed.

(** X17: the responses of the cancellation and status-update controllers
    with the error handler.  Both answer NOT_FOUND when no record has the
    id.  A cancellation is answered INTERNAL_SERVER_ERROR, and changes
    nothing, unless the [employeeId] of the body is the owner's id as a
    number (the owner's id as a string is refused) and the record is not
    REJECTED; then it is answered OK, the record is no longer found, every
    other id resolves as before and nothing is published.  A status update
    is answered INTERNAL_SERVER_ERROR unless the [status] of the body is
    the string of one of the four names; then it is answered OK and the
    record is found with that status, stamped with the clock, its other
    fields as before. *)
Theorem delete_and_patch_status :
  forall (env : Env) (w : World) (i : Z) (requester member : Http.JsonValue),
    match LeaveRequestRepository.findById w i with
    | None =>
        Http.deleteLeaveRequest w i requester = (w, Http.NOT_FOUND)
        /\ Http.patchLeaveRequestStatus env w i member = (w, Http.NOT_FOUND)
    | Some r =>
        (requester <> Http.JsonNumber (LeaveRequest.employeeId r) ->
           Http.deleteLeaveRequest w i requester
           = (w, Http.INTERNAL_SERVER_ERROR))
        /\ (LeaveRequest.status r = REJECTED ->
              Http.deleteLeaveRequest w i requester
              = (w, Http.INTERNAL_SERVER_ERROR))
        /\ (requester = Http.JsonNumber (LeaveRequest.employeeId r) ->
            LeaveRequest.status r <> REJECTED ->
              exists w',
                Http.deleteLeaveRequest w i requester = (w', Http.OK)
                /\ LeaveRequestRepository.findById w' i = None
                /\ (forall j, j <> i ->
                      LeaveRequestRepository.findById w' j
                      = LeaveRequestRepository.findById w j)
                /\ published w' = published w)
        /\ ((forall s, member <> Http.JsonString (statusName s)) ->
              Http.patchLeaveRequestStatus env w i member
              = (w, Http.INTERNAL_SERVER_ERROR))
        /\ (forall s,
              member = Http.JsonString (statusName s) ->
              exists w' r',
                Http.patchLeaveRequestStatus env w i member = (w', Http.OK)
                /\ LeaveRequestRepository.findById w' i = Some r'
                /\ LeaveRequest.status r' = s
                /\ LeaveRequest.processedAt r' = Some (now env)
                /\ sameRequest r r')
    end.
Proof.
  intros env w i requester member.
  unfold Http.deleteLeaveRequest, Http.patchLeaveRequestStatus,
    Http.cancelLeaveRequest, Http.updateLeaveRequestStatus.
  destruct (LeaveRequestRepository.findById w i) as [r |] eqn:Hfetch.
  - assert (Hex : LeaveRequestRepository.exists_ w i = true).
    { apply exists_findById. congruence. }
    rewrite Hex. cbn [negb throwIf bind].
    split; [| split; [| split; [| split]]].
    + intros Hother.
      assert (Hne : Http.strictNotEqual (LeaveRequest.employeeId r) requester
                    = true).
      { destruct requester as [n | str |]; try reflexivity. simpl.
        destruct (Z.eqb_spec (LeaveRequest.employeeId r) n);
          [subst n; contradiction | reflexivity]. }
      now rewrite Hne.
    + intros Hrej. rewrite Hrej.
      destruct (Http.strictNotEqual (LeaveRequest.employeeId r) requester);
        reflexivity.
    + intros -> Hst. simpl Http.strictNotEqual. rewrite Z.eqb_refl.
      apply Status_eqb_neq in Hst. rewrite Hst. cbn [negb throwIf bind].
      eexists. split; [reflexivity |].
      split; [apply findById_delete |].
      split; [| reflexivity].
      intros j Hj. apply findById_delete_other. congruence.
    + intros Hbad.
      destruct (Http.statusOfJson member) as [s |] eqn:Hs; [| reflexivity].
      exfalso. destruct member as [n | str |]; try discriminate.
      simpl in Hs. apply statusOfString_name in Hs.
      apply (Hbad s). now rewrite Hs.
    + intros s ->. simpl Http.statusOfJson.
      rewrite (proj2 (statusOfString_name (statusName s) s) eq_refl).
      pose proof (findById_id _ _ _ Hfetch) as Hi. subst i.
      destruct (updateStatus_moves_the_record env w r s Hfetch)
        as ((r' & Hfound & Hstatus & Hstamp & Hkept) & _).
      eexists. exists r'. split; [reflexivity |]. cbn [fst].
      split; [exact Hfound |]. split; [exact Hstatus |].
      split; [exact Hstamp | exact Hkept].
  - assert (Hex : LeaveRequestRepository.exists_ w i = false).
    { destruct (LeaveRequestRepository.exists_ w i) eqn:Hex; [| reflexivity].
      apply exists_findById in Hex. contradiction. }
    rewrite Hex. split; reflexivity.
Qed.

(** Request 1 belongs to employee 1.  A cancellation whose body gives the
    employee as the string "1" is answered INTERNAL_SERVER_ERROR and the
    request stays; with the number 1 it is answered OK and the request is
    gone. *)
Lemma delete_and_patch_status_example :
  Http.deleteLeaveRequest oneRequestWorld 1 (Http.JsonString "1")
  = (oneRequestWorld, Http.INTERNAL_SERVER_ERROR)
  /\ exists w',
       Http.deleteLeaveRequest oneRequestWorld 1 (Http.JsonNumber 1)
       = (w', Http.OK)
       /\ LeaveRequestRepository.findById w' 1 = None.
Proof.
  pose proof (delete_and_patch_status exampleEnv oneRequestWorld 1
                (Http.JsonString "1") Http.JsonOther) as Hstring.
  pose proof (delete_and_patch_status exampleEnv oneRequestWorld 1
                (Http.JsonNumber 1) Http.JsonOther) as Hnumber.
  change (LeaveRequestRepository.findById oneRequestWorld 1)
    with (Some theRequest) in Hstring, Hnumber.
  cbv iota beta in Hstring, Hnumber.
  destruct Hstring as (Hrefused & _).
  destruct Hnumber as (_ & _ & Hcancelled & _).
  split.
  - apply Hrefused. discriminate.
  - destruct (Hcancelled eq_refl ltac:(discriminate))
      as (w' & Hresponse & Hgone & _).
    exists w'. split; assumption.
Defined.

(** ** The consumer's retries *)

Lemma failingDeliveries_from (maxRetriesEnv : option Z) (n : nat) :
  forall (fuel : nat) (c : Z),
    RabbitMq.maxRetriesOf maxRetriesEnv - c = Z.of_nat n ->
    (n < fuel)%nat ->
    RabbitMq.failingDeliveries fuel maxRetriesEnv (Some c)
    = (map (fun k => RabbitMq.NackAndRepublish (c + Z.of_nat k)) (seq 1 n)
       ++ [RabbitMq.NackAndDrop])%list.
Proof.
  induction n as [| n IH]; intros fuel c Hm Hfuel;
    (destruct fuel as [| fuel]; [lia |]);
    cbn [RabbitMq.failingDeliveries RabbitMq.onDelivery negb
         RabbitMq.retryCountOf].
  - replace (c <? RabbitMq.maxRetriesOf maxRetriesEnv) with false
      by (symmetry; apply Z.ltb_ge; lia).
    reflexivity.
  - replace (c <? RabbitMq.maxRetriesOf maxRetriesEnv) with true
      by (symmetry; apply Z.ltb_lt; lia).
    rewrite (IH fuel (c + 1)) by lia.
    cbn [seq map app]. rewrite <- (seq_shift n 1), map_map.
    replace (c + Z.of_nat 1) with (c + 1) by lia.
    f_equal. f_equal.
    apply map_ext. intros k. f_equal. lia.
Qed.

(** X18: a message whose handling throws at every delivery is republished
    exactly maxRetries times, with the retry counts 1 to maxRetries, and then
    dropped: the retries end.  maxRetries is 3 when RABBITMQ_MAX_RETRIES is
    unset, not a number, or 0; with a negative value the first failure
    drops the message. *)
Theorem failing_message_is_retried_then_dropped :
  forall (maxRetriesEnv : option Z) (fuel : nat),
    (0 <= RabbitMq.maxRetriesOf maxRetriesEnv ->
     (Z.to_nat (RabbitMq.maxRetriesOf maxRetriesEnv) < fuel)%nat ->
     RabbitMq.failingDeliveries fuel maxRetriesEnv None
     = (map (fun k => RabbitMq.NackAndRepublish (Z.of_nat k))
          (seq 1 (Z.to_nat (RabbitMq.maxRetriesOf maxRetriesEnv)))
        ++ [RabbitMq.NackAndDrop])%list)
    /\ (RabbitMq.maxRetriesOf maxRetriesEnv < 0 ->
        (0 < fuel)%nat ->
        RabbitMq.failingDeliveries fuel maxRetriesEnv None
        = [RabbitMq.NackAndDrop])
    /\ RabbitMq.maxRetriesOf None = 3
    /\ RabbitMq.maxRetriesOf (Some 0) = 3.
Proof.
  intros maxRetriesEnv fuel. split; [| split; [| split; reflexivity]].
  - intros Hm Hfuel.
    assert (Hsame : RabbitMq.failingDeliveries fuel maxRetriesEnv None
                    = RabbitMq.failingDeliveries fuel maxRetriesEnv (Some 0)).
    { destruct fuel; reflexivity. }
    rewrite Hsame.
    rewrite (failingDeliveries_from maxRetriesEnv
               (Z.to_nat (RabbitMq.maxRetriesOf maxRetriesEnv)) fuel 0)
      by lia.
    reflexivity.
  - intros Hm Hfuel. destruct fuel as [| fuel]; [lia |].
    cbn [RabbitMq.failingDeliveries RabbitMq.onDelivery negb
         RabbitMq.retryCountOf].
    replace (0 <? RabbitMq.maxRetriesOf maxRetriesEnv) with false
      by (symmetry; apply Z.ltb_ge; lia).
    reflexivity.
Qed.

(** With RABBITMQ_MAX_RETRIES=0 a failing message is still republished
    three times. *)
Lemma failing_message_with_zero_retries_configured :
  RabbitMq.failingDeliveries 10 (Some 0) None
  = [RabbitMq.NackAndRepublish 1; RabbitMq.NackAndRepublish 2;
     RabbitMq.NackAndRepublish 3; RabbitMq.NackAndDrop].
Proof.
  apply (proj1 (failing_message_is_retried_then_dropped (Some 0) 10)).
  - discriminate.
  - simpl. lia.
Defined.

(** ** The rate limiter *)

Lemma serve_in_window (o : RateLimiter.Options) (key : string)
  (times : list Z) :
  forall (s : RateLimiter.Store) (c R : Z),
    s key = Some (RateLimiter.mkRequestData c R) ->
    Forall (fun t => t <= R) times ->
    snd (RateLimiter.serve o s key times)
    = map (fun i => c + Z.of_nat i <=? RateLimiter.maxRequests o)
        (seq 1 (List.length times))
    /\ fst (RateLimiter.serve o s key times) key
       = Some (RateLimiter.mkRequestData (c + Z.of_nat (List.length times)) R)
    /\ (forall k, k <> key ->
          fst (RateLimiter.serve o s key times) k = s k).
Proof.
  induction times as [| t times IH]; intros s c R Hs Hin.
  - simpl. rewrite Z.add_0_r. auto.
  - inversion Hin as [| x xs Ht Hrest]; subst.
    cbn [RateLimiter.serve].
    destruct (RateLimiter.rateLimiter o s key t) as [s1 d] eqn:Hstep.
    unfold RateLimiter.rateLimiter in Hstep. rewrite Hs in Hstep.
    cbn [RateLimiter.resetTime RateLimiter.count] in Hstep.
    replace (R <? t) with false in Hstep by (symmetry; apply Z.ltb_ge; lia).
    cbn [RateLimiter.resetTime RateLimiter.count] in Hstep.
    injection Hstep as <- <-.
    specialize (IH (RateLimiter.set s key (RateLimiter.mkRequestData (c + 1) R))
                  (c + 1) R).
    destruct (RateLimiter.serve o _ key times) as [s2 ds].
    destruct IH as (Hds & Hentry & Hother).
    { unfold RateLimiter.set. now rewrite String.eqb_refl. }
    { exact Hrest. }
    cbn [fst snd] in *. split; [| split].
    + cbn [List.length seq map]. f_equal.
      * match goal with
        | |- context [if ?b then _ else _] => destruct b eqn:Hlt
        end; cbn [RateLimiter.allowed]; symmetry;
          [apply Z.leb_gt; apply Z.ltb_lt in Hlt
          | apply Z.leb_le; apply Z.ltb_ge in Hlt]; lia.
      * rewrite <- (seq_shift (List.length times) 1), map_map, Hds.
        apply map_ext. intros i. f_equal. lia.
    + rewrite Hentry. f_equal. f_equal.
      cbn [List.length]. lia.
    + intros k Hk. rewrite (Hother k Hk). unfold RateLimiter.set.
      destruct (String.eqb_spec k key); [contradiction | reflexivity].
Qed.

(** X19: the quota of a window.  When a key has no entry, its request at
    instant t0 opens a window that ends at t0 + windowMs; of that request
    and the following ones up to the end of the window, the i-th is let
    through exactly when i <= maxRequests; the entry then counts them all,
    and the entries of the other keys are as before. *)
Theorem rateLimiter_quota_of_a_window :
  forall (o : RateLimiter.Options) (s : RateLimiter.Store) (key : string)
         (t0 : Z) (times : list Z),
    s key = None ->
    Forall (fun t => t <= t0 + RateLimiter.windowMs o) times ->
    snd (RateLimiter.serve o s key (t0 :: times))
    = map (fun i => Z.of_nat i <=? RateLimiter.maxRequests o)
        (seq 1 (S (List.length times)))
    /\ fst (RateLimiter.serve o s key (t0 :: times)) key
       = Some (RateLimiter.mkRequestData
                 (Z.of_nat (S (List.length times)))
                 (t0 + RateLimiter.windowMs o))
    /\ (forall k, k <> key ->
          fst (RateLimiter.serve o s key (t0 :: times)) k = s k).
Proof.
  intros o s key t0 times Hs Hin.
  cbn [RateLimiter.serve].
  destruct (RateLimiter.rateLimiter o s key t0) as [s1 d] eqn:Hstep.
  unfold RateLimiter.rateLimiter in Hstep. rewrite Hs in Hstep.
  cbn [RateLimiter.resetTime RateLimiter.count] in Hstep.
  injection Hstep as <- <-.
  pose proof (serve_in_window o key times
                (RateLimiter.set s key
                   (RateLimiter.mkRequestData (0 + 1)
                      (t0 + RateLimiter.windowMs o)))
                1 (t0 + RateLimiter.windowMs o)) as H.
  destruct (RateLimiter.serve o _ key times) as [s2 ds].
  destruct H as (Hds & Hentry & Hother).
  { unfold RateLimiter.set. now rewrite String.eqb_refl. }
  { exact Hin. }
  cbn [fst snd] in *. split; [| split].
  - cbn [seq map]. f_equal.
    + match goal with
      | |- context [if ?b then _ else _] => destruct b eqn:Hlt
      end; cbn [RateLimiter.allowed]; symmetry;
        [apply Z.leb_gt; apply Z.ltb_lt in Hlt
        | apply Z.leb_le; apply Z.ltb_ge in Hlt]; lia.
    + rewrite <- (seq_shift (List.length times) 1), map_map, Hds.
      apply map_ext. intros i. f_equal. lia.
  - rewrite Hentry. f_equal. f_equal. lia.
  - intros k Hk. rewrite (Hother k Hk). unfold RateLimiter.set.
    destruct (String.eqb_spec k key); [contradiction | reflexivity].
Qed.

(** With two requests a minute, the third request within the minute is
    refused. *)
Lemma rateLimiter_quota_example :
  snd (RateLimiter.serve (RateLimiter.mkOptions 60000 2)
         RateLimiter.emptyStore "10.0.0.1" [1000; 2000; 61000])
  = [true; true; false].
Proof.
  destruct (rateLimiter_quota_of_a_window (RateLimiter.mkOptions 60000 2)
              RateLimiter.emptyStore "10.0.0.1" 1000 [2000; 61000])
    as [Hdecisions _].
  - reflexivity.
  - repeat constructor; simpl; lia.
  - exact Hdecisions.
Defined.

(** X20: a request that comes after the end of the window of its key opens
    a new window, as if the key had no entry, while a request at the very
    instant the window ends still counts in it; and the periodic clean-up
    is invisible: a request made no earlier than a clean-up is answered,
    and leaves the entry of its key, as if the clean-up had not run. *)
Theorem rateLimiter_expiry_and_cleanUp :
  forall (o : RateLimiter.Options) (s : RateLimiter.Store) (key : string)
         (now : Z),
    (forall data,
       s key = Some data ->
       RateLimiter.resetTime data < now ->
       snd (RateLimiter.rateLimiter o s key now)
       = snd (RateLimiter.rateLimiter o RateLimiter.emptyStore key now)
       /\ fst (RateLimiter.rateLimiter o s key now) key
          = Some (RateLimiter.mkRequestData 1 (now + RateLimiter.windowMs o)))
    /\ (forall data,
          s key = Some data ->
          now <= RateLimiter.resetTime data ->
          fst (RateLimiter.rateLimiter o s key now) key
          = Some (RateLimiter.mkRequestData (RateLimiter.count data + 1)
                    (RateLimiter.resetTime data)))
    /\ (forall t,
          t <= now ->
          snd (RateLimiter.rateLimiter o (RateLimiter.cleanUp t s) key now)
          = snd (RateLimiter.rateLimiter o s key now)
          /\ fst (RateLimiter.rateLimiter o (RateLimiter.cleanUp t s) key now)
               key
             = fst (RateLimiter.rateLimiter o s key now) key).
Proof.
  intros o s key now. split; [| split].
  - intros data Hs Hexp. unfold RateLimiter.rateLimiter, RateLimiter.emptyStore.
    rewrite Hs. apply Z.ltb_lt in Hexp. rewrite Hexp.
    cbn [fst snd]. split; [reflexivity |].
    unfold RateLimiter.set. now rewrite String.eqb_refl.
  - intros data Hs Hin. unfold RateLimiter.rateLimiter. rewrite Hs.
    apply Z.ltb_ge in Hin. rewrite Hin. cbn [fst].
    unfold RateLimiter.set. now rewrite String.eqb_refl.
  - intros t Ht. unfold RateLimiter.rateLimiter, RateLimiter.cleanUp.
    cbn [fst snd]. unfold RateLimiter.set. rewrite !String.eqb_refl.
    destruct (s key) as [data |]; [| split; reflexivity].
    destruct (0 <? t - RateLimiter.resetTime data) eqn:Hdel;
      [| split; reflexivity].
    apply Z.ltb_lt in Hdel.
    replace (RateLimiter.resetTime data <? now) with true
      by (symmetry; apply Z.ltb_lt; lia).
    split; reflexivity.
Qed.

(** A refused client is let through again one millisecond after its window
    has ended. *)
Lemma rateLimiter_expiry_example :
  snd (RateLimiter.rateLimiter (RateLimiter.mkOptions 60000 2)
         (RateLimiter.set RateLimiter.emptyStore "10.0.0.1"
            (RateLimiter.mkRequestData 5 61000))
         "10.0.0.1" 61001)
  = RateLimiter.mkDecision true 1 None.
Proof.
  destruct (rateLimiter_expiry_and_cleanUp (RateLimiter.mkOptions 60000 2)
              (RateLimiter.set RateLimiter.emptyStore "10.0.0.1"
                 (RateLimiter.mkRequestData 5 61000))
              "10.0.0.1" 61001) as (Hexpired & _).
  destruct (Hexpired (RateLimiter.mkRequestData 5 61000) eq_refl) as [Hd _].
  - simpl. lia.
  - rewrite Hd. reflexivity.
Defined.

(** ** When a creation is accepted *)

Lemma findOverlapping_nil_iff (threshold : Z) (w : World) (employeeId s e : Z) :
  reachable threshold w ->
  s <= e ->
  (LeaveRequestRepository.findOverlapping w employeeId s e None = []
   <-> ~ activeOverlapExists w employeeId s e).
Proof.
  intros Hreach Hse.
  pose proof (reachable_storeInvariant threshold w Hreach) as Hinv.
  split.
  - intros Hnil (r & Hin & Hemp & Hact & Hov).
    assert (Hr : In r (LeaveRequestRepository.findOverlapping w employeeId s e
                         None)).
    { apply findOverlapping_selects; [assumption | now apply (inv_dates w Hinv) |].
      tauto. }
    rewrite Hnil in Hr. destruct Hr.
  - intros Hnone.
    destruct (LeaveRequestRepository.findOverlapping w employeeId s e None)
      as [| r rest] eqn:Hfind; [reflexivity |].
    exfalso. apply Hnone. exists r.
    assert (Hr : In r (LeaveRequestRepository.findOverlapping w employeeId s e
                         None)) by (rewrite Hfind; now left).
    assert (Hin : In r (leaveRequests w)).
    { unfold LeaveRequestRepository.findOverlapping in Hr.
      now apply filter_In in Hr. }
    apply findOverlapping_selects in Hr;
      [tauto | assumption | now apply (inv_dates w Hinv)].
Qed.

(** X22: in a reachable world a creation fails with "Leave request
    overlaps with existing approved or pending request" exactly when the
    employee exists, the range is well-formed, the start is not before the
    server's local midnight of today, and an APPROVED or PENDING_APPROVAL
    request of the employee shares a day with the range; and a creation
    that returns, new or duplicate, had no such request.  Requests that are
    PENDING or REJECTED never stand in the way. *)
Theorem createLeaveRequest_overlap_iff :
  forall (threshold : Z) (env : Env) (w : World)
         (d : LeaveRequestService.LeaveRequestData),
    reachable threshold w ->
    (LeaveRequestService.createLeaveRequest env w d = Err Overlap
     <-> EmployeeRepository.exists_ w (LeaveRequestService.employeeId d) = true
         /\ LeaveRequestService.startDate d <= LeaveRequestService.endDate d
         /\ setHours0 (utcOffset env) (now env)
            <= LeaveRequestService.startDate d * MILLISECONDS_IN_DAY
         /\ activeOverlapExists w (LeaveRequestService.employeeId d)
              (LeaveRequestService.startDate d)
              (LeaveRequestService.endDate d))
    /\ (forall res,
          LeaveRequestService.createLeaveRequest env w d = Ok res ->
          ~ activeOverlapExists w (LeaveRequestService.employeeId d)
              (LeaveRequestService.startDate d)
              (LeaveRequestService.endDate d)).
Proof.
  intros threshold env w d Hreach. split; [split |].
  - intros Herr.
    destruct (createLeaveRequest_errors _ _ _ _ Herr)
      as [[Heq _] | (Hemp & [[Heq _] | [[Heq _] | (_ & Hdates & Hnotpast & Hover)]])];
      try discriminate Heq.
    repeat split; try assumption.
    destruct (LeaveRequestRepository.findOverlapping w
                (LeaveRequestService.employeeId d)
                (LeaveRequestService.startDate d)
                (LeaveRequestService.endDate d) None) as [| r rest] eqn:Hfind;
      [contradiction |].
    assert (Hr : In r (LeaveRequestRepository.findOverlapping w
                         (LeaveRequestService.employeeId d)
                         (LeaveRequestService.startDate d)
                         (LeaveRequestService.endDate d) None))
      by (rewrite Hfind; now left).
    assert (Hin : In r (leaveRequests w)).
    { unfold LeaveRequestRepository.findOverlapping in Hr.
      now apply filter_In in Hr. }
    exists r.
    apply findOverlapping_selects in Hr;
      [tauto | assumption
       | now apply (inv_dates w (reachable_storeInvariant threshold w Hreach))].
  - intros (Hemp & Hdates & Hnotpast & Hactive).
    destruct (LeaveRequestService.createLeaveRequest env w d) as [res | e]
      eqn:Hc.
    + exfalso.
      destruct (createLeaveRequest_Ok_validated _ _ _ _ Hc)
        as (_ & _ & _ & Hnone).
      now apply (findOverlapping_nil_iff threshold) in Hnone.
    + destruct (createLeaveRequest_errors _ _ _ _ Hc)
        as [[_ Hemp'] | (_ & [[_ Hrev] | [(_ & _ & Hpast) | (-> & _)]])];
        [congruence | lia | lia | reflexivity].
  - intros res Hok.
    destruct (createLeaveRequest_Ok_validated _ _ _ _ Hok)
      as (_ & Hdates & _ & Hnone).
    now apply (findOverlapping_nil_iff threshold) in Hnone.
Qed.

(** While request 1 is approved for 2024-01-18 and 19, a request of the
    same employee for 2024-01-19 to 22 fails with the overlap error; while
    request 1 was only PENDING, the same request was created. *)
Lemma createLeaveRequest_overlap_example :
  LeaveRequestService.createLeaveRequest exampleEnv' approvedWorld
    laterRequest = Err Overlap
  /\ exists w' r,
       LeaveRequestService.createLeaveRequest exampleEnv' oneRequestWorld
         laterRequest = Ok (w', r)
       /\ LeaveRequestService.duplicate r = false.
Proof.
  split.
  - apply (proj1 (createLeaveRequest_overlap_iff
                    DEFAULT_AUTO_APPROVE_DAYS_THRESHOLD exampleEnv'
                    approvedWorld laterRequest approvedWorld_reachable)).
    split; [reflexivity |]. split; [simpl; lia |].
    split; [vm_compute; discriminate |].
    exists (LeaveRequest.withStatus APPROVED (now exampleEnv') theRequest).
    split; [left; reflexivity |]. split; [reflexivity |].
    split; [reflexivity |]. unfold rangesOverlap. simpl. lia.
  - do 2 eexists. split; [vm_compute; reflexivity | reflexivity].
Defined.

(** ** What keeps the active requests apart *)

Lemma noActiveOverlap_incl (w w' : World) :
  (forall r, In r (leaveRequests w') ->
             LeaveRequestRepository.isActive r = true ->
             In r (leaveRequests w)) ->
  noActiveOverlap w -> noActiveOverlap w'.
Proof.
  intros Hincl Hinv r1 r2 H1 H2 Hid Hemp Ha1 Ha2.
  apply Hinv; auto.
Qed.

Lemma create_or_cancel_step_apart (threshold : Z) (w : World) (op : Operation) :
  noActiveOverlap w ->
  match op with
  | CreateLeaveRequest _ _ | CancelLeaveRequest _ _ =>
      noActiveOverlap (step threshold w op)
  | _ => True
  end.
Proof.
  intros Hinv.
  destruct op as [env d | env i s | i e | env msg]; [| exact I | | exact I];
    simpl.
  - destruct (LeaveRequestService.createLeaveRequest env w d) as [res |] eqn:Hc;
      [| assumption].
    destruct (createLeaveRequest_cases _ _ _ _ Hc)
      as (_ & [(existing & _ & ->) | (_ & ->)]); simpl fst; [assumption |].
    apply (noActiveOverlap_incl w); [| assumption].
    intros r Hr Hact. cbn [leaveRequests createdWorld] in Hr.
    apply in_app_iff in Hr. destruct Hr as [Hr | [<- | []]];
      [assumption | discriminate].
  - destruct (LeaveRequestService.cancelLeaveRequest w i e) as [w' |] eqn:Hc;
      [| assumption].
    apply (noActiveOverlap_incl w); [| assumption].
    intros r Hr _. revert Hc Hr.
    unfold LeaveRequestService.cancelLeaveRequest.
    destruct (LeaveRequestRepository.findById w i); [| discriminate].
    unfold bind, throwIf.
    repeat match goal with
           | |- context [if ?c then _ else _] => destruct c
           end; try discriminate.
    intros Heq Hr. injection Heq as <-.
    cbn [leaveRequests LeaveRequestRepository.delete setLeaveRequests] in Hr.
    now apply filter_In in Hr.
Qed.

(** X23: creations and cancellations never bring two active requests of an
    employee to overlap: if no two active requests overlap before a
    creation or a cancellation, accepted or refused, none do after it.
    Only a status update or the processor can break the separation. *)
Theorem create_and_cancel_keep_active_requests_apart :
  forall (threshold : Z) (w : World),
    noActiveOverlap w ->
    (forall env d,
       noActiveOverlap (step threshold w (CreateLeaveRequest env d)))
    /\ (forall i e,
          noActiveOverlap (step threshold w (CancelLeaveRequest i e))).
Proof.
  intros threshold w Hinv. split.
  - intros env d.
    exact (create_or_cancel_step_apart threshold w (CreateLeaveRequest env d)
             Hinv).
  - intros i e.
    exact (create_or_cancel_step_apart threshold w (CancelLeaveRequest i e)
             Hinv).
Qed.

Lemma twoApprovedWorld_rows :
  exists first second,
    leaveRequests twoApprovedWorld = [first; second]
    /\ LeaveRequest.employeeId first = 1
    /\ LeaveRequest.employeeId second = 1
    /\ LeaveRequest.status first = APPROVED
    /\ LeaveRequest.status second = APPROVED
    /\ LeaveRequest.startDate first = 19740
    /\ LeaveRequest.endDate first = 19741
    /\ LeaveRequest.startDate second = 19750
    /\ LeaveRequest.endDate second = 19751.
Proof. do 2 eexists. split; [vm_compute; reflexivity |]. repeat split. Qed.

Lemma twoApprovedWorld_apart : noActiveOverlap twoApprovedWorld.
Proof.
  destruct twoApprovedWorld_rows
    as (first & second & Hrows & _ & _ & _ & _ & s1 & e1 & s2 & e2).
  intros r1 r2 H1 H2 Hid _ _ _. rewrite Hrows in H1, H2.
  unfold rangesOverlap.
  destruct H1 as [<- | [<- | []]], H2 as [<- | [<- | []]];
    try (exfalso; apply Hid; reflexivity); lia.
Qed.

(** Employee 1 has two approved requests, for 2024-01-18 and 19 and for
    2024-01-28 and 29.  A request for 2024-01-19 to 22 is refused for its
    overlap with the first, another for 2024-01-20 to 22 is created, and
    the first request is cancelled: in each of the three worlds no two
    active requests overlap. *)
Lemma create_and_cancel_keep_active_requests_apart_example :
  (exists first second,
     leaveRequests twoApprovedWorld = [first; second]
     /\ LeaveRequest.employeeId first = 1
     /\ LeaveRequest.employeeId second = 1
     /\ LeaveRequest.status first = APPROVED
     /\ LeaveRequest.status second = APPROVED
     /\ LeaveRequest.startDate first = 19740
     /\ LeaveRequest.endDate first = 19741
     /\ LeaveRequest.startDate second = 19750
     /\ LeaveRequest.endDate second = 19751)
  /\ LeaveRequestService.createLeaveRequest exampleEnv' twoApprovedWorld
       laterRequest = Err Overlap
  /\ noActiveOverlap
       (step DEFAULT_AUTO_APPROVE_DAYS_THRESHOLD twoApprovedWorld
          (CreateLeaveRequest exampleEnv' laterRequest))
  /\ List.length
       (leaveRequests
          (step DEFAULT_AUTO_APPROVE_DAYS_THRESHOLD twoApprovedWorld
             (CreateLeaveRequest exampleEnv'
                (LeaveRequestService.mkLeaveRequestData 1 19742 19744
                   (Some "between"))))) = 3%nat
  /\ noActiveOverlap
       (step DEFAULT_AUTO_APPROVE_DAYS_THRESHOLD twoApprovedWorld
          (CreateLeaveRequest exampleEnv'
             (LeaveRequestService.mkLeaveRequestData 1 19742 19744
                (Some "between"))))
  /\ List.length
       (leaveRequests
          (step DEFAULT_AUTO_APPROVE_DAYS_THRESHOLD twoApprovedWorld
             (CancelLeaveRequest 1 1))) = 1%nat
  /\ noActiveOverlap
       (step DEFAULT_AUTO_APPROVE_DAYS_THRESHOLD twoApprovedWorld
          (CancelLeaveRequest 1 1)).
Proof.
  destruct (create_and_cancel_keep_active_requests_apart
              DEFAULT_AUTO_APPROVE_DAYS_THRESHOLD twoApprovedWorld
              twoApprovedWorld_apart) as [Hcreate Hcancel].
  split; [exact twoApprovedWorld_rows |].
  split; [vm_compute; reflexivity |].
  split; [apply Hcreate |].
  split; [vm_compute; reflexivity |].
  split; [apply Hcreate |].
  split; [vm_compute; reflexivity | apply Hcancel].
Defined.

(** ** The overlap query with an excluded id *)

(** X21: the overlap query with an excluded id returns what it returns
    without one, less the rows of that id; an excluded id of 0 excludes
    nothing.  So in a reachable world an active request is returned for its
    own range, and is not once its id is excluded. *)
Theorem findOverlapping_excludeId :
  (forall (w : World) (employeeId s e x : Z),
     LeaveRequestRepository.findOverlapping w employeeId s e (Some x)
     = if x =? 0
       then LeaveRequestRepository.findOverlapping w employeeId s e None
       else filter (fun r => negb (LeaveRequest.id r =? x))
              (LeaveRequestRepository.findOverlapping w employeeId s e None))
  /\ (forall (threshold : Z) (w : World) (r : LeaveRequest.t),
        reachable threshold w ->
        In r (leaveRequests w) ->
        LeaveRequestRepository.isActive r = true ->
        In r (LeaveRequestRepository.findOverlapping w
                (LeaveRequest.employeeId r) (LeaveRequest.startDate r)
                (LeaveRequest.endDate r) None)
        /\ ~ In r (LeaveRequestRepository.findOverlapping w
                     (LeaveRequest.employeeId r) (LeaveRequest.startDate r)
                     (LeaveRequest.endDate r) (Some (LeaveRequest.id r)))).
Proof.
  split.
  - intros w employeeId s e x.
    unfold LeaveRequestRepository.findOverlapping,
      LeaveRequestRepository.notExcluded.
    destruct (x =? 0).
    + reflexivity.
    + induction (leaveRequests w) as [| r rows IH]; [reflexivity |].
      cbn [filter]. rewrite IH.
      destruct ((LeaveRequest.employeeId r =? employeeId)
                && LeaveRequestRepository.isActive r
                && LeaveRequestRepository.overlapMatch s e r);
        cbn [andb filter];
        destruct (negb (LeaveRequest.id r =? x)); reflexivity.
  - intros threshold w r Hreach Hin Hact.
    pose proof (reachable_storeInvariant threshold w Hreach) as Hinv.
    pose proof (inv_dates w Hinv r Hin) as Hdates.
    pose proof (inv_ids_range w Hinv r Hin) as Hrange.
    split.
    + apply findOverlapping_selects; try assumption.
      unfold rangesOverlap. repeat split; try assumption; lia.
    + unfold LeaveRequestRepository.findOverlapping. intros Hr.
      apply filter_In in Hr. destruct Hr as [_ Hr].
      unfold LeaveRequestRepository.notExcluded in Hr.
      replace (LeaveRequest.id r =? 0) with false in Hr
        by (symmetry; apply Z.eqb_neq; lia).
      rewrite !Z.eqb_refl in Hr. cbn [negb] in Hr.
      apply andb_true_iff in Hr. destruct Hr as [_ Hr]. discriminate.
Qed.

(** The approved request 1 is found for its own days, and is not when id 1
    is excluded. *)
Lemma findOverlapping_excludeId_example :
  LeaveRequestRepository.findOverlapping approvedWorld 1 19740 19741 None
  <> []
  /\ LeaveRequestRepository.findOverlapping approvedWorld 1 19740 19741
       (Some 1) = [].
Proof.
  assert (Hin : In (LeaveRequest.withStatus APPROVED (now exampleEnv') theRequest)
                  (leaveRequests approvedWorld)) by (left; reflexivity).
  destruct (proj2 findOverlapping_excludeId DEFAULT_AUTO_APPROVE_DAYS_THRESHOLD
              approvedWorld _ approvedWorld_reachable Hin eq_refl)
    as [Hfound _].
  split.
  - intros Hnil. cbn [LeaveRequest.employeeId LeaveRequest.startDate
                      LeaveRequest.endDate LeaveRequest.withStatus theRequest
                      createdRow keyedRequest
                      LeaveRequestService.employeeId
                      LeaveRequestService.startDate
                      LeaveRequestService.endDate] in Hfound.
    rewrite Hnil in Hfound. destruct Hfound.
  - reflexivity.
Defined.

(** ** The listing of one employee *)

(** X15: the listing of the requests of an employee fails with "Employee
    not found" when the employee does not exist; for an existing employee,
    a positive limit and a page of at least 1 it answers with at most limit
    rows, every one a stored request of that employee, whatever employee id
    the options carry, and total counts the employee's requests of the
    status asked for. *)
Theorem getLeaveRequestsByEmployee_lists_own_requests :
  forall (w : World) (employeeId : Z) (o : LeaveRequestListing.Options),
    (EmployeeRepository.exists_ w employeeId = false ->
       LeaveRequestQueries.getLeaveRequestsByEmployee w employeeId o
       = Err EmployeeNotFound)
    /\ (EmployeeRepository.exists_ w employeeId = true ->
        0 < LeaveRequestListing.limitOf o ->
        1 <= LeaveRequestListing.pageOf o ->
        exists listing,
          LeaveRequestQueries.getLeaveRequestsByEmployee w employeeId o
          = Ok (Some listing)
          /\ Z.of_nat (List.length (LeaveRequestQueries.data listing))
             <= LeaveRequestListing.limitOf o
          /\ (forall r, In r (LeaveRequestQueries.data listing) ->
                        In r (leaveRequests w)
                        /\ LeaveRequest.employeeId r = employeeId
                        /\ (forall s, LeaveRequestListing.status o = Some s ->
                                      LeaveRequest.status r = s))
          /\ LeaveRequestQueries.total (LeaveRequestQueries.pagination listing)
             = Z.of_nat
                 (List.length
                    (filter
                       (fun r =>
                          (LeaveRequest.employeeId r =? employeeId)
                          && match LeaveRequestListing.status o with
                             | Some s => Status_eqb (LeaveRequest.status r) s
                             | None => true
                             end)
                       (leaveRequests w)))).
Proof.
  intros w employeeId o.
  unfold LeaveRequestQueries.getLeaveRequestsByEmployee. split.
  - intros Hemp. now rewrite Hemp.
  - intros Hemp Hlimit Hpage. rewrite Hemp. cbn [negb throwIf bind].
    unfold LeaveRequestListing.findByEmployee, LeaveRequestListing.limitOffset.
    replace (LeaveRequestListing.limitOf o <? 0) with false
      by (symmetry; apply Z.ltb_ge; lia).
    replace ((LeaveRequestListing.pageOf o - 1) * LeaveRequestListing.limitOf o
             <? 0) with false by (symmetry; apply Z.ltb_ge; nia).
    cbn [orb option_map]. eexists. split; [reflexivity |].
    unfold LeaveRequestQueries.paginate.
    cbn [LeaveRequestQueries.data LeaveRequestQueries.pagination
         LeaveRequestQueries.total LeaveRequestListing.rows
         LeaveRequestListing.count].
    split; [| split].
    + rewrite length_firstn. lia.
    + intros r Hr. apply In_firstn, In_skipn in Hr.
      apply (Permutation_in _ (orderByCreatedAtDesc_perm _)) in Hr.
      apply filter_In in Hr. destruct Hr as [Hin Hsel].
      apply andb_true_iff in Hsel. destruct Hsel as [He Hs].
      apply Z.eqb_eq in He. repeat split; try assumption.
      intros s Hos. rewrite Hos in Hs. now apply Status_eqb_eq.
    + reflexivity.
Qed.

(** Employee 1's listing holds the three requests of employee 1; employee
    7 does not exist. *)
Lemma getLeaveRequestsByEmployee_examples :
  LeaveRequestQueries.getLeaveRequestsByEmployee (worldWith midYearRows) 7
    (pageOptions 1 10) = Err EmployeeNotFound
  /\ exists listing,
       LeaveRequestQueries.getLeaveRequestsByEmployee (worldWith midYearRows) 1
         (pageOptions 1 10) = Ok (Some listing)
       /\ LeaveRequestQueries.total (LeaveRequestQueries.pagination listing) = 3.
Proof.
  destruct (getLeaveRequestsByEmployee_lists_own_requests
              (worldWith midYearRows) 7 (pageOptions 1 10)) as [Hmissing _].
  destruct (getLeaveRequestsByEmployee_lists_own_requests
              (worldWith midYearRows) 1 (pageOptions 1 10)) as [_ Hfound].
  split; [now apply Hmissing |].
  destruct Hfound as (listing & Hok & _ & _ & Htotal);
    [reflexivity | reflexivity | discriminate |].
  exists listing. split; [exact Hok | exact Htotal].
Defined.
